(** * Exam attempt lifecycle and scoring: a shallow embedding

    The development follows the NestJS services of the examination
    subsystem:

    - [AttemptService] (create, update, checkExamAccess, calculateScore),
    - [AnswerService]  (create, update, bulkEvaluate).

    JavaScript numbers are IEEE 754 binary64 values, so they are embedded as
    Rocq's primitive floats; identifiers are strings; dates are milliseconds
    since the epoch.  The Prisma client is embedded as a state-and-exception
    monad over the tables the services touch. *)

From Stdlib Require Import Floats Uint63 ZArith String List Bool Lia.
Import ListNotations.

Set Implicit Arguments.

(** ** JavaScript values *)

Definition number := float.
Definition Date := Z.
Definition Json := string.

Module Js.

(** [Boolean(x)] for a number: [0], [-0] and [NaN] are falsy. *)
Definition truthy (x : number) : bool :=
  negb (PrimFloat.eqb x 0%float) && negb (PrimFloat.is_nan x).

(** [x || d] on numbers. *)
Definition or (x d : number) : number := if truthy x then x else d.

(** [Boolean(s)] for a string: only the empty string is falsy. *)
Definition truthy_str (s : string) : bool := negb (String.eqb s "").

(** [Boolean(s)] for [string | null | undefined]. *)
Definition truthy_ostr (s : option string) : bool :=
  match s with Some s => truthy_str s | None => false end.

(** [a === b] for [string | null]. *)
Definition seq_ostr (a b : option string) : bool :=
  match a, b with
  | Some x, Some y => String.eqb x y
  | None, None => true
  | _, _ => false
  end.

(** [Math.max(a, b)]: [NaN] is contagious and [+0] is above [-0]. *)
Definition max (a b : number) : number :=
  if PrimFloat.is_nan a || PrimFloat.is_nan b then PrimFloat.nan
  else if PrimFloat.ltb a b then b
  else if PrimFloat.ltb b a then a
  else match PrimFloat.classify a with
       | NZero => b
       | _ => a
       end.

(** [xs.length] as a number. *)
Definition length {A} (xs : list A) : number :=
  PrimFloat.of_uint63 (Uint63.of_Z (Z.of_nat (List.length xs))).

(** [xs.includes(s)] on an array of strings. *)
Definition includes (xs : list string) (s : string) : bool :=
  existsb (String.eqb s) xs.

End Js.

(** ** Enumerations of the generated Prisma client *)

(** Modelled from the spec: the generated Prisma client ([generated/prisma])
    is not part of the sources; the attempt states are the four of section
    4.2, which are also the only ones the services name. *)
Module AttemptStatus.
Inductive t := IN_PROGRESS | SUBMITTED | EVALUATED | COMPLETED.
Definition eqb (a b : t) : bool :=
  match a, b with
  | IN_PROGRESS, IN_PROGRESS | SUBMITTED, SUBMITTED
  | EVALUATED, EVALUATED | COMPLETED, COMPLETED => true
  | _, _ => false
  end.
End AttemptStatus.

(** Modelled from the spec: the purchase states of the generated client, as
    the payment and entitlement code names them. *)
Module PurchaseStatus.
Inductive t := PENDING | COMPLETED | FAILED | REFUNDED.
Definition eqb (a b : t) : bool :=
  match a, b with
  | PENDING, PENDING | COMPLETED, COMPLETED
  | FAILED, FAILED | REFUNDED, REFUNDED => true
  | _, _ => false
  end.
End PurchaseStatus.

(** Modelled from the spec: the purchase types of the generated client
    (course, test series, individual exam). *)
Module PurchaseType.
Inductive t := COURSE | TEST_SERIES | INDIVIDUAL_EXAM.
Definition eqb (a b : t) : bool :=
  match a, b with
  | COURSE, COURSE | TEST_SERIES, TEST_SERIES
  | INDIVIDUAL_EXAM, INDIVIDUAL_EXAM => true
  | _, _ => false
  end.
End PurchaseType.

(** Modelled from the spec: the question types of section 3 (MCQ and
    DESCRIPTIVE). *)
Module QuestionType.
Inductive t := MCQ | DESCRIPTIVE.
Definition eqb (a b : t) : bool :=
  match a, b with
  | MCQ, MCQ | DESCRIPTIVE, DESCRIPTIVE => true
  | _, _ => false
  end.
End QuestionType.

(** ** Rows *)

(** Modelled from the spec: the row types of the generated Prisma client are
    not part of the sources.  Each record below carries the columns of
    section 3 that the two services read or write, with the nullability the
    code relies on ([null] is [None]). *)

Record Exam := {
  exam_id : string;
  exam_isActive : bool;
  exam_isFree : bool;
  exam_testSeriesId : option string;
  exam_teacherId : string;
  exam_totalMarks : number;
  exam_negativeMarking : bool;
  exam_correctMark : number;
  exam_incorrectMark : number
}.

Record Question := {
  q_id : string;
  q_examId : string;
  q_type : QuestionType.t;
  q_correctOption : option string;
  q_options : list string;
  q_marks : number
}.

Record Purchase := {
  p_userId : string;
  p_status : PurchaseStatus.t;
  p_type : PurchaseType.t;
  p_examId : option string;
  p_testSeriesId : option string;
  p_validTill : Date
}.

Record Attempt := {
  a_id : string;
  a_userId : string;
  a_examId : string;
  a_status : AttemptStatus.t;
  a_startTime : Date;
  a_submitTime : option Date;
  a_endTime : option Date;
  a_maxScore : number;
  a_score : option number;
  a_percentage : option number;
  a_correctAnswers : option number;
  a_incorrectAnswers : option number;
  a_unattempted : option number;
  a_accuracy : option number;
  a_rank : option number;
  a_timeSpent : option number;
  a_answerSheetUrl : option string;
  a_evaluationStatus : option string;
  a_evaluatedBy : option string;
  a_feedback : option Json
}.

Record Answer := {
  ans_id : string;
  ans_attemptId : string;
  ans_questionId : string;
  ans_selectedOption : option string;
  ans_answerText : option string;
  ans_timeSpent : option number;
  ans_marks : option number;
  ans_feedback : option string;
  ans_evaluatedBy : option string;
  ans_evaluatedAt : option Date
}.

(** The tables the two services read and write. *)
Record Db := {
  exams : list Exam;
  questions : list Question;
  purchases : list Purchase;
  attempts : list Attempt;
  answers : list Answer
}.

(** Modelled from the spec: the user roles of the generated client. *)
Module UserRole.
Inductive t := STUDENT | TEACHER | ADMIN.
Definition eqb (a b : t) : bool :=
  match a, b with
  | STUDENT, STUDENT | TEACHER, TEACHER | ADMIN, ADMIN => true
  | _, _ => false
  end.
End UserRole.

(** Modelled from the spec: the two columns of a user the attempt service
    reads.  The services below never write the users and the test series,
    which are passed to them as lists. *)
Record User := {
  u_id : string;
  u_role : UserRole.t
}.

(** Modelled from the spec: a test series, of which the entitlement code
    reads the primary key only. *)
Record TestSeries := {
  ts_id : string
}.

(** ** Request payloads *)

(** The payloads after validation, with the fields the services read; an
    absent ([undefined]) field is [None]. *)

Record CreateAttemptDto := {
  cad_examId : string;
  cad_status : option AttemptStatus.t;
  cad_timeSpent : option number
}.

Record UpdateAttemptDto := {
  uad_status : option AttemptStatus.t;
  uad_timeSpent : option number;
  uad_feedback : option string;
  uad_score : option number;
  uad_evaluationStatus : option string;
  uad_correctAnswers : option number;
  uad_incorrectAnswers : option number;
  uad_unattempted : option number;
  uad_accuracy : option number;
  uad_rank : option number;
  uad_answerSheetUrl : option string
}.

Record CreateAnswerDto := {
  cd_attemptId : string;
  cd_questionId : string;
  cd_selectedOption : option string;
  cd_answerText : option string;
  cd_timeSpent : option number
}.

(** Modelled from the spec: the class [UpdateAnswerDto] is not part of the
    sources; these are the three optional fields [AnswerService.update]
    reads. *)
Record UpdateAnswerDto := {
  ud_selectedOption : option string;
  ud_answerText : option string;
  ud_timeSpent : option number
}.

(** One entry of the bulk evaluation body. *)
Record Evaluation := {
  ev_questionId : string;
  ev_marks : number;
  ev_feedback : option string
}.

(** The body of the single-answer evaluation request. *)
Record EvaluateAnswerDto := {
  ead_marks : number;
  ead_feedback : option string
}.

(** ** Exceptions and the Prisma monad *)

(** The HTTP exceptions of the framework, and the failure of a database
    call (connection loss, constraint violation, missing record). *)
Inductive Exception :=
| NotFoundException
| ForbiddenException
| BadRequestException
| ConflictException
| PrismaClientError.

Definition statusCode (e : Exception) : Z :=
  match e with
  | NotFoundException => 404
  | ForbiddenException => 403
  | BadRequestException => 400
  | ConflictException => 409
  | PrismaClientError => 500
  end.

Inductive Result (A : Type) :=
| Ok (a : A)
| Throw (e : Exception).
Arguments Ok {A} a.
Arguments Throw {A} e.

(** The world a request runs in: the tables, the number of database calls
    issued so far, and the calls that fail ([w_faults n] is [true] when the
    call of index [n] fails).  The fault map is never written. *)
Record World := {
  w_db : Db;
  w_ops : nat;
  w_faults : nat -> bool
}.

Definition Prisma (A : Type) := World -> Result A * World.

Definition ret {A} (a : A) : Prisma A := fun w => (Ok a, w).

Definition throw {A} (e : Exception) : Prisma A := fun w => (Throw e, w).

Definition bind {A B} (m : Prisma A) (k : A -> Prisma B) : Prisma B :=
  fun w =>
    match m w with
    | (Ok a, w') => k a w'
    | (Throw e, w') => (Throw e, w')
    end.

Declare Scope prisma_scope.
Delimit Scope prisma_scope with prisma.
Notation "x <- m ;; k" := (bind m (fun x => k))
  (at level 100, m at next level, right associativity) : prisma_scope.
Notation "m ;;; k" := (bind m (fun _ => k))
  (at level 100, right associativity) : prisma_scope.
Open Scope prisma_scope.

(** [try { m } catch (error) { h }] *)
Definition try_catch {A} (m : Prisma A) (h : Exception -> Prisma A) : Prisma A :=
  fun w =>
    match m w with
    | (Ok a, w') => (Ok a, w')
    | (Throw e, w') => h e w'
    end.

(** The world after one more database call that left the tables as [d]. *)
Definition advance (w : World) (d : Db) : World :=
  {| w_db := d; w_ops := S (w_ops w); w_faults := w_faults w |}.

(** One call of the client: it fails when the fault map says so, and
    otherwise runs [f] on the tables. *)
Definition call {A} (f : Db -> Result A * Db) : Prisma A :=
  fun w =>
    if w_faults w (w_ops w)
    then (Throw PrismaClientError, advance w (w_db w))
    else (fst (f (w_db w)), advance w (snd (f (w_db w)))).

Definition read {A} (f : Db -> A) : Prisma A :=
  call (fun d => (Ok (f d), d)).

(** [prisma.$transaction(async (prisma) => cb)]: the writes of [cb] are kept
    when [cb] returns and the commit goes through, and are all undone when
    [cb] throws or the commit fails. *)
Definition transaction {A} (cb : Prisma A) : Prisma A :=
  fun w =>
    match cb w with
    | (Ok a, w') =>
        if w_faults w' (w_ops w')
        then (Throw PrismaClientError, advance w' (w_db w))
        else (Ok a, advance w' (w_db w'))
    | (Throw e, w') =>
        (Throw e,
         {| w_db := w_db w; w_ops := w_ops w'; w_faults := w_faults w' |})
    end.

(** ** Update payloads ([data] of [prisma.x.update]) *)

(** A field left [undefined] ([None]) is not written. *)
Definition assign {A} (new : option A) (old : A) : A :=
  match new with Some v => v | None => old end.

Record AttemptData := {
  d_status : option AttemptStatus.t;
  d_submitTime : option Date;
  d_endTime : option Date;
  d_timeSpent : option number;
  d_score : option number;
  d_percentage : option number;
  d_correctAnswers : option number;
  d_incorrectAnswers : option number;
  d_unattempted : option number;
  d_accuracy : option number;
  d_rank : option number;
  d_answerSheetUrl : option string;
  d_evaluationStatus : option string;
  d_evaluatedBy : option string;
  d_feedback : option Json
}.

Definition set {A} (new : option A) (old : option A) : option A :=
  match new with Some v => Some v | None => old end.

Definition applyAttemptData (u : AttemptData) (a : Attempt) : Attempt :=
  {| a_id := a_id a;
     a_userId := a_userId a;
     a_examId := a_examId a;
     a_status := assign (d_status u) (a_status a);
     a_startTime := a_startTime a;
     a_submitTime := set (d_submitTime u) (a_submitTime a);
     a_endTime := set (d_endTime u) (a_endTime a);
     a_maxScore := a_maxScore a;
     a_score := set (d_score u) (a_score a);
     a_percentage := set (d_percentage u) (a_percentage a);
     a_correctAnswers := set (d_correctAnswers u) (a_correctAnswers a);
     a_incorrectAnswers := set (d_incorrectAnswers u) (a_incorrectAnswers a);
     a_unattempted := set (d_unattempted u) (a_unattempted a);
     a_accuracy := set (d_accuracy u) (a_accuracy a);
     a_rank := set (d_rank u) (a_rank a);
     a_timeSpent := set (d_timeSpent u) (a_timeSpent a);
     a_answerSheetUrl := set (d_answerSheetUrl u) (a_answerSheetUrl a);
     a_evaluationStatus := set (d_evaluationStatus u) (a_evaluationStatus a);
     a_evaluatedBy := set (d_evaluatedBy u) (a_evaluatedBy a);
     a_feedback := set (d_feedback u) (a_feedback a) |}.

(** For the nullable columns an update may write, [Some None] writes
    [null] and [None] leaves the column alone. *)
Record AnswerData := {
  ad_selectedOption : option (option string);
  ad_answerText : option (option string);
  ad_timeSpent : option number;
  ad_marks : option (option number);
  ad_feedback : option string;
  ad_evaluatedBy : option string;
  ad_evaluatedAt : option Date
}.

Definition applyAnswerData (u : AnswerData) (a : Answer) : Answer :=
  {| ans_id := ans_id a;
     ans_attemptId := ans_attemptId a;
     ans_questionId := ans_questionId a;
     ans_selectedOption := assign (ad_selectedOption u) (ans_selectedOption a);
     ans_answerText := assign (ad_answerText u) (ans_answerText a);
     ans_timeSpent := set (ad_timeSpent u) (ans_timeSpent a);
     ans_marks := assign (ad_marks u) (ans_marks a);
     ans_feedback := set (ad_feedback u) (ans_feedback a);
     ans_evaluatedBy := set (ad_evaluatedBy u) (ans_evaluatedBy a);
     ans_evaluatedAt := set (ad_evaluatedAt u) (ans_evaluatedAt a) |}.

(** ** The client's table operations *)

Module prisma.

Definition with_attempts (d : Db) (l : list Attempt) : Db :=
  {| exams := exams d; questions := questions d; purchases := purchases d;
     attempts := l; answers := answers d |}.

Definition with_answers (d : Db) (l : list Answer) : Db :=
  {| exams := exams d; questions := questions d; purchases := purchases d;
     attempts := attempts d; answers := l |}.

Definition lookupExam (d : Db) (id : string) : option Exam :=
  find (fun e => String.eqb (exam_id e) id) (exams d).

Definition lookupQuestion (d : Db) (id : string) : option Question :=
  find (fun q => String.eqb (q_id q) id) (questions d).

Definition lookupAttempt (d : Db) (id : string) : option Attempt :=
  find (fun a => String.eqb (a_id a) id) (attempts d).

Definition lookupAnswer (d : Db) (id : string) : option Answer :=
  find (fun a => String.eqb (ans_id a) id) (answers d).

Definition sameKey (attemptId questionId : string) (a : Answer) : bool :=
  String.eqb (ans_attemptId a) attemptId &&
  String.eqb (ans_questionId a) questionId.

Definition lookupAnswerKey (d : Db) (attemptId questionId : string)
  : option Answer :=
  find (sameKey attemptId questionId) (answers d).

Module exam.
(** [findUnique({ where: { id, isActive: true } })] *)
Definition findUniqueActive (id : string) : Prisma (option Exam) :=
  read (fun d =>
    find (fun e => String.eqb (exam_id e) id && exam_isActive e) (exams d)).

(** [findUnique({ where: { id } })] *)
Definition findUnique (id : string) : Prisma (option Exam) :=
  read (fun d => lookupExam d id).
End exam.

Module purchase.
Definition findFirst (cond : Purchase -> bool) : Prisma (option Purchase) :=
  read (fun d => find cond (purchases d)).
End purchase.

Module question.
Definition findUnique (id : string) : Prisma (option Question) :=
  read (fun d => lookupQuestion d id).

(** [findMany({ where: { examId } })] *)
Definition findMany (examId : string) : Prisma (list Question) :=
  read (fun d => filter (fun q => String.eqb (q_examId q) examId) (questions d)).
End question.

Module attempt.
Definition findFirst (cond : Attempt -> bool) : Prisma (option Attempt) :=
  read (fun d => find cond (attempts d)).

Definition findUnique (id : string) : Prisma (option Attempt) :=
  read (fun d => lookupAttempt d id).

(** [findUnique({ where: { id }, include: { exam: true } })]; the
    relation is required, a row without its exam is a client error. *)
Definition findUniqueWithExam (id : string)
  : Prisma (option (Attempt * Exam)) :=
  call (fun d =>
    match lookupAttempt d id with
    | None => (Ok None, d)
    | Some a =>
        match lookupExam d (a_examId a) with
        | Some e => (Ok (Some (a, e)), d)
        | None => (Throw PrismaClientError, d)
        end
    end).

(** [create({ data })]: the primary key is unique. *)
Definition create (row : Attempt) : Prisma Attempt :=
  call (fun d =>
    match lookupAttempt d (a_id row) with
    | Some _ => (Throw PrismaClientError, d)
    | None => (Ok row, with_attempts d (attempts d ++ [row]))
    end).

(** [update({ where: { id }, data })]: fails when no row has the id. *)
Definition update (id : string) (data : AttemptData) : Prisma Attempt :=
  call (fun d =>
    match lookupAttempt d id with
    | None => (Throw PrismaClientError, d)
    | Some a =>
        (Ok (applyAttemptData data a),
         with_attempts d
           (map (fun r => if String.eqb (a_id r) id
                          then applyAttemptData data r else r)
                (attempts d)))
    end).

(** Modelled from the spec: [delete({ where: { id } })] fails when no row
    has the id; the answers of the attempt go with it (section 3: an answer
    is deleted only through the deletion of its attempt). *)
Definition delete (id : string) : Prisma Attempt :=
  call (fun d =>
    match lookupAttempt d id with
    | None => (Throw PrismaClientError, d)
    | Some a =>
        (Ok a,
         with_attempts
           (with_answers d
              (filter (fun r => negb (String.eqb (ans_attemptId r) id))
                      (answers d)))
           (filter (fun r => negb (String.eqb (a_id r) id)) (attempts d)))
    end).
End attempt.

Module answer.
(** [findUnique({ where: { attemptId_questionId } })] *)
Definition findUniqueKey (attemptId questionId : string)
  : Prisma (option Answer) :=
  read (fun d => lookupAnswerKey d attemptId questionId).

(** [findUnique({ where: { id }, include: { question, attempt: { include:
    { exam, user } } } })]; no caller reads the included user, which is
    left out. *)
Definition findUniqueFull (id : string)
  : Prisma (option (Answer * Question * Attempt * Exam)) :=
  call (fun d =>
    match lookupAnswer d id with
    | None => (Ok None, d)
    | Some a =>
        match lookupQuestion d (ans_questionId a),
              lookupAttempt d (ans_attemptId a) with
        | Some q, Some t =>
            match lookupExam d (a_examId t) with
            | Some e => (Ok (Some (a, q, t, e)), d)
            | None => (Throw PrismaClientError, d)
            end
        | _, _ => (Throw PrismaClientError, d)
        end
    end).

Fixpoint joinQuestions (d : Db) (l : list Answer)
  : option (list (Answer * Question)) :=
  match l with
  | [] => Some []
  | a :: l' =>
      match lookupQuestion d (ans_questionId a), joinQuestions d l' with
      | Some q, Some r => Some ((a, q) :: r)
      | _, _ => None
      end
  end.

(** [findMany({ where: { attemptId }, include: { question: true } })] *)
Definition findManyWithQuestion (attemptId : string)
  : Prisma (list (Answer * Question)) :=
  call (fun d =>
    match joinQuestions d
            (filter (fun a => String.eqb (ans_attemptId a) attemptId)
                    (answers d)) with
    | Some r => (Ok r, d)
    | None => (Throw PrismaClientError, d)
    end).

(** [create({ data })]: the primary key and the pair
    (attemptId, questionId) are unique. *)
Definition create (row : Answer) : Prisma Answer :=
  call (fun d =>
    match lookupAnswer d (ans_id row),
          lookupAnswerKey d (ans_attemptId row) (ans_questionId row) with
    | None, None => (Ok row, with_answers d (answers d ++ [row]))
    | _, _ => (Throw PrismaClientError, d)
    end).

(** [update({ where: { id }, data })] *)
Definition update (id : string) (data : AnswerData) : Prisma Answer :=
  call (fun d =>
    match lookupAnswer d id with
    | None => (Throw PrismaClientError, d)
    | Some a =>
        (Ok (applyAnswerData data a),
         with_answers d
           (map (fun r => if String.eqb (ans_id r) id
                          then applyAnswerData data r else r)
                (answers d)))
    end).

(** [update({ where: { attemptId_questionId }, data })] *)
Definition updateKey (attemptId questionId : string) (data : AnswerData)
  : Prisma Answer :=
  call (fun d =>
    match lookupAnswerKey d attemptId questionId with
    | None => (Throw PrismaClientError, d)
    | Some a =>
        (Ok (applyAnswerData data a),
         with_answers d
           (map (fun r => if sameKey attemptId questionId r
                          then applyAnswerData data r else r)
                (answers d)))
    end).
End answer.

Module user.
(** [findUnique({ where: { id } })] on the users. *)
Definition findUnique (users : list User) (id : string)
  : Prisma (option User) :=
  read (fun _ => find (fun u => String.eqb (u_id u) id) users).
End user.

Module testSeries.
(** [findUnique({ where: { id } })] on the test series. *)
Definition findUnique (series : list TestSeries) (id : string)
  : Prisma (option TestSeries) :=
  read (fun _ => find (fun t => String.eqb (ts_id t) id) series).
End testSeries.

End prisma.

(** ** AttemptService *)

Open Scope float_scope.

Record ScoreData := {
  sd_score : number;
  sd_correctAnswers : number;
  sd_incorrectAnswers : number;
  sd_unattempted : number;
  sd_accuracy : number
}.

(** The three counters the scoring loop mutates. *)
Record Tally := {
  t_score : number;
  t_correctAnswers : number;
  t_incorrectAnswers : number
}.

Module AttemptService.

(** The [where] clause of the individual-exam purchase query. *)
Definition examPurchaseWhere (userId examId : string) (p : Purchase) : bool :=
  String.eqb (p_userId p) userId &&
  PurchaseStatus.eqb (p_status p) PurchaseStatus.COMPLETED &&
  PurchaseType.eqb (p_type p) PurchaseType.INDIVIDUAL_EXAM &&
  Js.seq_ostr (p_examId p) (Some examId).

(** The [where] clause of the test-series purchase query. *)
Definition testSeriesPurchaseWhere (userId : string)
    (testSeriesId : option string) (p : Purchase) : bool :=
  String.eqb (p_userId p) userId &&
  PurchaseStatus.eqb (p_status p) PurchaseStatus.COMPLETED &&
  PurchaseType.eqb (p_type p) PurchaseType.TEST_SERIES &&
  Js.seq_ostr (p_testSeriesId p) testSeriesId.

(** [checkExamAccess(userId, examId, isFree)] *)
Definition checkExamAccess (userId examId : string) (isFree : bool)
  : Prisma bool :=
  if isFree then ret true
  else
    examPurchase <-
      prisma.purchase.findFirst (examPurchaseWhere userId examId) ;;
    match examPurchase with
    | Some _ => ret true
    | None =>
        exam <- prisma.exam.findUnique examId ;;
        match exam with
        | Some e =>
            if Js.truthy_ostr (exam_testSeriesId e)
            then
              testSeriesPurchase <-
                prisma.purchase.findFirst
                  (testSeriesPurchaseWhere userId (exam_testSeriesId e)) ;;
              match testSeriesPurchase with
              | Some _ => ret true
              | None => ret false
              end
            else ret false
        | None => ret false
        end
    end.

(** The [where] clause of the in-progress attempt query of [create]. *)
Definition inProgressWhere (userId examId : string) (a : Attempt) : bool :=
  String.eqb (a_userId a) userId &&
  String.eqb (a_examId a) examId &&
  AttemptStatus.eqb (a_status a) AttemptStatus.IN_PROGRESS.

(** [create(userId, createAttemptDto)]; [now] is [Date.now()] and [newId]
    the primary key the database gives the new row.  The payload's
    [timeSpent] is a number, so the two [typeof timeSpent === 'string']
    branches are not taken.  Every status is a non-empty string, so
    [createAttemptDto.status || IN_PROGRESS] falls back to IN_PROGRESS only
    when the payload has no status. *)
Definition create (now : Date) (newId : string)
    (userId : string) (createAttemptDto : CreateAttemptDto)
  : Prisma Attempt :=
  exam <- prisma.exam.findUniqueActive (cad_examId createAttemptDto) ;;
  match exam with
  | None => throw NotFoundException
  | Some exam =>
      hasAccess <- checkExamAccess userId (exam_id exam) (exam_isFree exam) ;;
      if negb hasAccess then throw ForbiddenException
      else
        existingAttempt <-
          prisma.attempt.findFirst (inProgressWhere userId (exam_id exam)) ;;
        match existingAttempt with
        | Some _ => throw BadRequestException
        | None =>
            let timeSpent := cad_timeSpent createAttemptDto in
            prisma.attempt.create
              {| a_id := newId;
                 a_userId := userId;
                 a_examId := exam_id exam;
                 a_status :=
                   match cad_status createAttemptDto with
                   | Some s => s
                   | None => AttemptStatus.IN_PROGRESS
                   end;
                 a_startTime := (now + 2 * 60 * 1000)%Z;
                 a_submitTime := None;
                 a_endTime := None;
                 a_maxScore := exam_totalMarks exam;
                 a_score := None;
                 a_percentage := None;
                 a_correctAnswers := None;
                 a_incorrectAnswers := None;
                 a_unattempted := None;
                 a_accuracy := None;
                 a_rank := None;
                 a_timeSpent := timeSpent;
                 a_answerSheetUrl := None;
                 a_evaluationStatus := None;
                 a_evaluatedBy := None;
                 a_feedback := None |}
        end
  end.

(** The body of [answers.forEach((answer) => ...)] in [calculateScore]. *)
Definition forEachAnswer (exam : Exam) (t : Tally) (aq : Answer * Question)
  : Tally :=
  let (answer, question) := aq in
  let t1 :=
    if QuestionType.eqb (q_type question) QuestionType.MCQ &&
       Js.truthy_ostr (ans_selectedOption answer)
    then
      if Js.seq_ostr (ans_selectedOption answer) (q_correctOption question)
      then {| t_score := t_score t + Js.or (q_marks question) 1;
              t_correctAnswers := t_correctAnswers t + 1;
              t_incorrectAnswers := t_incorrectAnswers t |}
      else
        if exam_negativeMarking exam
        then
          let negativeMarks := Js.or (exam_incorrectMark exam) 0 in
          {| t_score := t_score t + negativeMarks;
             t_correctAnswers := t_correctAnswers t;
             t_incorrectAnswers := t_incorrectAnswers t + 1 |}
        else
          {| t_score := t_score t;
             t_correctAnswers := t_correctAnswers t;
             t_incorrectAnswers := t_incorrectAnswers t + 1 |}
    else t in
  match q_type question, ans_marks answer with
  | QuestionType.DESCRIPTIVE, Some marks =>
      if PrimFloat.leb (q_marks question / 2) marks
      then {| t_score := t_score t1 + marks;
              t_correctAnswers := t_correctAnswers t1 + 1;
              t_incorrectAnswers := t_incorrectAnswers t1 |}
      else {| t_score := t_score t1 + marks;
              t_correctAnswers := t_correctAnswers t1;
              t_incorrectAnswers := t_incorrectAnswers t1 + 1 |}
  | _, _ => t1
  end.

(** What [calculateScore] computes once both queries have returned. *)
Definition scoreOf (exam : Exam) (answers : list (Answer * Question))
    (examQuestions : list Question) : ScoreData :=
  let t := fold_left (forEachAnswer exam) answers
             {| t_score := 0; t_correctAnswers := 0;
                t_incorrectAnswers := 0 |} in
  let score := Js.max 0 (t_score t) in
  let unattempted := Js.length examQuestions - Js.length answers in
  let accuracy :=
    if PrimFloat.ltb 0 (t_correctAnswers t)
    then t_correctAnswers t /
         (t_correctAnswers t + t_incorrectAnswers t) * 100
    else 0 in
  {| sd_score := score;
     sd_correctAnswers := t_correctAnswers t;
     sd_incorrectAnswers := t_incorrectAnswers t;
     sd_unattempted := unattempted;
     sd_accuracy := accuracy |}.

(** The [try] block of [calculateScore]. *)
Definition calculateScoreBody (exam : Exam) (attemptId : string)
  : Prisma (option ScoreData) :=
  answers <- prisma.answer.findManyWithQuestion attemptId ;;
  examQuestions <- prisma.question.findMany (exam_id exam) ;;
  ret (Some (scoreOf exam answers examQuestions)).

(** [calculateScore(exam, attemptId)]: the [catch] clause logs and
    returns [null]. *)
Definition calculateScore (exam : Exam) (attemptId : string)
  : Prisma (option ScoreData) :=
  try_catch (calculateScoreBody exam attemptId) (fun _ => ret None).

Section Update.

(** [JSON.parse], which throws on a malformed text. *)
Variable JSON_parse : string -> option Json.

(** [updateData] on the student branch, once the status has been
    accepted and the score computed. *)
Definition studentData (now : Date) (existingAttempt : Attempt)
    (updateAttemptDto : UpdateAttemptDto) (scoreData : option ScoreData)
  : AttemptData :=
  let submitting :=
    match uad_status updateAttemptDto with
    | Some AttemptStatus.SUBMITTED => true
    | _ => false
    end in
  let completing :=
    match uad_status updateAttemptDto with
    | Some AttemptStatus.COMPLETED => true
    | _ => false
    end in
  {| d_status := uad_status updateAttemptDto;
     d_submitTime := if submitting then Some now else None;
     d_endTime := if completing then Some now else None;
     d_timeSpent := uad_timeSpent updateAttemptDto;
     d_score := option_map sd_score scoreData;
     d_percentage :=
       option_map
         (fun sd => sd_score sd / a_maxScore existingAttempt * 100)
         scoreData;
     d_correctAnswers := option_map sd_correctAnswers scoreData;
     d_incorrectAnswers := option_map sd_incorrectAnswers scoreData;
     d_unattempted := option_map sd_unattempted scoreData;
     d_accuracy := option_map sd_accuracy scoreData;
     d_rank := None;
     d_answerSheetUrl := None;
     d_evaluationStatus := None;
     d_evaluatedBy := None;
     d_feedback := None |}.

(** [updateData] on the teacher branch. *)
Definition teacherData (userId : string) (existingAttempt : Attempt)
    (updateAttemptDto : UpdateAttemptDto) (feedback : option Json)
  : AttemptData :=
  let evaluating :=
    match uad_status updateAttemptDto with
    | Some AttemptStatus.EVALUATED => true
    | _ => false
    end in
  {| d_status := if evaluating then Some AttemptStatus.EVALUATED else None;
     d_submitTime := None;
     d_endTime := None;
     d_timeSpent := None;
     d_score := uad_score updateAttemptDto;
     d_percentage :=
       option_map (fun score => score / a_maxScore existingAttempt * 100)
                  (uad_score updateAttemptDto);
     d_correctAnswers := uad_correctAnswers updateAttemptDto;
     d_incorrectAnswers := uad_incorrectAnswers updateAttemptDto;
     d_unattempted := uad_unattempted updateAttemptDto;
     d_accuracy := uad_accuracy updateAttemptDto;
     d_rank := uad_rank updateAttemptDto;
     d_answerSheetUrl := uad_answerSheetUrl updateAttemptDto;
     d_evaluationStatus := uad_evaluationStatus updateAttemptDto;
     d_evaluatedBy := if evaluating then Some userId else None;
     d_feedback := feedback |}.

(** [if (typeof feedback === 'string') { try { feedback =
    JSON.parse(feedback) } catch { throw new BadRequestException } }];
    the payload's [timeSpent] is a number and is left as it is. *)
Definition parseFeedback (updateAttemptDto : UpdateAttemptDto)
  : Prisma (option Json) :=
  match uad_feedback updateAttemptDto with
  | None => ret None
  | Some text =>
      match JSON_parse text with
      | Some v => ret (Some v)
      | None => throw BadRequestException
      end
  end.

(** [update(id, userId, updateAttemptDto, isTeacher)] *)
Definition update (now : Date) (id userId : string)
    (updateAttemptDto : UpdateAttemptDto) (isTeacher : bool)
  : Prisma Attempt :=
  existing <- prisma.attempt.findUniqueWithExam id ;;
  match existing with
  | None => throw NotFoundException
  | Some (existingAttempt, exam) =>
      if negb isTeacher && negb (String.eqb (a_userId existingAttempt) userId)
      then throw ForbiddenException
      else
        feedback <- parseFeedback updateAttemptDto ;;
        updateData <-
          (if negb isTeacher
           then
             match uad_status updateAttemptDto with
             | Some AttemptStatus.SUBMITTED =>
                 scoreData <- calculateScore exam (a_id existingAttempt) ;;
                 ret (studentData now existingAttempt updateAttemptDto
                        scoreData)
             | Some AttemptStatus.COMPLETED | None =>
                 ret (studentData now existingAttempt updateAttemptDto None)
             | Some _ => throw BadRequestException
             end
           else
             ret (teacherData userId existingAttempt updateAttemptDto
                    feedback)) ;;
        prisma.attempt.update id updateData
  end.

End Update.

(** [remove(id, userId, isAdmin)] *)
Definition remove (id userId : string) (isAdmin : bool) : Prisma unit :=
  existingAttempt <- prisma.attempt.findUnique id ;;
  match existingAttempt with
  | None => throw NotFoundException
  | Some existingAttempt =>
      if negb isAdmin && negb (String.eqb (a_userId existingAttempt) userId)
      then throw ForbiddenException
      else prisma.attempt.delete id ;;; ret tt
  end.

(** The [data] of the update that assigns an evaluator. *)
Definition assignedData (evaluatorId : string) : AttemptData :=
  {| d_status := None;
     d_submitTime := None;
     d_endTime := None;
     d_timeSpent := None;
     d_score := None;
     d_percentage := None;
     d_correctAnswers := None;
     d_incorrectAnswers := None;
     d_unattempted := None;
     d_accuracy := None;
     d_rank := None;
     d_answerSheetUrl := None;
     d_evaluationStatus := Some "Assigned"%string;
     d_evaluatedBy := Some evaluatorId;
     d_feedback := None |}.

(** [assignAttemptToEvaluator(attemptId, evaluatorId, adminId)] *)
Definition assignAttemptToEvaluator (users : list User)
    (attemptId evaluatorId adminId : string) : Prisma Attempt :=
  admin <- prisma.user.findUnique users adminId ;;
  let isAdmin :=
    match admin with
    | Some admin => UserRole.eqb (u_role admin) UserRole.ADMIN
    | None => false
    end in
  if negb isAdmin then throw ForbiddenException
  else
    attempt <- prisma.attempt.findUnique attemptId ;;
    match attempt with
    | None => throw NotFoundException
    | Some _ =>
        evaluator <- prisma.user.findUnique users evaluatorId ;;
        let isTeacher :=
          match evaluator with
          | Some evaluator => UserRole.eqb (u_role evaluator) UserRole.TEACHER
          | None => false
          end in
        if negb isTeacher then throw BadRequestException
        else prisma.attempt.update attemptId (assignedData evaluatorId)
    end.

End AttemptService.

(** ** AnswerService *)

Module AnswerService.

(** The marks [create] computes before it writes the answer. *)
Definition marksAtWrite (exam : Exam) (question : Question)
    (selectedOption : option string) : option number :=
  if QuestionType.eqb (q_type question) QuestionType.MCQ &&
     Js.truthy_ostr selectedOption &&
     exam_negativeMarking exam
  then
    if Js.seq_ostr selectedOption (q_correctOption question)
    then Some (exam_correctMark exam)
    else Some (exam_incorrectMark exam)
  else None.

(** The [data] of the update [create] issues when the answer exists. *)
Definition upsertData (createAnswerDto : CreateAnswerDto)
    (marks : option number) : AnswerData :=
  {| ad_selectedOption := option_map Some (cd_selectedOption createAnswerDto);
     ad_answerText := option_map Some (cd_answerText createAnswerDto);
     ad_timeSpent := cd_timeSpent createAnswerDto;
     ad_marks := Some marks;
     ad_feedback := None;
     ad_evaluatedBy := None;
     ad_evaluatedAt := None |}.

(** The [data] of the insert [create] issues when the answer is new. *)
Definition insertData (newId : string) (createAnswerDto : CreateAnswerDto)
    (marks : option number) : Answer :=
  {| ans_id := newId;
     ans_attemptId := cd_attemptId createAnswerDto;
     ans_questionId := cd_questionId createAnswerDto;
     ans_selectedOption := cd_selectedOption createAnswerDto;
     ans_answerText := cd_answerText createAnswerDto;
     ans_timeSpent := cd_timeSpent createAnswerDto;
     ans_marks := marks;
     ans_feedback := None;
     ans_evaluatedBy := None;
     ans_evaluatedAt := None |}.

(** [create(userId, createAnswerDto)]; [newId] is the primary key the
    database gives a new row. *)
Definition create (newId : string) (userId : string)
    (createAnswerDto : CreateAnswerDto) : Prisma Answer :=
  found <- prisma.attempt.findUniqueWithExam (cd_attemptId createAnswerDto) ;;
  match found with
  | None => throw NotFoundException
  | Some (attempt, exam) =>
      if negb (String.eqb (a_userId attempt) userId)
      then throw ForbiddenException
      else if AttemptStatus.eqb (a_status attempt) AttemptStatus.SUBMITTED ||
              AttemptStatus.eqb (a_status attempt) AttemptStatus.EVALUATED
      then throw BadRequestException
      else
        question <- prisma.question.findUnique (cd_questionId createAnswerDto) ;;
        match question with
        | None => throw NotFoundException
        | Some question =>
            if negb (String.eqb (q_examId question) (a_examId attempt))
            then throw BadRequestException
            else
              existingAnswer <-
                prisma.answer.findUniqueKey (cd_attemptId createAnswerDto)
                  (cd_questionId createAnswerDto) ;;
              let marks :=
                marksAtWrite exam question
                  (cd_selectedOption createAnswerDto) in
              match existingAnswer with
              | Some _ =>
                  prisma.answer.updateKey (cd_attemptId createAnswerDto)
                    (cd_questionId createAnswerDto)
                    (upsertData createAnswerDto marks)
              | None =>
                  prisma.answer.create (insertData newId createAnswerDto marks)
              end
        end
  end.

(** [findOne(id)] *)
Definition findOne (id : string)
  : Prisma (Answer * Question * Attempt * Exam) :=
  answer <- prisma.answer.findUniqueFull id ;;
  match answer with
  | None => throw NotFoundException
  | Some r => ret r
  end.

(** [updateData] of [update] for the question's type. *)
Definition updateDataOf (answer : Answer) (question : Question)
    (updateAnswerDto : UpdateAnswerDto) : AnswerData :=
  let timeSpent :=
    match ud_timeSpent updateAnswerDto with
    | Some t =>
        Some (match ans_timeSpent answer with
              | Some old => Js.or old 0
              | None => 0
              end + t)
    | None => None
    end in
  match q_type question with
  | QuestionType.MCQ =>
      {| ad_selectedOption :=
           option_map Some (ud_selectedOption updateAnswerDto);
         ad_answerText :=
           if Js.truthy_ostr (ud_selectedOption updateAnswerDto) &&
              Js.truthy_ostr (ans_answerText answer)
           then Some None else None;
         ad_timeSpent := timeSpent;
         ad_marks := None;
         ad_feedback := None;
         ad_evaluatedBy := None;
         ad_evaluatedAt := None |}
  | QuestionType.DESCRIPTIVE =>
      {| ad_selectedOption :=
           if Js.truthy_ostr (ud_answerText updateAnswerDto) &&
              Js.truthy_ostr (ans_selectedOption answer)
           then Some None else None;
         ad_answerText := option_map Some (ud_answerText updateAnswerDto);
         ad_timeSpent := timeSpent;
         ad_marks := None;
         ad_feedback := None;
         ad_evaluatedBy := None;
         ad_evaluatedAt := None |}
  end.

(** [update(id, userId, updateAnswerDto)] *)
Definition update (id userId : string) (updateAnswerDto : UpdateAnswerDto)
  : Prisma Answer :=
  found <- findOne id ;;
  let '(answer, _, attempt, _) := found in
  if negb (String.eqb (a_userId attempt) userId)
  then throw ForbiddenException
  else if negb (AttemptStatus.eqb (a_status attempt) AttemptStatus.IN_PROGRESS)
  then throw ForbiddenException
  else
    question <- prisma.question.findUnique (ans_questionId answer) ;;
    match question with
    | None => throw NotFoundException
    | Some question =>
        let invalidOption :=
          match q_type question, ud_selectedOption updateAnswerDto with
          | QuestionType.MCQ, Some selectedOption =>
              Js.truthy_str selectedOption &&
              negb (Js.includes (q_options question) selectedOption)
          | _, _ => false
          end in
        if invalidOption then throw BadRequestException
        else prisma.answer.update id
               (updateDataOf answer question updateAnswerDto)
    end.

(** The [data] written to a graded answer. *)
Definition gradeData (now : Date) (teacherId : string)
    (evaluation : Evaluation) : AnswerData :=
  {| ad_selectedOption := None;
     ad_answerText := None;
     ad_timeSpent := None;
     ad_marks := Some (Some (ev_marks evaluation));
     ad_feedback := ev_feedback evaluation;
     ad_evaluatedBy := Some teacherId;
     ad_evaluatedAt := Some now |}.

(** The [for (const evaluation of evaluations)] loop of [bulkEvaluate],
    with its two counters. *)
Fixpoint evaluateEach (now : Date) (attemptId teacherId : string)
    (evaluations : list Evaluation) (evaluatedCount totalMarks : number)
  : Prisma (number * number) :=
  match evaluations with
  | [] => ret (evaluatedCount, totalMarks)
  | evaluation :: rest =>
      answer <- prisma.answer.findUniqueKey attemptId
                  (ev_questionId evaluation) ;;
      match answer with
      | Some answer =>
          prisma.answer.update (ans_id answer)
            (gradeData now teacherId evaluation) ;;;
          evaluateEach now attemptId teacherId rest
            (evaluatedCount + 1) (totalMarks + ev_marks evaluation)
      | None =>
          evaluateEach now attemptId teacherId rest evaluatedCount totalMarks
      end
  end.

(** The [data] of the attempt update that closes the transaction. *)
Definition evaluatedData (teacherId : string) (totalMarks : number)
  : AttemptData :=
  {| d_status := Some AttemptStatus.EVALUATED;
     d_submitTime := None;
     d_endTime := None;
     d_timeSpent := None;
     d_score := Some totalMarks;
     d_percentage := None;
     d_correctAnswers := None;
     d_incorrectAnswers := None;
     d_unattempted := None;
     d_accuracy := None;
     d_rank := None;
     d_answerSheetUrl := None;
     d_evaluationStatus := None;
     d_evaluatedBy := Some teacherId;
     d_feedback := None |}.

(** The callback handed to [$transaction]. *)
Definition bulkEvaluateTx (now : Date) (attemptId teacherId : string)
    (evaluations : list Evaluation) : Prisma number :=
  r <- evaluateEach now attemptId teacherId evaluations 0 0 ;;
  let '(evaluatedCount, totalMarks) := r in
  prisma.attempt.update attemptId (evaluatedData teacherId totalMarks) ;;;
  ret evaluatedCount.

(** [bulkEvaluate(attemptId, teacherId, evaluations)]; the result is the
    [count] of the returned object. *)
Definition bulkEvaluate (now : Date) (attemptId teacherId : string)
    (evaluations : list Evaluation) : Prisma number :=
  found <- prisma.attempt.findUniqueWithExam attemptId ;;
  match found with
  | None => throw NotFoundException
  | Some (attempt, exam) =>
      if negb (String.eqb (exam_teacherId exam) teacherId)
      then throw ForbiddenException
      else transaction (bulkEvaluateTx now attemptId teacherId evaluations)
  end.

(** The [data] of a single-answer evaluation. *)
Definition evaluationData (now : Date) (teacherId : string)
    (evaluateAnswerDto : EvaluateAnswerDto) : AnswerData :=
  {| ad_selectedOption := None;
     ad_answerText := None;
     ad_timeSpent := None;
     ad_marks := Some (Some (ead_marks evaluateAnswerDto));
     ad_feedback := ead_feedback evaluateAnswerDto;
     ad_evaluatedBy := Some teacherId;
     ad_evaluatedAt := Some now |}.

(** [evaluate(id, teacherId, evaluateAnswerDto)] *)
Definition evaluate (now : Date) (id teacherId : string)
    (evaluateAnswerDto : EvaluateAnswerDto) : Prisma Answer :=
  found <- findOne id ;;
  let '(_, _, _, exam) := found in
  if negb (String.eqb (exam_teacherId exam) teacherId)
  then throw ForbiddenException
  else prisma.answer.update id (evaluationData now teacherId evaluateAnswerDto).

End AnswerService.

(** ** AttemptController *)

Module AttemptController.

(** [PATCH /attempts/:id]: teachers and admins take the teacher branch. *)
Definition update (JSON_parse : string -> option Json) (now : Date)
    (userId : string) (role : UserRole.t) (id : string)
    (updateAttemptDto : UpdateAttemptDto) : Prisma Attempt :=
  let isTeacher :=
    UserRole.eqb role UserRole.TEACHER || UserRole.eqb role UserRole.ADMIN in
  AttemptService.update JSON_parse now id userId updateAttemptDto isTeacher.

(** [DELETE /attempts/:id] *)
Definition remove (userId : string) (role : UserRole.t) (id : string)
  : Prisma unit :=
  let isAdmin := UserRole.eqb role UserRole.ADMIN in
  AttemptService.remove id userId isAdmin.

End AttemptController.

(** ** TestSeriesService *)

Module TestSeriesService.

(** The [where] clause of the purchase query of [checkUserAccess]. *)
Definition validPurchaseWhere (now : Date) (userId testSeriesId : string)
    (p : Purchase) : bool :=
  String.eqb (p_userId p) userId &&
  Js.seq_ostr (p_testSeriesId p) (Some testSeriesId) &&
  PurchaseStatus.eqb (p_status p) PurchaseStatus.COMPLETED &&
  (now <=? p_validTill p)%Z.

(** [checkUserAccess(userId, testSeriesId)]; [now] is [new Date()]. *)
Definition checkUserAccess (series : list TestSeries) (now : Date)
    (userId testSeriesId : string) : Prisma bool :=
  testSeries <- prisma.testSeries.findUnique series testSeriesId ;;
  match testSeries with
  | None => throw NotFoundException
  | Some _ =>
      purchase <-
        prisma.purchase.findFirst (validPurchaseWhere now userId testSeriesId) ;;
      match purchase with
      | Some _ => ret true
      | None => ret false
      end
  end.

End TestSeriesService.

(** ** Vocabulary of the statements *)

(** No database call fails. *)
Definition reliable (w : World) : Prop := forall n, w_faults w n = false.

(** What [checkExamAccess] answers when its queries go through. *)
Definition accessGranted (d : Db) (userId examId : string) (isFree : bool)
  : bool :=
  if isFree then true
  else
    match find (AttemptService.examPurchaseWhere userId examId) (purchases d) with
    | Some _ => true
    | None =>
        match prisma.lookupExam d examId with
        | Some e =>
            if Js.truthy_ostr (exam_testSeriesId e)
            then
              match find (AttemptService.testSeriesPurchaseWhere userId
                            (exam_testSeriesId e)) (purchases d) with
              | Some _ => true
              | None => false
              end
            else false
        | None => false
        end
    end.

Module Spec.

(** The entitlement rule in the words of the specification: a completed
    purchase of the user, whose validity end-date is at or after the
    current time, of the individual-exam type for this exam or of the
    test-series type for the exam's parent test series. *)
Definition covers (d : Db) (examId : string) (p : Purchase) : bool :=
  (PurchaseType.eqb (p_type p) PurchaseType.INDIVIDUAL_EXAM &&
   Js.seq_ostr (p_examId p) (Some examId))
  ||
  (PurchaseType.eqb (p_type p) PurchaseType.TEST_SERIES &&
   match prisma.lookupExam d examId with
   | Some e =>
       match exam_testSeriesId e with
       | Some ts => Js.seq_ostr (p_testSeriesId p) (Some ts)
       | None => false
       end
   | None => false
   end).

Definition hasAccess (now : Date) (d : Db) (userId examId : string)
    (isFree : bool) : bool :=
  isFree ||
  existsb (fun p =>
    String.eqb (p_userId p) userId &&
    PurchaseStatus.eqb (p_status p) PurchaseStatus.COMPLETED &&
    (now <=? p_validTill p)%Z &&
    covers d examId p) (purchases d).

End Spec.

(** What the scoring loop adds to [score] for an MCQ answer that carries a
    selection, on an exam with negative marking. *)
Definition mcqAdded (exam : Exam) (question : Question)
    (selectedOption : option string) : number :=
  if Js.seq_ostr selectedOption (q_correctOption question)
  then Js.or (q_marks question) 1
  else Js.or (exam_incorrectMark exam) 0.

(** The stored [timeSpent] read as [answer.timeSpent || 0]. *)
Definition storedTimeSpent (answer : Answer) : number :=
  match ans_timeSpent answer with
  | Some old => Js.or old 0
  | None => 0
  end.

(** A student payload that only sets the status. *)
Definition statusOnly (s : AttemptStatus.t) : UpdateAttemptDto :=
  {| uad_status := Some s; uad_timeSpent := None; uad_feedback := None;
     uad_score := None; uad_evaluationStatus := None;
     uad_correctAnswers := None; uad_incorrectAnswers := None;
     uad_unattempted := None; uad_accuracy := None; uad_rank := None;
     uad_answerSheetUrl := None |}.

(** The attempt invariant: when a score is set, the percentage is
    [score / maxScore * 100]. *)
Definition percentageInvariant (a : Attempt) : Prop :=
  forall s, a_score a = Some s -> a_percentage a = Some (s / a_maxScore a * 100).

(** *** Bulk evaluation, as a function on the answers table *)

(** The primary key of the answer of a (attempt, question) pair. *)
Definition keyId (l : list Answer) (attemptId questionId : string)
  : option string :=
  option_map ans_id (find (prisma.sameKey attemptId questionId) l).

(** An entry is matched when the attempt has an answer to its question. *)
Definition matched (l : list Answer) (attemptId : string) (e : Evaluation)
  : bool :=
  match keyId l attemptId (ev_questionId e) with
  | Some _ => true
  | None => false
  end.

(** The effect of one round of the loop on the answers table. *)
Definition gradeOne (now : Date) (attemptId teacherId : string)
    (l : list Answer) (e : Evaluation) : list Answer :=
  match keyId l attemptId (ev_questionId e) with
  | Some id =>
      map (fun r => if String.eqb (ans_id r) id
                    then applyAnswerData (AnswerService.gradeData now teacherId e) r
                    else r) l
  | None => l
  end.

Definition gradeAll (now : Date) (attemptId teacherId : string)
    (l : list Answer) (es : list Evaluation) : list Answer :=
  fold_left (gradeOne now attemptId teacherId) es l.

(** The running total and the running count of the loop over the entries
    [es], in the order of the loop. *)
Definition totalOf (es : list Evaluation) (t0 : number) : number :=
  fold_left (fun t e => t + ev_marks e) es t0.

Definition countOf (es : list Evaluation) (c0 : number) : number :=
  fold_left (fun c _ => c + 1) es c0.

(** The entries that are written to the row of primary key [id]. *)
Definition hits (l : list Answer) (attemptId id : string)
    (es : list Evaluation) : list Evaluation :=
  filter (fun e => match keyId l attemptId (ev_questionId e) with
                   | Some k => String.eqb k id
                   | None => false
                   end) es.

(** A row after the entries [es] have been written to it, in order. *)
Definition graded (now : Date) (teacherId : string) (es : list Evaluation)
    (r : Answer) : Answer :=
  fold_left (fun r e => applyAnswerData (AnswerService.gradeData now teacherId e) r)
            es r.

(** What identifies a row: its primary key and its (attempt, question) pair. *)
Definition skeleton (r : Answer) : string * string * string :=
  (ans_id r, ans_attemptId r, ans_questionId r).

(** *** Invariants of the tables *)

(** At most one attempt of a user on an exam is IN_PROGRESS. *)
Definition singleInProgress (d : Db) : Prop :=
  forall userId examId,
    (List.length (filter (AttemptService.inProgressWhere userId examId)
                    (attempts d)) <= 1)%nat.

(** The (attempt, question) pair of an answer. *)
Definition pairOf (r : Answer) : string * string :=
  (ans_attemptId r, ans_questionId r).

(** Answers have distinct primary keys and distinct (attempt, question)
    pairs. *)
Definition uniqueAnswers (d : Db) : Prop :=
  NoDup (map ans_id (answers d)) /\ NoDup (map pairOf (answers d)).

(** The answer [r] with [m] as stored marks. *)
Definition withMarks (m : option number) (r : Answer) : Answer :=
  {| ans_id := ans_id r; ans_attemptId := ans_attemptId r;
     ans_questionId := ans_questionId r;
     ans_selectedOption := ans_selectedOption r;
     ans_answerText := ans_answerText r; ans_timeSpent := ans_timeSpent r;
     ans_marks := m; ans_feedback := ans_feedback r;
     ans_evaluatedBy := ans_evaluatedBy r;
     ans_evaluatedAt := ans_evaluatedAt r |}.

(** An answer the scoring loop passes over: a descriptive one that has no
    marks yet, or an MCQ one without a selection. *)
Definition unscored (aq : Answer * Question) : Prop :=
  match q_type (snd aq) with
  | QuestionType.DESCRIPTIVE => ans_marks (fst aq) = None
  | QuestionType.MCQ => Js.truthy_ostr (ans_selectedOption (fst aq)) = false
  end.

(** At most one of the two answer fields of a row holds a value. *)
Definition exclusive (r : Answer) : Prop :=
  Js.truthy_ostr (ans_selectedOption r) && Js.truthy_ostr (ans_answerText r)
  = false.

(** The payload carries a value for the field of the question's type. *)
Definition answersOwnField (q : Question) (dto : UpdateAnswerDto) : bool :=
  match q_type q with
  | QuestionType.MCQ => Js.truthy_ostr (ud_selectedOption dto)
  | QuestionType.DESCRIPTIVE => Js.truthy_ostr (ud_answerText dto)
  end.

(** The user [id] exists and has the role [role]. *)
Definition hasRole (users : list User) (id : string) (role : UserRole.t)
  : bool :=
  match find (fun u => String.eqb (u_id u) id) users with
  | Some u => UserRole.eqb (u_role u) role
  | None => false
  end.

(** A computation that never changes the tables, whatever it returns. *)
Definition readOnly {A} (m : Prisma A) : Prop :=
  forall w r w', m w = (r, w') -> w_db w' = w_db w.

(** A computation that leaves the tables as they were whenever it throws. *)
Definition failsClean {A} (m : Prisma A) : Prop :=
  forall w e w', m w = (Throw e, w') -> w_db w' = w_db w.

(** ** Sample data *)

Module Sample.

Local Open Scope string_scope.

Definition noFaults : nat -> bool := fun _ => false.

Definition exam1 : Exam :=
  {| exam_id := "e1"; exam_isActive := true; exam_isFree := false;
     exam_testSeriesId := Some "ts1"; exam_teacherId := "t1";
     exam_totalMarks := 10; exam_negativeMarking := true;
     exam_correctMark := 2; exam_incorrectMark := -1 |}.

(** An individual-exam purchase of [e1] by [u1], valid until time 1000. *)
Definition purchase1 : Purchase :=
  {| p_userId := "u1"; p_status := PurchaseStatus.COMPLETED;
     p_type := PurchaseType.INDIVIDUAL_EXAM; p_examId := Some "e1";
     p_testSeriesId := None; p_validTill := 1000%Z |}.

Definition blankAttempt (id userId examId : string)
    (status : AttemptStatus.t) (maxScore : number) : Attempt :=
  {| a_id := id; a_userId := userId; a_examId := examId;
     a_status := status; a_startTime := 0%Z; a_submitTime := None;
     a_endTime := None; a_maxScore := maxScore; a_score := None;
     a_percentage := None; a_correctAnswers := None;
     a_incorrectAnswers := None; a_unattempted := None;
     a_accuracy := None; a_rank := None; a_timeSpent := None;
     a_answerSheetUrl := None; a_evaluationStatus := None;
     a_evaluatedBy := None; a_feedback := None |}.

(** [u1] has bought [e1] and has no attempt yet. *)
Definition dbPurchased : Db :=
  {| exams := [exam1]; questions := []; purchases := [purchase1];
     attempts := []; answers := [] |}.

(** [u1] has bought [e1] and has an attempt in progress on it. *)
Definition dbInProgress : Db :=
  {| exams := [exam1]; questions := []; purchases := [purchase1];
     attempts := [blankAttempt "a1" "u1" "e1" AttemptStatus.IN_PROGRESS 10];
     answers := [] |}.

Definition world (d : Db) : World :=
  {| w_db := d; w_ops := 0; w_faults := noFaults |}.

Definition dtoPlain : CreateAttemptDto :=
  {| cad_examId := "e1"; cad_status := None; cad_timeSpent := None |}.

Definition dtoSubmitted : CreateAttemptDto :=
  {| cad_examId := "e1"; cad_status := Some AttemptStatus.SUBMITTED;
     cad_timeSpent := None |}.

(** An MCQ question of [e1] worth 4 marks, and a descriptive one worth 10. *)
Definition q1 : Question :=
  {| q_id := "q1"; q_examId := "e1"; q_type := QuestionType.MCQ;
     q_correctOption := Some "b"; q_options := ["a"; "b"; "c"; "d"];
     q_marks := 4 |}.

Definition q2 : Question :=
  {| q_id := "q2"; q_examId := "e1"; q_type := QuestionType.DESCRIPTIVE;
     q_correctOption := None; q_options := []; q_marks := 10 |}.

Definition blankAnswer (id attemptId questionId : string)
    (selectedOption answerText : option string) (timeSpent : option number)
  : Answer :=
  {| ans_id := id; ans_attemptId := attemptId; ans_questionId := questionId;
     ans_selectedOption := selectedOption; ans_answerText := answerText;
     ans_timeSpent := timeSpent; ans_marks := None; ans_feedback := None;
     ans_evaluatedBy := None; ans_evaluatedAt := None |}.

(** [u1]'s answer to [q1] in attempt [a1]: option b, 30 seconds so far. *)
Definition answer1 : Answer :=
  blankAnswer "n1" "a1" "q1" (Some "b") None (Some 30).

(** [u1]'s answer to [q2] in attempt [a1], no time recorded yet. *)
Definition answer2 : Answer :=
  blankAnswer "n2" "a1" "q2" None (Some "essay") None.

(** Attempt [a1] of [u1] on [e1], in the given status, with both answers. *)
Definition dbAnswering (status : AttemptStatus.t) : Db :=
  {| exams := [exam1]; questions := [q1; q2]; purchases := [purchase1];
     attempts := [blankAttempt "a1" "u1" "e1" status 10];
     answers := [answer1; answer2] |}.

Definition zeroTally : Tally :=
  {| t_score := 0; t_correctAnswers := 0; t_incorrectAnswers := 0 |}.

(** The upsert payload: option b again on [q1], 30 more seconds. *)
Definition upsert30 : CreateAnswerDto :=
  {| cd_attemptId := "a1"; cd_questionId := "q1";
     cd_selectedOption := Some "b"; cd_answerText := None;
     cd_timeSpent := Some 30 |}.

(** The revision payload: 30 more seconds, nothing else. *)
Definition revise30 : UpdateAnswerDto :=
  {| ud_selectedOption := None; ud_answerText := None;
     ud_timeSpent := Some 30 |}.

(** A [JSON.parse] that accepts every text. *)
Definition parseAny : string -> option Json := fun s => Some s.

(** A first answer to [q2] in attempt [a1]. *)
Definition upsertEssay : CreateAnswerDto :=
  {| cd_attemptId := "a1"; cd_questionId := "q2";
     cd_selectedOption := None; cd_answerText := Some "draft";
     cd_timeSpent := Some 5 |}.

(** Only the database call of index [n] fails. *)
Definition failsAt (n : nat) : nat -> bool := fun k => Nat.eqb k n.

Definition worldFailingAt (n : nat) (d : Db) : World :=
  {| w_db := d; w_ops := 0; w_faults := failsAt n |}.

(** The teacher grades the essay [q2] with 7 marks. *)
Definition grade7 : Evaluation :=
  {| ev_questionId := "q2"; ev_marks := 7; ev_feedback := Some "clear" |}.

(** A grade for a question the attempt has no answer to. *)
Definition gradeMissing : Evaluation :=
  {| ev_questionId := "q9"; ev_marks := 3; ev_feedback := None |}.

(** A grade of 1 mark for the answer to [q1]. *)
Definition grade1 : Evaluation :=
  {| ev_questionId := "q1"; ev_marks := 1; ev_feedback := None |}.

(** An exam of another teacher with one question of its own. *)
Definition exam2 : Exam :=
  {| exam_id := "e2"; exam_isActive := true; exam_isFree := true;
     exam_testSeriesId := None; exam_teacherId := "t2";
     exam_totalMarks := 5; exam_negativeMarking := false;
     exam_correctMark := 1; exam_incorrectMark := 0 |}.

Definition q3 : Question :=
  {| q_id := "q3"; q_examId := "e2"; q_type := QuestionType.MCQ;
     q_correctOption := Some "a"; q_options := ["a"; "b"]; q_marks := 1 |}.

(** The tables of [dbAnswering] with the second exam and its question. *)
Definition dbTwoExams (status : AttemptStatus.t) : Db :=
  {| exams := [exam1; exam2]; questions := [q1; q2; q3];
     purchases := [purchase1];
     attempts := [blankAttempt "a1" "u1" "e1" status 10];
     answers := [answer1; answer2] |}.

(** An answer of attempt [a1] to the question [q3] of [e2]. *)
Definition upsertForeign : CreateAnswerDto :=
  {| cd_attemptId := "a1"; cd_questionId := "q3";
     cd_selectedOption := Some "a"; cd_answerText := None;
     cd_timeSpent := None |}.

(** The essay of [u1], graded 7 by the teacher [t1]. *)
Definition answer2Graded : Answer :=
  {| ans_id := "n2"; ans_attemptId := "a1"; ans_questionId := "q2";
     ans_selectedOption := None; ans_answerText := Some "essay";
     ans_timeSpent := None; ans_marks := Some 7;
     ans_feedback := Some "clear"; ans_evaluatedBy := Some "t1";
     ans_evaluatedAt := Some 3000%Z |}.

Definition dbGraded (status : AttemptStatus.t) : Db :=
  {| exams := [exam1]; questions := [q1; q2]; purchases := [purchase1];
     attempts := [blankAttempt "a1" "u1" "e1" status 10];
     answers := [answer1; answer2Graded] |}.

(** A revision of the essay text. *)
Definition reviseEssay : UpdateAnswerDto :=
  {| ud_selectedOption := None; ud_answerText := Some "final";
     ud_timeSpent := None |}.

(** A row that holds both a selection and a text, as an upsert can leave. *)
Definition answerBoth : Answer :=
  blankAnswer "n2" "a1" "q2" (Some "b") (Some "essay") None.

Definition dbBoth : Db :=
  {| exams := [exam1]; questions := [q1; q2]; purchases := [purchase1];
     attempts := [blankAttempt "a1" "u1" "e1" AttemptStatus.IN_PROGRESS 10];
     answers := [answer1; answerBoth] |}.

(** An admin, a teacher and a student. *)
Definition users : list User :=
  [ {| u_id := "adm"; u_role := UserRole.ADMIN |};
    {| u_id := "t1"; u_role := UserRole.TEACHER |};
    {| u_id := "u1"; u_role := UserRole.STUDENT |} ].

(** The test series of [e1]. *)
Definition series : list TestSeries := [ {| ts_id := "ts1" |} ].

(** A test-series purchase of [ts1] by [u1], valid until time 1000. *)
Definition purchaseSeries : Purchase :=
  {| p_userId := "u1"; p_status := PurchaseStatus.COMPLETED;
     p_type := PurchaseType.TEST_SERIES; p_examId := None;
     p_testSeriesId := Some "ts1"; p_validTill := 1000%Z |}.

Definition dbSeries : Db :=
  {| exams := [exam1]; questions := []; purchases := [purchaseSeries];
     attempts := []; answers := [] |}.

End Sample.

(** * Verification *)

(** ** The monad under a fault-free run *)

Lemma reliable_advance (w : World) (d : Db) :
  reliable w -> reliable (advance w d).
Proof. intros H n. exact (H n). Qed.

Lemma call_reliable {A} (f : Db -> Result A * Db) (w : World) :
  reliable w ->
  call f w = (fst (f (w_db w)), advance w (snd (f (w_db w)))).
Proof. intros H. unfold call. rewrite H. reflexivity. Qed.

Lemma read_reliable {A} (f : Db -> A) (w : World) :
  reliable w -> read f w = (Ok (f (w_db w)), advance w (w_db w)).
Proof. intros H. unfold read. rewrite call_reliable by assumption. reflexivity. Qed.

(** A read leaves the tables alone, whether it fails or not. *)
Lemma read_db {A} (f : Db -> A) (w : World) :
  w_db (snd (read f w)) = w_db w /\
  w_faults (snd (read f w)) = w_faults w.
Proof. unfold read, call. destruct (w_faults w (w_ops w)); split; reflexivity. Qed.

Lemma read_cases {A} (f : Db -> A) (w : World) :
  read f w = (Ok (f (w_db w)), advance w (w_db w)) \/
  read f w = (Throw PrismaClientError, advance w (w_db w)).
Proof. unfold read, call. destruct (w_faults w (w_ops w)); auto. Qed.

(** ** Entitlement *)

(** Under a fault-free run [checkExamAccess] answers [accessGranted] and
    writes nothing. *)
Lemma checkExamAccess_reliable (userId examId : string) (isFree : bool) (w : World) :
  reliable w ->
  exists w',
    AttemptService.checkExamAccess userId examId isFree w
      = (Ok (accessGranted (w_db w) userId examId isFree), w') /\
    w_db w' = w_db w /\ reliable w'.
Proof.
  intros H. unfold AttemptService.checkExamAccess, accessGranted.
  destruct isFree.
  - exists w. auto.
  - unfold bind, prisma.purchase.findFirst, prisma.exam.findUnique.
    rewrite read_reliable by assumption.
    destruct (find _ (purchases (w_db w))).
    + eexists; split; [reflexivity|]. split; [reflexivity|].
      now apply reliable_advance.
    + rewrite read_reliable by now apply reliable_advance.
      cbn [w_db advance].
      destruct (prisma.lookupExam (w_db w) examId) as [e|].
      * destruct (Js.truthy_ostr (exam_testSeriesId e)).
        -- rewrite read_reliable by now do 2 apply reliable_advance.
           cbn [w_db advance].
           destruct (find _ (purchases (w_db w)));
             (eexists; split; [reflexivity|]; split; [reflexivity|];
              now do 3 apply reliable_advance).
        -- eexists; split; [reflexivity|]. split; [reflexivity|].
           now do 2 apply reliable_advance.
      * eexists; split; [reflexivity|]. split; [reflexivity|].
        now do 2 apply reliable_advance.
Qed.

(** [checkExamAccess] never writes, whatever fails. *)
Lemma checkExamAccess_db (userId examId : string) (isFree : bool) (w : World) :
  w_db (snd (AttemptService.checkExamAccess userId examId isFree w)) = w_db w.
Proof.
  unfold AttemptService.checkExamAccess.
  destruct isFree; [reflexivity|].
  unfold bind, prisma.purchase.findFirst, prisma.exam.findUnique.
  destruct (read_cases (fun d => find (AttemptService.examPurchaseWhere userId examId)
                                   (purchases d)) w) as [E|E]; rewrite E;
    [|reflexivity].
  destruct (find _ (purchases (w_db w))); [reflexivity|].
  match goal with |- context [read ?f ?w1] =>
    destruct (read_cases f w1) as [E1|E1]; rewrite E1 end; [|reflexivity].
  cbn [w_db advance].
  destruct (prisma.lookupExam (w_db w) examId) as [e|]; [|reflexivity].
  destruct (Js.truthy_ostr (exam_testSeriesId e)); [|reflexivity].
  match goal with |- context [read ?f ?w1] =>
    destruct (read_cases f w1) as [E2|E2]; rewrite E2 end; [|reflexivity].
  cbn [w_db advance].
  destruct (find _ (purchases (w_db w))); reflexivity.
Qed.

(** A free exam is open to everyone. *)
Lemma checkExamAccess_free (userId examId : string) (w : World) :
  AttemptService.checkExamAccess userId examId true w = (Ok true, w).
Proof. reflexivity. Qed.

(** [checkExamAccess] either answers or reports a failed database call, and
    writes nothing in both cases. *)
Lemma checkExamAccess_cases (userId examId : string) (isFree : bool) (w : World) :
  exists r w',
    AttemptService.checkExamAccess userId examId isFree w = (r, w') /\
    w_db w' = w_db w /\
    (r = Throw PrismaClientError \/ exists b, r = Ok b).
Proof.
  pose proof (checkExamAccess_db userId examId isFree w) as Hdb.
  destruct (AttemptService.checkExamAccess userId examId isFree w) as [r w'] eqn:E.
  exists r, w'. split; [reflexivity|]. split; [exact Hdb|].
  destruct r as [b|e]; [right; now exists b|left].
  revert E. unfold AttemptService.checkExamAccess.
  destruct isFree; [discriminate|].
  unfold bind, prisma.purchase.findFirst, prisma.exam.findUnique.
  destruct (read_cases (fun d => find (AttemptService.examPurchaseWhere userId examId)
                                   (purchases d)) w) as [E0|E0]; rewrite E0;
    [|congruence].
  destruct (find _ (purchases (w_db w))); [discriminate|].
  match goal with |- context [read ?f ?w1] =>
    destruct (read_cases f w1) as [E1|E1]; rewrite E1 end; [|congruence].
  cbn [w_db advance].
  destruct (prisma.lookupExam (w_db w) examId) as [ex|]; [|discriminate].
  destruct (Js.truthy_ostr (exam_testSeriesId ex)); [|discriminate].
  match goal with |- context [read ?f ?w1] =>
    destruct (read_cases f w1) as [E2|E2]; rewrite E2 end; [|congruence].
  cbn [w_db advance].
  destruct (find _ (purchases (w_db w))); discriminate.
Qed.

(** Whatever the specification's rule grants, the code grants too (the
    exam's series id being a non-empty string, as generated ids are). *)
Lemma hasAccess_accessGranted (now : Date) (d : Db) (userId examId : string)
    (isFree : bool) :
  (forall e, prisma.lookupExam d examId = Some e ->
             exam_testSeriesId e <> Some EmptyString) ->
  Spec.hasAccess now d userId examId isFree = true ->
  accessGranted d userId examId isFree = true.
Proof.
  intros Hne H. unfold Spec.hasAccess in H. unfold accessGranted.
  destruct isFree; [reflexivity|]. simpl in H.
  apply existsb_exists in H. destruct H as (p & Hin & Hp).
  repeat rewrite andb_true_iff in Hp. destruct Hp as (((Hu & Hs) & _) & Hc).
  destruct (find (AttemptService.examPurchaseWhere userId examId) (purchases d))
    as [p1|] eqn:F1; [reflexivity|].
  pose proof (find_none _ _ F1 p Hin) as N1.
  unfold AttemptService.examPurchaseWhere in N1. rewrite Hu, Hs in N1. simpl in N1.
  unfold Spec.covers in Hc. apply orb_true_iff in Hc. destruct Hc as [Hc|Hc].
  - apply andb_true_iff in Hc. destruct Hc as (Ht & He).
    rewrite Ht, He in N1. discriminate.
  - apply andb_true_iff in Hc. destruct Hc as (Ht & Hc).
    destruct (prisma.lookupExam d examId) as [e|] eqn:L; [|discriminate].
    destruct (exam_testSeriesId e) as [ts|] eqn:T; [|discriminate].
    assert (Js.truthy_ostr (Some ts) = true) as Tr.
    { unfold Js.truthy_ostr, Js.truthy_str.
      destruct (String.eqb ts "") eqn:Q; [|reflexivity].
      apply String.eqb_eq in Q. subst ts. exfalso.
      apply (Hne e eq_refl). exact T. }
    rewrite Tr.
    destruct (find (AttemptService.testSeriesPurchaseWhere userId (Some ts))
                (purchases d)) as [p2|] eqn:F2; [reflexivity|].
    pose proof (find_none _ _ F2 p Hin) as N2.
    unfold AttemptService.testSeriesPurchaseWhere in N2.
    rewrite Hu, Hs, Ht, Hc in N2. discriminate.
Qed.

(** C1, at the failing input: user [u1] holds a completed individual-exam
    purchase of the non-free exam [e1] whose validity ended at time 1000.
    At time 2000 the specification's rule refuses access, while
    [checkExamAccess] grants it and [create] opens an attempt: the purchase
    queries never look at [validTill]. *)
Theorem checkExamAccess_ignores_expiry :
  Spec.hasAccess 2000%Z Sample.dbPurchased "u1" "e1" false = false /\
  fst (AttemptService.checkExamAccess "u1" "e1" false
         (Sample.world Sample.dbPurchased)) = Ok true /\
  exists a w',
    AttemptService.create 2000%Z "a1" "u1" Sample.dtoPlain
      (Sample.world Sample.dbPurchased) = (Ok a, w') /\
    In a (attempts (w_db w')).
Proof.
  split; [reflexivity|]. split; [reflexivity|].
  eexists. eexists. split.
  - vm_compute. reflexivity.
  - simpl. left. reflexivity.
Qed.

(** ** Attempt creation *)

Lemma attempt_create_ok (row a : Attempt) (w w' : World) :
  prisma.attempt.create row w = (Ok a, w') -> a = row.
Proof.
  unfold prisma.attempt.create, call.
  destruct (w_faults w (w_ops w)); [discriminate|].
  destruct (prisma.lookupAttempt (w_db w) (a_id row)); simpl; congruence.
Qed.

(** C2, as amended: a successful [create] returns an attempt whose status is
    the one the payload supplies, and IN_PROGRESS when the payload supplies
    none. *)
Theorem create_status (now : Date) (newId userId : string)
    (dto : CreateAttemptDto) (w w' : World) (a : Attempt) :
  AttemptService.create now newId userId dto w = (Ok a, w') ->
  a_status a = match cad_status dto with
               | Some s => s
               | None => AttemptStatus.IN_PROGRESS
               end.
Proof.
  unfold AttemptService.create, bind.
  destruct (prisma.exam.findUniqueActive (cad_examId dto) w) as [[[ex|]|e] w1];
    try discriminate.
  destruct (AttemptService.checkExamAccess userId (exam_id ex) (exam_isFree ex) w1)
    as [[b|e] w2]; try discriminate.
  destruct (negb b); [discriminate|].
  destruct (prisma.attempt.findFirst _ w2) as [[[x|]|e] w3]; try discriminate.
  intros H. apply attempt_create_ok in H. subst a. reflexivity.
Qed.

(** C2, witness: the payload asks for SUBMITTED and gets it. *)
Lemma create_status_witness :
  exists a w',
    AttemptService.create 500%Z "a1" "u1" Sample.dtoSubmitted
      (Sample.world Sample.dbPurchased) = (Ok a, w') /\
    a_status a = AttemptStatus.SUBMITTED.
Proof.
  eexists. eexists. split.
  - vm_compute. reflexivity.
  - exact (@create_status 500%Z "a1" "u1" Sample.dtoSubmitted
             (Sample.world Sample.dbPurchased) _ _ eq_refl).
Defined.

(** C2, counterexample: a payload with status SUBMITTED makes [create]
    succeed with an attempt that is not IN_PROGRESS. *)
Lemma create_status_counterexample :
  ~ (forall now newId userId dto w a w',
       AttemptService.create now newId userId dto w = (Ok a, w') ->
       a_status a = AttemptStatus.IN_PROGRESS).
Proof.
  intros H.
  assert (E : exists a w',
             AttemptService.create 500%Z "a1" "u1" Sample.dtoSubmitted
               (Sample.world Sample.dbPurchased) = (Ok a, w') /\
             a_status a = AttemptStatus.SUBMITTED).
  { eexists. eexists. split; [vm_compute; reflexivity|reflexivity]. }
  destruct E as (a & w' & E & S). apply H in E. congruence.
Qed.

Lemma find_exists {A} (f : A -> bool) (l : list A) (x : A) :
  In x l -> f x = true -> exists y, find f l = Some y.
Proof.
  intros Hin Hf. destruct (find f l) as [y|] eqn:E; [now exists y|].
  rewrite (find_none _ _ E x Hin) in Hf. discriminate.
Qed.

Lemma findUniqueActive_id (id : string) (d : Db) (ex : Exam) :
  find (fun e => String.eqb (exam_id e) id && exam_isActive e) (exams d) = Some ex ->
  exam_id ex = id.
Proof.
  intros H. apply find_some in H. destruct H as [_ H].
  apply andb_true_iff in H. now apply String.eqb_eq.
Qed.

Lemma inProgressWhere_true (a : Attempt) :
  a_status a = AttemptStatus.IN_PROGRESS ->
  AttemptService.inProgressWhere (a_userId a) (a_examId a) a = true.
Proof.
  intros H. unfold AttemptService.inProgressWhere.
  rewrite !String.eqb_refl, H. reflexivity.
Qed.

(** With an attempt in progress, [create] throws and writes nothing; what
    it throws is never the Conflict exception. *)
Lemma create_in_progress_fails (now : Date) (newId : string)
    (dto : CreateAttemptDto) (w : World) (a0 : Attempt) :
  In a0 (attempts (w_db w)) ->
  a_examId a0 = cad_examId dto ->
  a_status a0 = AttemptStatus.IN_PROGRESS ->
  exists e w',
    AttemptService.create now newId (a_userId a0) dto w = (Throw e, w') /\
    w_db w' = w_db w /\
    e <> ConflictException.
Proof.
  intros Hin Hex Hst. unfold AttemptService.create, bind.
  unfold prisma.exam.findUniqueActive.
  match goal with |- context [read ?f w] =>
    destruct (read_cases f w) as [E|E]; rewrite E end.
  2:{ eexists. eexists. split; [reflexivity|]. split; [reflexivity|discriminate]. }
  destruct (find _ (exams (w_db w))) as [ex|] eqn:F.
  2:{ eexists. eexists. split; [reflexivity|]. split; [reflexivity|discriminate]. }
  apply findUniqueActive_id in F.
  destruct (checkExamAccess_cases (a_userId a0) (exam_id ex) (exam_isFree ex)
              (advance w (w_db w))) as (r & w2 & E2 & D2 & R2).
  rewrite E2. cbn [w_db advance] in D2.
  destruct R2 as [R2|[b R2]]; subst r.
  { eexists. eexists. split; [reflexivity|]. split; [exact D2|discriminate]. }
  destruct b; simpl.
  2:{ eexists. eexists. split; [reflexivity|]. split; [exact D2|discriminate]. }
  unfold prisma.attempt.findFirst.
  match goal with |- context [read ?f w2] =>
    destruct (read_cases f w2) as [E3|E3]; rewrite E3 end.
  2:{ eexists. eexists. split; [reflexivity|]. split; [exact D2|discriminate]. }
  rewrite D2, F, <- Hex.
  destruct (find_exists _ _ _ Hin (inProgressWhere_true a0 Hst)) as [y Fy].
  rewrite Fy.
  eexists. eexists. split; [reflexivity|]. split; [reflexivity|discriminate].
Qed.

(** When moreover every query goes through, the exam exists, is active and
    the user has access, the exception is BadRequest. *)
Lemma create_in_progress_bad_request (now : Date) (newId : string)
    (dto : CreateAttemptDto) (w : World) (a0 : Attempt) (ex : Exam) :
  reliable w ->
  find (fun e => String.eqb (exam_id e) (cad_examId dto) && exam_isActive e)
       (exams (w_db w)) = Some ex ->
  accessGranted (w_db w) (a_userId a0) (exam_id ex) (exam_isFree ex) = true ->
  In a0 (attempts (w_db w)) ->
  a_examId a0 = cad_examId dto ->
  a_status a0 = AttemptStatus.IN_PROGRESS ->
  exists w',
    AttemptService.create now newId (a_userId a0) dto w
      = (Throw BadRequestException, w').
Proof.
  intros Hr F Hacc Hin Hex Hst. unfold AttemptService.create, bind.
  unfold prisma.exam.findUniqueActive.
  rewrite read_reliable by assumption. rewrite F.
  destruct (checkExamAccess_reliable (a_userId a0) (exam_id ex) (exam_isFree ex)
              (reliable_advance (w_db w) Hr)) as (w2 & E2 & D2 & R2).
  rewrite E2. cbn [w_db advance] in *. rewrite Hacc. simpl.
  unfold prisma.attempt.findFirst. rewrite read_reliable by assumption.
  rewrite D2. apply findUniqueActive_id in F. rewrite F, <- Hex.
  destruct (find_exists _ _ _ Hin (inProgressWhere_true a0 Hst)) as [y Fy].
  rewrite Fy. eexists. reflexivity.
Qed.

(** C5, as amended: calling [create] for a (user, exam) pair that has an
    attempt IN_PROGRESS always fails and leaves the tables as they were; the
    exception is never Conflict, and it is BadRequest (status 400) whenever
    the database answers, the exam exists and is active, and the user has
    access. *)
Theorem create_rejects_second_attempt (now : Date) (newId : string)
    (dto : CreateAttemptDto) (w : World) (a0 : Attempt) :
  In a0 (attempts (w_db w)) ->
  a_examId a0 = cad_examId dto ->
  a_status a0 = AttemptStatus.IN_PROGRESS ->
  (exists e w',
     AttemptService.create now newId (a_userId a0) dto w = (Throw e, w') /\
     attempts (w_db w') = attempts (w_db w) /\
     w_db w' = w_db w /\
     e <> ConflictException) /\
  (forall ex,
     reliable w ->
     find (fun e => String.eqb (exam_id e) (cad_examId dto) && exam_isActive e)
          (exams (w_db w)) = Some ex ->
     accessGranted (w_db w) (a_userId a0) (exam_id ex) (exam_isFree ex) = true ->
     exists w',
       AttemptService.create now newId (a_userId a0) dto w
         = (Throw BadRequestException, w') /\
       statusCode BadRequestException = 400%Z).
Proof.
  intros Hin Hex Hst. split.
  - destruct (@create_in_progress_fails now newId dto w a0 Hin Hex Hst)
      as (e & w' & E & D & N).
    exists e, w'. repeat split; try assumption. now rewrite D.
  - intros ex Hr F Hacc.
    destruct (@create_in_progress_bad_request now newId dto w a0 ex Hr F Hacc Hin Hex Hst)
      as (w' & E).
    exists w'. split; [exact E|reflexivity].
Qed.

(** C5, witness: [u1] already has attempt [a1] in progress on [e1]. *)
Lemma create_rejects_second_attempt_witness :
  exists w',
    AttemptService.create 500%Z "a2" "u1" Sample.dtoPlain
      (Sample.world Sample.dbInProgress) = (Throw BadRequestException, w') /\
    w_db w' = Sample.dbInProgress.
Proof.
  pose (a0 := Sample.blankAttempt "a1" "u1" "e1" AttemptStatus.IN_PROGRESS 10).
  destruct (@create_rejects_second_attempt 500%Z "a2" Sample.dtoPlain
              (Sample.world Sample.dbInProgress) a0)
    as [_ H].
  - simpl. left. reflexivity.
  - reflexivity.
  - reflexivity.
  - destruct (H Sample.exam1) as (w' & E & _).
    + intros n. reflexivity.
    + reflexivity.
    + reflexivity.
    + exists w'. split; [exact E|].
      vm_compute in E. injection E as E. rewrite <- E. reflexivity.
Defined.

(** C5, counterexample: the second [create] is refused with BadRequest
    (status 400), not with Conflict (status 409). *)
Lemma create_conflict_counterexample :
  fst (AttemptService.create 500%Z "a2" "u1" Sample.dtoPlain
         (Sample.world Sample.dbInProgress)) = Throw BadRequestException /\
  fst (AttemptService.create 500%Z "a2" "u1" Sample.dtoPlain
         (Sample.world Sample.dbInProgress)) <> Throw ConflictException /\
  statusCode BadRequestException <> statusCode ConflictException.
Proof.
  split; [reflexivity|]. split; [|discriminate].
  intros H. vm_compute in H. discriminate.
Qed.

(** ** Marks at write time and at scoring time *)

Lemma forEachAnswer_mcq (exam : Exam) (question : Question) (answer : Answer)
    (sel : string) (t : Tally) :
  exam_negativeMarking exam = true ->
  q_type question = QuestionType.MCQ ->
  ans_selectedOption answer = Some sel ->
  Js.truthy_str sel = true ->
  t_score (AttemptService.forEachAnswer exam t (answer, question))
  = t_score t + mcqAdded exam question (Some sel).
Proof.
  intros Hn Hq Hs Ht. unfold AttemptService.forEachAnswer, mcqAdded.
  rewrite Hq, Hs, Hn. cbn [QuestionType.eqb Js.truthy_ostr andb]. rewrite Ht.
  destruct (Js.seq_ostr (Some sel) (q_correctOption question)); reflexivity.
Qed.

(** C3, as amended: on an exam with negative marking, an MCQ answer with a
    selection makes the scoring loop add [mcqAdded] to the score.  For an
    incorrect selection this is the marks computed at write time
    (exam.incorrectMark) as soon as that mark is non-zero; for a correct
    selection the write-time marks are exam.correctMark whereas the scoring
    loop adds question.marks (1 when that is 0), so the two agree when
    exam.correctMark is that value. *)
Theorem marks_at_write_and_scoring (exam : Exam) (question : Question)
    (answer : Answer) (sel : string) (t : Tally) :
  exam_negativeMarking exam = true ->
  q_type question = QuestionType.MCQ ->
  ans_selectedOption answer = Some sel ->
  Js.truthy_str sel = true ->
  t_score (AttemptService.forEachAnswer exam t (answer, question))
    = t_score t + mcqAdded exam question (Some sel) /\
  (Js.seq_ostr (Some sel) (q_correctOption question) = false ->
   Js.truthy (exam_incorrectMark exam) = true ->
   AnswerService.marksAtWrite exam question (Some sel)
     = Some (mcqAdded exam question (Some sel))) /\
  (Js.seq_ostr (Some sel) (q_correctOption question) = true ->
   AnswerService.marksAtWrite exam question (Some sel)
     = Some (exam_correctMark exam) /\
   mcqAdded exam question (Some sel) = Js.or (q_marks question) 1 /\
   (exam_correctMark exam = Js.or (q_marks question) 1 ->
    AnswerService.marksAtWrite exam question (Some sel)
      = Some (mcqAdded exam question (Some sel)))).
Proof.
  intros Hn Hq Hs Ht. split; [now apply forEachAnswer_mcq|].
  unfold AnswerService.marksAtWrite, mcqAdded. rewrite Hq, Hn.
  cbn [QuestionType.eqb Js.truthy_ostr andb]. rewrite Ht. split.
  - intros Hc Hi. rewrite Hc. unfold Js.or. rewrite Hi. reflexivity.
  - intros Hc. rewrite Hc. repeat split. intros E. now rewrite E.
Qed.

(** C3, witness: a wrong selection on [q1] of [e1] costs 1 mark at write
    time and at scoring time. *)
Lemma marks_at_write_and_scoring_witness :
  AnswerService.marksAtWrite Sample.exam1 Sample.q1 (Some "c"%string)
    = Some (mcqAdded Sample.exam1 Sample.q1 (Some "c"%string)) /\
  mcqAdded Sample.exam1 Sample.q1 (Some "c"%string) = (-1)%float.
Proof.
  split; [|reflexivity].
  refine (proj1 (proj2 (@marks_at_write_and_scoring Sample.exam1 Sample.q1
    (Sample.blankAnswer "n1" "a1" "q1" (Some "c"%string) None None)
    "c"%string Sample.zeroTally _ _ _ _)) _ _); reflexivity.
Defined.

(** C3, counterexample: [e1] has correctMark 2 and its question [q1] is
    worth 4; the right selection is stored with 2 marks and scored 4. *)
Lemma marks_agreement_counterexample :
  ~ (forall exam question answer sel t m,
       exam_negativeMarking exam = true ->
       q_type question = QuestionType.MCQ ->
       ans_selectedOption answer = Some sel ->
       Js.truthy_str sel = true ->
       AnswerService.marksAtWrite exam question (Some sel) = Some m ->
       t_score (AttemptService.forEachAnswer exam t (answer, question))
       = t_score t + m).
Proof.
  intros H.
  specialize (H Sample.exam1 Sample.q1 Sample.answer1 "b"%string
                Sample.zeroTally 2
                eq_refl eq_refl eq_refl eq_refl eq_refl).
  apply (f_equal (fun x => PrimFloat.eqb x 4)) in H.
  vm_compute in H. discriminate.
Qed.

(** ** Lists of rows *)

Lemma find_map_update {A} (p c : A -> bool) (g : A -> A) (l : list A) :
  (forall r, p (g r) = p r) ->
  find p (map (fun r => if c r then g r else r) l)
  = option_map (fun r => if c r then g r else r) (find p l).
Proof.
  intros Hp. induction l as [|r l IH]; [reflexivity|].
  simpl. assert (E : p (if c r then g r else r) = p r).
  { destruct (c r); [apply Hp|reflexivity]. }
  rewrite E. destruct (p r); [reflexivity|exact IH].
Qed.

Lemma find_app_last {A} (p : A -> bool) (l : list A) (x : A) :
  find p l = None -> p x = true -> find p (l ++ [x]) = Some x.
Proof.
  intros Hn Hx. induction l as [|r l IH]; simpl in *.
  - now rewrite Hx.
  - destruct (p r); [discriminate|]. now apply IH.
Qed.

Lemma sameKey_applyAnswerData (attemptId questionId : string)
    (u : AnswerData) (r : Answer) :
  prisma.sameKey attemptId questionId (applyAnswerData u r)
  = prisma.sameKey attemptId questionId r.
Proof. reflexivity. Qed.

Lemma sameKey_true (attemptId questionId : string) (r : Answer) :
  prisma.sameKey attemptId questionId r = true ->
  ans_attemptId r = attemptId /\ ans_questionId r = questionId.
Proof.
  unfold prisma.sameKey. intros H. apply andb_true_iff in H.
  destruct H as [H1 H2]. split; now apply String.eqb_eq.
Qed.

(** Reading back the row an update by key has written. *)
Lemma lookupAnswerKey_updateKey (d : Db) (attemptId questionId : string)
    (u : AnswerData) (old : Answer) :
  prisma.lookupAnswerKey d attemptId questionId = Some old ->
  prisma.lookupAnswerKey
    (prisma.with_answers d
       (map (fun r => if prisma.sameKey attemptId questionId r
                      then applyAnswerData u r else r) (answers d)))
    attemptId questionId
  = Some (applyAnswerData u old).
Proof.
  intros H. unfold prisma.lookupAnswerKey in *. cbn [answers prisma.with_answers].
  rewrite find_map_update by (intros; apply sameKey_applyAnswerData).
  rewrite H. simpl. apply find_some in H. destruct H as [_ H]. now rewrite H.
Qed.

(** Reading back by primary key the row an update by id has written. *)
Lemma lookupAnswer_update (d : Db) (id : string) (u : AnswerData) (old : Answer) :
  prisma.lookupAnswer d id = Some old ->
  prisma.lookupAnswer
    (prisma.with_answers d
       (map (fun r => if String.eqb (ans_id r) id
                      then applyAnswerData u r else r) (answers d)))
    id
  = Some (applyAnswerData u old).
Proof.
  intros H. unfold prisma.lookupAnswer in *. cbn [answers prisma.with_answers].
  rewrite find_map_update by reflexivity.
  rewrite H. simpl. apply find_some in H. destruct H as [_ H]. now rewrite H.
Qed.

Lemma lookupAttempt_update (d : Db) (id : string) (u : AttemptData) (old : Attempt) :
  prisma.lookupAttempt d id = Some old ->
  prisma.lookupAttempt
    (prisma.with_attempts d
       (map (fun r => if String.eqb (a_id r) id
                      then applyAttemptData u r else r) (attempts d)))
    id
  = Some (applyAttemptData u old).
Proof.
  intros H. unfold prisma.lookupAttempt in *. cbn [attempts prisma.with_attempts].
  rewrite find_map_update by reflexivity.
  rewrite H. simpl. apply find_some in H. destruct H as [_ H]. now rewrite H.
Qed.

(** One fault-free step of a query or a write. *)
Ltac step :=
  first
    [ rewrite read_reliable by (repeat apply reliable_advance; assumption)
    | rewrite call_reliable by (repeat apply reliable_advance; assumption) ];
  cbn [w_db advance fst snd].

(** ** Writing answers *)

(** [create] on an attempt that is neither SUBMITTED nor EVALUATED: the
    answer is written, by an update in place when the pair
    (attempt, question) already has one and by an insert otherwise. *)
Lemma answer_create_writes (newId userId : string) (dto : CreateAnswerDto)
    (w : World) (att : Attempt) (ex : Exam) (q : Question) :
  reliable w ->
  prisma.lookupAttempt (w_db w) (cd_attemptId dto) = Some att ->
  prisma.lookupExam (w_db w) (a_examId att) = Some ex ->
  a_userId att = userId ->
  a_status att <> AttemptStatus.SUBMITTED ->
  a_status att <> AttemptStatus.EVALUATED ->
  prisma.lookupQuestion (w_db w) (cd_questionId dto) = Some q ->
  q_examId q = a_examId att ->
  prisma.lookupAnswer (w_db w) newId = None ->
  exists a' w',
    AnswerService.create newId userId dto w = (Ok a', w') /\
    prisma.lookupAnswerKey (w_db w') (cd_attemptId dto) (cd_questionId dto)
      = Some a' /\
    a' = match prisma.lookupAnswerKey (w_db w) (cd_attemptId dto)
                 (cd_questionId dto) with
         | Some old =>
             applyAnswerData
               (AnswerService.upsertData dto
                  (AnswerService.marksAtWrite ex q (cd_selectedOption dto)))
               old
         | None =>
             AnswerService.insertData newId dto
               (AnswerService.marksAtWrite ex q (cd_selectedOption dto))
         end.
Proof.
  intros Hr La Le Hu Hs He Lq Hq Ln.
  unfold AnswerService.create, bind, prisma.attempt.findUniqueWithExam.
  step. rewrite La, Le. cbn [fst snd].
  rewrite Hu, String.eqb_refl. cbn [negb].
  assert (S1 : AttemptStatus.eqb (a_status att) AttemptStatus.SUBMITTED = false)
    by (destruct (a_status att); try reflexivity; congruence).
  assert (S2 : AttemptStatus.eqb (a_status att) AttemptStatus.EVALUATED = false)
    by (destruct (a_status att); try reflexivity; congruence).
  rewrite S1, S2. cbn [orb].
  unfold prisma.question.findUnique. step. rewrite Lq.
  rewrite Hq, String.eqb_refl. cbn [negb].
  unfold prisma.answer.findUniqueKey. step.
  destruct (prisma.lookupAnswerKey (w_db w) (cd_attemptId dto) (cd_questionId dto))
    as [old|] eqn:Lk.
  - unfold prisma.answer.updateKey. step. rewrite Lk. cbn [fst snd].
    eexists. eexists. split; [reflexivity|]. split; [|reflexivity].
    cbn [w_db advance]. now apply lookupAnswerKey_updateKey.
  - unfold prisma.answer.create. step.
    cbn [ans_id ans_attemptId ans_questionId AnswerService.insertData].
    rewrite Ln, Lk. cbn [fst snd].
    eexists. eexists. split; [reflexivity|]. split; [|reflexivity].
    cbn [w_db advance]. unfold prisma.lookupAnswerKey in *.
    cbn [answers prisma.with_answers].
    apply find_app_last; [exact Lk|].
    unfold prisma.sameKey. cbn [ans_attemptId ans_questionId].
    now rewrite !String.eqb_refl.
Qed.

(** [update] on an attempt that is not IN_PROGRESS is refused, and nothing
    is written. *)
Lemma answer_update_locked (id userId : string) (dto : UpdateAnswerDto)
    (w : World) (ans : Answer) (q : Question) (att : Attempt) (ex : Exam) :
  w_faults w (w_ops w) = false ->
  prisma.lookupAnswer (w_db w) id = Some ans ->
  prisma.lookupQuestion (w_db w) (ans_questionId ans) = Some q ->
  prisma.lookupAttempt (w_db w) (ans_attemptId ans) = Some att ->
  prisma.lookupExam (w_db w) (a_examId att) = Some ex ->
  a_status att <> AttemptStatus.IN_PROGRESS ->
  exists w',
    AnswerService.update id userId dto w = (Throw ForbiddenException, w') /\
    w_db w' = w_db w.
Proof.
  intros Hf La Lq Lt Le Hs.
  unfold AnswerService.update, AnswerService.findOne, bind,
    prisma.answer.findUniqueFull, call.
  rewrite Hf, La, Lq, Lt, Le. cbn [fst snd ret].
  destruct (negb (String.eqb (a_userId att) userId)).
  - eexists. split; reflexivity.
  - assert (S : AttemptStatus.eqb (a_status att) AttemptStatus.IN_PROGRESS = false)
      by (destruct (a_status att); try reflexivity; congruence).
    rewrite S. eexists. split; reflexivity.
Qed.

(** [update] on the owner's attempt in progress: a supplied [timeSpent] is
    added to the stored one. *)
Lemma answer_update_accumulates (id userId : string) (dto : UpdateAnswerDto)
    (w : World) (ans : Answer) (q : Question) (att : Attempt) (ex : Exam)
    (t : number) :
  reliable w ->
  prisma.lookupAnswer (w_db w) id = Some ans ->
  prisma.lookupQuestion (w_db w) (ans_questionId ans) = Some q ->
  prisma.lookupAttempt (w_db w) (ans_attemptId ans) = Some att ->
  prisma.lookupExam (w_db w) (a_examId att) = Some ex ->
  a_userId att = userId ->
  a_status att = AttemptStatus.IN_PROGRESS ->
  (forall s, ud_selectedOption dto = Some s ->
             Js.includes (q_options q) s = true) ->
  ud_timeSpent dto = Some t ->
  exists a' w',
    AnswerService.update id userId dto w = (Ok a', w') /\
    prisma.lookupAnswer (w_db w') id = Some a' /\
    ans_timeSpent a' = Some (storedTimeSpent ans + t).
Proof.
  intros Hr La Lq Lt Le Hu Hs Hopt Ht.
  unfold AnswerService.update, AnswerService.findOne, bind,
    prisma.answer.findUniqueFull.
  step. rewrite La, Lq, Lt, Le. cbn [fst snd ret].
  rewrite Hu, String.eqb_refl, Hs. cbn [negb AttemptStatus.eqb].
  unfold prisma.question.findUnique. step. rewrite Lq.
  assert (Inv : match q_type q, ud_selectedOption dto with
                | QuestionType.MCQ, Some selectedOption =>
                    Js.truthy_str selectedOption &&
                    negb (Js.includes (q_options q) selectedOption)
                | _, _ => false
                end = false).
  { destruct (q_type q); [|reflexivity].
    destruct (ud_selectedOption dto) as [s|]; [|reflexivity].
    rewrite (Hopt s eq_refl). apply andb_false_r. }
  rewrite Inv. unfold prisma.answer.update. step. rewrite La. cbn [fst snd].
  eexists. eexists. split; [reflexivity|]. split.
  - cbn [w_db advance]. now apply lookupAnswer_update.
  - unfold AnswerService.updateDataOf, storedTimeSpent. rewrite Ht.
    destruct (q_type q); reflexivity.
Qed.

(** C6, at the failing input: the answer of [u1] to [q1] holds 30 seconds;
    the upsert with [timeSpent = 30] leaves 30 in the row, not 60.  The
    upsert branch of [create] writes the supplied value, whereas [update]
    adds it (see [answer_update_accumulates] and [update_twice]). *)
Theorem upsert_replaces_timeSpent :
  ans_timeSpent Sample.answer1 = Some 30 /\
  exists a' w',
    AnswerService.create "n9" "u1" Sample.upsert30
      (Sample.world (Sample.dbAnswering AttemptStatus.IN_PROGRESS))
    = (Ok a', w') /\
    prisma.lookupAnswerKey (w_db w') "a1" "q1" = Some a' /\
    ans_id a' = ans_id Sample.answer1 /\
    ans_timeSpent a' = Some 30 /\
    PrimFloat.eqb 30 (30 + 30) = false.
Proof.
  split; [reflexivity|].
  eexists. eexists. split; [vm_compute; reflexivity|].
  repeat split.
Qed.

(** The upsert branch in general: the supplied [timeSpent] is what the row
    holds afterwards. *)
Lemma upsert_existing_timeSpent (newId userId : string) (dto : CreateAnswerDto)
    (w : World) (att : Attempt) (ex : Exam) (q : Question) (old : Answer)
    (t : number) :
  reliable w ->
  prisma.lookupAttempt (w_db w) (cd_attemptId dto) = Some att ->
  prisma.lookupExam (w_db w) (a_examId att) = Some ex ->
  a_userId att = userId ->
  a_status att = AttemptStatus.IN_PROGRESS ->
  prisma.lookupQuestion (w_db w) (cd_questionId dto) = Some q ->
  q_examId q = a_examId att ->
  prisma.lookupAnswer (w_db w) newId = None ->
  prisma.lookupAnswerKey (w_db w) (cd_attemptId dto) (cd_questionId dto)
    = Some old ->
  cd_timeSpent dto = Some t ->
  exists a' w',
    AnswerService.create newId userId dto w = (Ok a', w') /\
    prisma.lookupAnswerKey (w_db w') (cd_attemptId dto) (cd_questionId dto)
      = Some a' /\
    ans_timeSpent a' = Some t.
Proof.
  intros Hr La Le Hu Hs Lq Hq Ln Lk Ht.
  destruct (@answer_create_writes newId userId dto w att ex q Hr La Le Hu)
    as (a' & w' & E & R & V); try assumption; try (rewrite Hs; discriminate).
  exists a', w'. split; [exact E|]. split; [exact R|].
  rewrite V, Lk. cbn [ans_timeSpent applyAnswerData AnswerService.upsertData
                      ad_timeSpent].
  now rewrite Ht.
Qed.

(** Two revisions of 30 seconds each on an answer without recorded time
    leave 60 in the row. *)
Lemma update_twice :
  exists a1 w1 a2 w2,
    AnswerService.update "n2" "u1" Sample.revise30
      (Sample.world (Sample.dbAnswering AttemptStatus.IN_PROGRESS)) = (Ok a1, w1) /\
    AnswerService.update "n2" "u1" Sample.revise30 w1 = (Ok a2, w2) /\
    ans_timeSpent a1 = Some 30 /\
    ans_timeSpent a2 = Some 60 /\
    prisma.lookupAnswer (w_db w2) "n2" = Some a2.
Proof.
  eexists. eexists. eexists. eexists.
  split; [vm_compute; reflexivity|].
  split; [vm_compute; reflexivity|].
  repeat split.
Qed.

(** ** The two locks on a COMPLETED attempt *)

(** A student closing the own attempt with status COMPLETED. *)
Lemma attempt_update_complete (JSON_parse : string -> option Json) (now : Date)
    (id userId : string) (w : World) (att : Attempt) (ex : Exam) :
  reliable w ->
  prisma.lookupAttempt (w_db w) id = Some att ->
  prisma.lookupExam (w_db w) (a_examId att) = Some ex ->
  a_userId att = userId ->
  AttemptService.update JSON_parse now id userId
    (statusOnly AttemptStatus.COMPLETED) false w
  = (Ok (applyAttemptData
           (AttemptService.studentData now att
              (statusOnly AttemptStatus.COMPLETED) None) att),
     advance (advance w (w_db w))
       (prisma.with_attempts (w_db w)
          (map (fun r => if String.eqb (a_id r) id
                         then applyAttemptData
                                (AttemptService.studentData now att
                                   (statusOnly AttemptStatus.COMPLETED) None) r
                         else r)
               (attempts (w_db w))))).
Proof.
  intros Hr La Le Hu.
  unfold AttemptService.update, bind, prisma.attempt.findUniqueWithExam.
  step. rewrite La, Le. cbn [fst snd].
  rewrite Hu, String.eqb_refl. unfold AttemptService.parseFeedback.
  cbn [negb andb statusOnly uad_feedback uad_status ret].
  unfold prisma.attempt.update. step. rewrite La. reflexivity.
Qed.

(** C10: from an attempt IN_PROGRESS the owning student reaches status
    COMPLETED through [AttemptService.update]; in that status
    [AnswerService.create] still writes the student's answer (it refuses
    only SUBMITTED and EVALUATED), while [AnswerService.update] refuses to
    revise an answer of the attempt with Forbidden and writes nothing (it
    requires IN_PROGRESS). *)
Theorem completed_attempt_upsert_open_update_locked
    (JSON_parse : string -> option Json) (now : Date)
    (newId userId answerId : string)
    (cdto : CreateAnswerDto) (udto : UpdateAnswerDto) (w : World)
    (att : Attempt) (ex : Exam) (q q' : Question) (ans : Answer) :
  reliable w ->
  prisma.lookupAttempt (w_db w) (cd_attemptId cdto) = Some att ->
  prisma.lookupExam (w_db w) (a_examId att) = Some ex ->
  a_userId att = userId ->
  a_status att = AttemptStatus.IN_PROGRESS ->
  prisma.lookupQuestion (w_db w) (cd_questionId cdto) = Some q ->
  q_examId q = a_examId att ->
  prisma.lookupAnswer (w_db w) newId = None ->
  prisma.lookupAnswer (w_db w) answerId = Some ans ->
  ans_attemptId ans = cd_attemptId cdto ->
  prisma.lookupQuestion (w_db w) (ans_questionId ans) = Some q' ->
  exists att1 w1,
    AttemptService.update JSON_parse now (cd_attemptId cdto) userId
      (statusOnly AttemptStatus.COMPLETED) false w = (Ok att1, w1) /\
    prisma.lookupAttempt (w_db w1) (cd_attemptId cdto) = Some att1 /\
    a_status att1 = AttemptStatus.COMPLETED /\
    (exists a' w2,
       AnswerService.create newId userId cdto w1 = (Ok a', w2) /\
       prisma.lookupAnswerKey (w_db w2) (cd_attemptId cdto) (cd_questionId cdto)
         = Some a' /\
       ans_selectedOption a'
         = match cd_selectedOption cdto,
                 prisma.lookupAnswerKey (w_db w) (cd_attemptId cdto)
                   (cd_questionId cdto) with
           | None, Some old => ans_selectedOption old
           | sel, _ => sel
           end) /\
    (exists w2,
       AnswerService.update answerId userId udto w1
         = (Throw ForbiddenException, w2) /\
       w_db w2 = w_db w1).
Proof.
  intros Hr La Le Hu Hs Lq Hq Ln Lans Hatt Lq'.
  rewrite (@attempt_update_complete JSON_parse now (cd_attemptId cdto) userId
             w att ex Hr La Le Hu).
  eexists. eexists. split; [reflexivity|].
  set (u := AttemptService.studentData now att
              (statusOnly AttemptStatus.COMPLETED) None).
  set (w1 := advance _ _).
  assert (Hr1 : reliable w1) by (unfold w1; now do 2 apply reliable_advance).
  assert (La1 : prisma.lookupAttempt (w_db w1) (cd_attemptId cdto)
                = Some (applyAttemptData u att)).
  { unfold w1. cbn [w_db advance]. now apply lookupAttempt_update. }
  split; [exact La1|]. split; [reflexivity|]. split.
  - destruct (@answer_create_writes newId userId cdto w1
                (applyAttemptData u att) ex q Hr1 La1)
      as (a' & w2 & E & R & V); try assumption; try discriminate.
    exists a', w2. split; [exact E|]. split; [exact R|].
    assert (K : prisma.lookupAnswerKey (w_db w1) (cd_attemptId cdto)
                  (cd_questionId cdto)
                = prisma.lookupAnswerKey (w_db w) (cd_attemptId cdto)
                    (cd_questionId cdto)) by reflexivity.
    rewrite K in V. rewrite V.
    destruct (prisma.lookupAnswerKey (w_db w) (cd_attemptId cdto)
                (cd_questionId cdto)) as [old|];
      cbn [ans_selectedOption applyAnswerData AnswerService.upsertData
           AnswerService.insertData ad_selectedOption];
      destruct (cd_selectedOption cdto); reflexivity.
  - apply (@answer_update_locked answerId userId udto w1 ans q'
             (applyAttemptData u att) ex); try assumption.
    + apply Hr1.
    + now rewrite Hatt.
    + discriminate.
Qed.

(** C10, witness: [u1] completes attempt [a1], then still stores an answer
    to [q2] through [create], but may no longer revise answer [n1]. *)
Lemma completed_attempt_upsert_open_update_locked_witness :
  exists att1 w1,
    AttemptService.update Sample.parseAny 2000%Z "a1" "u1"
      (statusOnly AttemptStatus.COMPLETED) false
      (Sample.world (Sample.dbAnswering AttemptStatus.IN_PROGRESS))
    = (Ok att1, w1) /\
    a_status att1 = AttemptStatus.COMPLETED /\
    (exists a' w2,
       AnswerService.create "n9" "u1" Sample.upsertEssay w1 = (Ok a', w2)) /\
    (exists w2,
       AnswerService.update "n1" "u1" Sample.revise30 w1
         = (Throw ForbiddenException, w2)).
Proof.
  destruct (@completed_attempt_upsert_open_update_locked Sample.parseAny 2000%Z
              "n9" "u1" "n1" Sample.upsertEssay Sample.revise30
              (Sample.world (Sample.dbAnswering AttemptStatus.IN_PROGRESS))
              (Sample.blankAttempt "a1" "u1" "e1" AttemptStatus.IN_PROGRESS 10)
              Sample.exam1 Sample.q2 Sample.q1 Sample.answer1)
    as (att1 & w1 & E & _ & S & (a' & w2 & C & _) & (w3 & U & _));
    try reflexivity.
  - intros n. reflexivity.
  - exists att1, w1. split; [exact E|]. split; [exact S|].
    split; [now exists a', w2|now exists w3].
Defined.

(** ** Submission and scoring *)

Lemma call_db {A} (f : Db -> Result A * Db) (w : World) :
  (forall d, snd (f d) = d) ->
  w_db (snd (call f w)) = w_db w /\
  w_faults (snd (call f w)) = w_faults w /\
  w_ops (snd (call f w)) = S (w_ops w).
Proof.
  intros H. unfold call. destruct (w_faults w (w_ops w)); cbn [snd w_db advance].
  - auto.
  - rewrite H. auto.
Qed.

Lemma findManyWithQuestion_db (attemptId : string) (w : World) :
  w_db (snd (prisma.answer.findManyWithQuestion attemptId w)) = w_db w /\
  w_faults (snd (prisma.answer.findManyWithQuestion attemptId w)) = w_faults w /\
  w_ops (snd (prisma.answer.findManyWithQuestion attemptId w)) = S (w_ops w).
Proof.
  apply call_db. intros d.
  destruct (prisma.answer.joinQuestions d _); reflexivity.
Qed.

(** The [try] block only reads. *)
Lemma calculateScoreBody_db (exam : Exam) (attemptId : string) (w : World) :
  w_db (snd (AttemptService.calculateScoreBody exam attemptId w)) = w_db w /\
  w_faults (snd (AttemptService.calculateScoreBody exam attemptId w)) = w_faults w.
Proof.
  unfold AttemptService.calculateScoreBody, bind.
  destruct (findManyWithQuestion_db attemptId w) as (D1 & F1 & _).
  destruct (prisma.answer.findManyWithQuestion attemptId w) as [[l|e] w1];
    cbn [snd] in *; [|auto].
  unfold prisma.question.findMany.
  match goal with |- context [read ?f w1] =>
    destruct (read_db f w1) as [D2 F2];
    destruct (read f w1) as [[qs|e] w2] end; cbn [snd ret] in *.
  - split; congruence.
  - split; congruence.
Qed.

(** [calculateScore] never throws: a failure inside the [try] block comes
    back as [null]. *)
Lemma calculateScore_never_throws (exam : Exam) (attemptId : string) (w : World) :
  exists r w',
    AttemptService.calculateScore exam attemptId w = (Ok r, w') /\
    w_db w' = w_db w /\ w_faults w' = w_faults w /\
    (forall e w2,
       AttemptService.calculateScoreBody exam attemptId w = (Throw e, w2) ->
       r = None /\ w' = w2).
Proof.
  unfold AttemptService.calculateScore, try_catch.
  destruct (calculateScoreBody_db exam attemptId w) as [D F].
  destruct (AttemptService.calculateScoreBody exam attemptId w) as [[r|e] w1];
    cbn [snd ret] in *.
  - exists r, w1. repeat split; try assumption; discriminate.
  - exists None, w1. repeat split; try assumption; congruence.
Qed.

Lemma attempt_update_ok (id : string) (data : AttemptData) (w w' : World)
    (a' : Attempt) :
  prisma.attempt.update id data w = (Ok a', w') ->
  exists old,
    prisma.lookupAttempt (w_db w) id = Some old /\
    a' = applyAttemptData data old /\
    prisma.lookupAttempt (w_db w') id = Some a'.
Proof.
  unfold prisma.attempt.update, call.
  destruct (w_faults w (w_ops w)); [discriminate|].
  destruct (prisma.lookupAttempt (w_db w) id) as [old|] eqn:L;
    cbn [fst snd]; [|discriminate].
  intros H. injection H as H1 H2. exists old. subst a' w'.
  split; [reflexivity|]. split; [reflexivity|].
  cbn [w_db advance]. now apply lookupAttempt_update.
Qed.

Lemma findUniqueWithExam_ok (id : string) (w w1 : World) (a : Attempt) (e : Exam) :
  prisma.attempt.findUniqueWithExam id w = (Ok (Some (a, e)), w1) ->
  prisma.lookupAttempt (w_db w) id = Some a /\
  prisma.lookupExam (w_db w) (a_examId a) = Some e /\
  w_db w1 = w_db w /\ w_faults w1 = w_faults w.
Proof.
  unfold prisma.attempt.findUniqueWithExam, call.
  destruct (w_faults w (w_ops w)); [discriminate|].
  destruct (prisma.lookupAttempt (w_db w) id) as [a0|]; cbn [fst snd];
    [|discriminate].
  destruct (prisma.lookupExam (w_db w) (a_examId a0)) as [e0|] eqn:Le;
    cbn [fst snd]; [|discriminate].
  intros H. injection H as H1 H2 H3. subst. auto.
Qed.

(** C9: when the scoring computation throws during a student's submission,
    [update] still returns the attempt, now SUBMITTED with its submit time
    set, and the score, the three counters, the accuracy and the percentage
    are what they were before the call (unset when they were unset). *)
Theorem submit_survives_scoring_failure
    (JSON_parse : string -> option Json) (now : Date) (id userId : string)
    (dto : UpdateAttemptDto) (w w2 : World) (att : Attempt) (ex : Exam)
    (e : Exception) :
  w_faults w (w_ops w) = false ->
  prisma.lookupAttempt (w_db w) id = Some att ->
  prisma.lookupExam (w_db w) (a_examId att) = Some ex ->
  a_userId att = userId ->
  uad_status dto = Some AttemptStatus.SUBMITTED ->
  (forall text, uad_feedback dto = Some text -> JSON_parse text <> None) ->
  AttemptService.calculateScoreBody ex (a_id att) (advance w (w_db w))
    = (Throw e, w2) ->
  w_faults w (w_ops w2) = false ->
  exists att' w',
    AttemptService.update JSON_parse now id userId dto false w = (Ok att', w') /\
    prisma.lookupAttempt (w_db w') id = Some att' /\
    a_status att' = AttemptStatus.SUBMITTED /\
    a_submitTime att' = Some now /\
    a_score att' = a_score att /\
    a_correctAnswers att' = a_correctAnswers att /\
    a_incorrectAnswers att' = a_incorrectAnswers att /\
    a_unattempted att' = a_unattempted att /\
    a_accuracy att' = a_accuracy att /\
    a_percentage att' = a_percentage att.
Proof.
  intros Hf La Le Hu Hs Hj Hb Hf2.
  unfold AttemptService.update, bind, prisma.attempt.findUniqueWithExam.
  unfold call at 1. rewrite Hf, La, Le. cbn [fst snd].
  rewrite Hu, String.eqb_refl. cbn [negb andb].
  assert (P : exists v,
             AttemptService.parseFeedback JSON_parse dto (advance w (w_db w))
             = (Ok v, advance w (w_db w))).
  { unfold AttemptService.parseFeedback.
    destruct (uad_feedback dto) as [text|] eqn:Fb.
    - specialize (Hj text eq_refl).
      destruct (JSON_parse text) as [v|]; [|congruence]. now exists (Some v).
    - now exists None. }
  destruct P as [v P]. rewrite P. rewrite Hs.
  destruct (calculateScore_never_throws ex (a_id att) (advance w (w_db w)))
    as (r & w3 & C & D & F & N).
  destruct (N e w2 Hb) as [Nr Nw]. subst r w3. rewrite C.
  cbn [ret].
  unfold prisma.attempt.update, call.
  cbn [w_faults advance] in F. rewrite F, Hf2.
  cbn [w_db advance] in D. rewrite D, La. cbn [fst snd].
  eexists. eexists. split; [reflexivity|]. split.
  - cbn [w_db advance]. rewrite <- D. apply lookupAttempt_update.
    now rewrite D.
  - unfold AttemptService.studentData. rewrite Hs. repeat split.
Qed.

(** C9, witness: the query for the answers of attempt [a1] (the database
    call of index 1) fails while [u1] submits. *)
Lemma submit_survives_scoring_failure_witness :
  exists att' w',
    AttemptService.update Sample.parseAny 2000%Z "a1" "u1"
      (statusOnly AttemptStatus.SUBMITTED) false
      (Sample.worldFailingAt 1 (Sample.dbAnswering AttemptStatus.IN_PROGRESS))
    = (Ok att', w') /\
    a_status att' = AttemptStatus.SUBMITTED /\
    a_submitTime att' = Some 2000%Z /\
    a_score att' = None /\
    a_percentage att' = None.
Proof.
  destruct (@submit_survives_scoring_failure Sample.parseAny 2000%Z "a1" "u1"
              (statusOnly AttemptStatus.SUBMITTED)
              (Sample.worldFailingAt 1 (Sample.dbAnswering AttemptStatus.IN_PROGRESS))
              (advance (advance
                 (Sample.worldFailingAt 1 (Sample.dbAnswering AttemptStatus.IN_PROGRESS))
                 (Sample.dbAnswering AttemptStatus.IN_PROGRESS))
                 (Sample.dbAnswering AttemptStatus.IN_PROGRESS))
              (Sample.blankAttempt "a1" "u1" "e1" AttemptStatus.IN_PROGRESS 10)
              Sample.exam1 PrismaClientError)
    as (att' & w' & E & _ & S & T & Sc & _ & _ & _ & _ & P);
    try reflexivity.
  - intros text H. discriminate.
  - exists att', w'. repeat split; assumption.
Defined.

(** ** The percentage invariant *)

Lemma studentData_percentage (now : Date) (att : Attempt)
    (dto : UpdateAttemptDto) (sd : option ScoreData) :
  percentageInvariant att ->
  percentageInvariant
    (applyAttemptData (AttemptService.studentData now att dto sd) att).
Proof.
  intros H s. destruct sd as [d|]; cbn.
  - intros E. injection E as E. now subst s.
  - apply H.
Qed.

Lemma teacherData_percentage (userId : string) (att : Attempt)
    (dto : UpdateAttemptDto) (feedback : option Json) :
  percentageInvariant att ->
  percentageInvariant
    (applyAttemptData (AttemptService.teacherData userId att dto feedback) att).
Proof.
  intros H s. cbn. destruct (uad_score dto) as [x|]; cbn.
  - intros E. injection E as E. now subst s.
  - apply H.
Qed.

Lemma parseFeedback_world (JSON_parse : string -> option Json)
    (dto : UpdateAttemptDto) (w w' : World) (r : Result (option Json)) :
  AttemptService.parseFeedback JSON_parse dto w = (r, w') -> w' = w.
Proof.
  unfold AttemptService.parseFeedback.
  destruct (uad_feedback dto) as [text|];
    [destruct (JSON_parse text)|]; unfold ret, throw; congruence.
Qed.

(** Both branches of [AttemptService.update] (the student's submission and
    the teacher's update) keep the percentage invariant of the attempt. *)
Lemma update_keeps_percentage (JSON_parse : string -> option Json) (now : Date)
    (id userId : string) (dto : UpdateAttemptDto) (isTeacher : bool)
    (w w' : World) (att att' : Attempt) :
  prisma.lookupAttempt (w_db w) id = Some att ->
  percentageInvariant att ->
  AttemptService.update JSON_parse now id userId dto isTeacher w = (Ok att', w') ->
  percentageInvariant att' /\ prisma.lookupAttempt (w_db w') id = Some att'.
Proof.
  intros La Hinv. unfold AttemptService.update, bind.
  destruct (prisma.attempt.findUniqueWithExam id w) as [[[[a ex]|]|x] w1] eqn:F;
    try discriminate.
  apply findUniqueWithExam_ok in F. destruct F as (La' & _ & D1 & _).
  rewrite La in La'. injection La' as La'. subst a.
  destruct (negb isTeacher && negb (String.eqb (a_userId att) userId));
    [discriminate|].
  destruct (AttemptService.parseFeedback JSON_parse dto w1)
    as [[fb|x] w1'] eqn:Pf; [|discriminate].
  apply parseFeedback_world in Pf.
  subst w1'.
  destruct isTeacher; cbn [negb ret].
  - intros H. apply attempt_update_ok in H.
    destruct H as (old & Lo & Ha & Ln). rewrite D1, La in Lo.
    injection Lo as Lo. subst old att'. split; [|exact Ln].
    now apply teacherData_percentage.
  - destruct (uad_status dto) as [[| | |]|] eqn:St; try discriminate.
    + destruct (calculateScore_never_throws ex (a_id att) w1)
        as (r & w3 & C & D3 & _ & _).
      rewrite C. intros H. apply attempt_update_ok in H.
      destruct H as (old & Lo & Ha & Ln). rewrite D3, D1, La in Lo.
      injection Lo as Lo. subst old att'. split; [|exact Ln].
      now apply studentData_percentage.
    + intros H. apply attempt_update_ok in H.
      destruct H as (old & Lo & Ha & Ln). rewrite D1, La in Lo.
      injection Lo as Lo. subst old att'. split; [|exact Ln].
      now apply studentData_percentage.
    + intros H. apply attempt_update_ok in H.
      destruct H as (old & Lo & Ha & Ln). rewrite D1, La in Lo.
      injection Lo as Lo. subst old att'. split; [|exact Ln].
      now apply studentData_percentage.
Qed.

(** C4, at the failing input: [u1] submits attempt [a1] (maxScore 10) and is
    scored 4, with percentage 40; the teacher of [e1] then bulk-evaluates
    the essay with 7 marks.  The stored attempt has score 7, maxScore 10
    and still percentage 40, where 7 / 10 * 100 is 70: [bulkEvaluate]
    writes the score without the percentage, unlike both branches of
    [AttemptService.update] (see [update_keeps_percentage]). *)
Theorem bulkEvaluate_leaves_percentage_stale :
  exists att1 w1 count w2 att2,
    AttemptService.update Sample.parseAny 2000%Z "a1" "u1"
      (statusOnly AttemptStatus.SUBMITTED) false
      (Sample.world (Sample.dbAnswering AttemptStatus.IN_PROGRESS))
    = (Ok att1, w1) /\
    a_score att1 = Some 4 /\ a_percentage att1 = Some 40 /\
    percentageInvariant att1 /\
    AnswerService.bulkEvaluate 3000%Z "a1" "t1" [Sample.grade7] w1
    = (Ok count, w2) /\
    prisma.lookupAttempt (w_db w2) "a1" = Some att2 /\
    a_score att2 = Some 7 /\ a_maxScore att2 = 10 /\
    a_percentage att2 = Some 40 /\
    7 / 10 * 100 = 70 /\
    ~ percentageInvariant att2.
Proof.
  eexists. eexists. eexists. eexists. eexists.
  split; [vm_compute; reflexivity|].
  split; [reflexivity|]. split; [reflexivity|].
  split.
  { intros s E. cbn in E. injection E as E. subst s. vm_compute. reflexivity. }
  split; [vm_compute; reflexivity|].
  split; [vm_compute; reflexivity|].
  split; [reflexivity|]. split; [reflexivity|]. split; [reflexivity|].
  split; [vm_compute; reflexivity|].
  intros H. specialize (H 7 eq_refl).
  apply (f_equal (fun o => match o with
                           | Some x => PrimFloat.eqb x 40
                           | None => false
                           end)) in H.
  vm_compute in H. discriminate.
Qed.

(** ** Bulk evaluation *)

Lemma keyId_gradeOne (now : Date) (attemptId teacherId : string)
    (l : list Answer) (e : Evaluation) (attemptId' questionId : string) :
  keyId (gradeOne now attemptId teacherId l e) attemptId' questionId
  = keyId l attemptId' questionId.
Proof.
  unfold gradeOne. destruct (keyId l attemptId (ev_questionId e)) as [k|];
    [|reflexivity].
  unfold keyId. rewrite find_map_update by (intros; apply sameKey_applyAnswerData).
  destruct (find _ l) as [r|]; [|reflexivity].
  simpl. destruct (String.eqb (ans_id r) k); reflexivity.
Qed.

Lemma skeleton_gradeOne (now : Date) (attemptId teacherId : string)
    (l : list Answer) (e : Evaluation) :
  map skeleton (gradeOne now attemptId teacherId l e) = map skeleton l.
Proof.
  unfold gradeOne. destruct (keyId l attemptId (ev_questionId e)) as [k|];
    [|reflexivity].
  rewrite map_map. apply map_ext. intros r.
  destruct (String.eqb (ans_id r) k); reflexivity.
Qed.

Lemma skeleton_gradeAll (now : Date) (attemptId teacherId : string)
    (es : list Evaluation) (l : list Answer) :
  map skeleton (gradeAll now attemptId teacherId l es) = map skeleton l.
Proof.
  revert l. induction es as [|e es IH]; intros l; [reflexivity|].
  unfold gradeAll in *. simpl. rewrite IH. apply skeleton_gradeOne.
Qed.

Lemma matched_gradeOne (now : Date) (attemptId teacherId : string)
    (l : list Answer) (e e' : Evaluation) :
  matched (gradeOne now attemptId teacherId l e) attemptId e'
  = matched l attemptId e'.
Proof. unfold matched. now rewrite keyId_gradeOne. Qed.

Lemma hits_gradeOne (now : Date) (attemptId teacherId : string)
    (l : list Answer) (e : Evaluation) (id : string) (es : list Evaluation) :
  hits (gradeOne now attemptId teacherId l e) attemptId id es
  = hits l attemptId id es.
Proof.
  unfold hits. apply filter_ext. intros e'. now rewrite keyId_gradeOne.
Qed.

Lemma lookup_gradeOne (now : Date) (attemptId teacherId : string)
    (l : list Answer) (e : Evaluation) (id : string) :
  find (fun r => String.eqb (ans_id r) id) (gradeOne now attemptId teacherId l e)
  = option_map (graded now teacherId (hits l attemptId id [e]))
      (find (fun r => String.eqb (ans_id r) id) l).
Proof.
  unfold gradeOne, hits. cbn [filter].
  destruct (keyId l attemptId (ev_questionId e)) as [k|].
  - rewrite find_map_update by reflexivity.
    destruct (find (fun r => String.eqb (ans_id r) id) l) as [r|] eqn:F;
      [|reflexivity].
    apply find_some in F. destruct F as [_ F]. apply String.eqb_eq in F.
    cbn [option_map]. rewrite F, (String.eqb_sym id k).
    destruct (String.eqb k id); reflexivity.
  - destruct (find _ l); reflexivity.
Qed.

(** The row of primary key [id] after the loop: the entries that hit it,
    written in order. *)
Lemma lookup_gradeAll (now : Date) (attemptId teacherId : string)
    (es : list Evaluation) (l : list Answer) (id : string) :
  find (fun r => String.eqb (ans_id r) id) (gradeAll now attemptId teacherId l es)
  = option_map (graded now teacherId (hits l attemptId id es))
      (find (fun r => String.eqb (ans_id r) id) l).
Proof.
  revert l. induction es as [|e es IH]; intros l.
  - cbn. destruct (find _ l); reflexivity.
  - unfold gradeAll in *. cbn [fold_left]. rewrite IH, hits_gradeOne.
    rewrite lookup_gradeOne.
    destruct (find (fun r => String.eqb (ans_id r) id) l) as [r|];
      [|reflexivity].
    cbn [option_map]. f_equal. unfold graded, hits. cbn [filter].
    destruct (keyId l attemptId (ev_questionId e)) as [k|]; [|reflexivity].
    destruct (String.eqb k id); reflexivity.
Qed.

Lemma with_answers_same (d : Db) : prisma.with_answers d (answers d) = d.
Proof. destruct d; reflexivity. Qed.

(** Under a fault-free run the loop returns the count and the total of the
    matched entries and leaves the answers table as [gradeAll] says. *)
Lemma evaluateEach_reliable (now : Date) (attemptId teacherId : string)
    (es : list Evaluation) :
  forall (c t : number) (w : World),
    reliable w ->
    exists w',
      AnswerService.evaluateEach now attemptId teacherId es c t w
      = (Ok (countOf (filter (matched (answers (w_db w)) attemptId) es) c,
             totalOf (filter (matched (answers (w_db w)) attemptId) es) t),
         w') /\
      w_db w' = prisma.with_answers (w_db w)
                  (gradeAll now attemptId teacherId (answers (w_db w)) es) /\
      reliable w'.
Proof.
  induction es as [|e es IH]; intros c t w Hr.
  - exists w. split; [reflexivity|]. split; [|exact Hr].
    cbn. now rewrite with_answers_same.
  - cbn [AnswerService.evaluateEach]. unfold bind at 1.
    unfold prisma.answer.findUniqueKey. step.
    unfold matched at 1 2, keyId at 1 2. cbn [filter].
    unfold prisma.lookupAnswerKey.
    destruct (find (prisma.sameKey attemptId (ev_questionId e)) (answers (w_db w)))
      as [a|] eqn:F.
    + cbn [option_map]. unfold bind at 1. unfold prisma.answer.update. step.
      destruct (find_some _ _ F) as [Hin _].
      destruct (find_exists (fun r => String.eqb (ans_id r) (ans_id a)) _ _ Hin
                  (String.eqb_refl _)) as [a0 F0].
      unfold prisma.lookupAnswer. rewrite F0. cbn [fst snd].
      assert (G : map (fun r => if String.eqb (ans_id r) (ans_id a)
                                then applyAnswerData
                                       (AnswerService.gradeData now teacherId e) r
                                else r) (answers (w_db w))
                  = gradeOne now attemptId teacherId (answers (w_db w)) e).
      { unfold gradeOne, keyId. rewrite F. reflexivity. }
      rewrite G.
      destruct (IH (c + 1) (t + ev_marks e)
                  (advance (advance w (w_db w))
                     (prisma.with_answers (w_db w)
                        (gradeOne now attemptId teacherId (answers (w_db w)) e))))
        as (w' & E & D & R).
      { now do 2 apply reliable_advance. }
      cbn [w_db advance answers prisma.with_answers] in E, D.
      rewrite (filter_ext _ _ (matched_gradeOne now attemptId teacherId
                                 (answers (w_db w)) e)) in E.
      exists w'. split; [exact E|]. split; [exact D|exact R].
    + cbn [option_map].
      destruct (IH c t (advance w (w_db w))) as (w' & E & D & R).
      { now apply reliable_advance. }
      cbn [w_db advance] in E, D.
      exists w'. split; [exact E|]. split; [|exact R].
      rewrite D. unfold gradeAll. cbn [fold_left].
      assert (G : gradeOne now attemptId teacherId (answers (w_db w)) e
                  = answers (w_db w)).
      { unfold gradeOne, keyId. now rewrite F. }
      now rewrite G.
Qed.


(** Under a fault-free run the owning teacher's [bulkEvaluate] commits the
    graded answers and the evaluated attempt. *)
Lemma bulkEvaluate_reliable (now : Date) (attemptId teacherId : string)
    (es : list Evaluation) (w : World) (att : Attempt) (ex : Exam) :
  reliable w ->
  prisma.lookupAttempt (w_db w) attemptId = Some att ->
  prisma.lookupExam (w_db w) (a_examId att) = Some ex ->
  exam_teacherId ex = teacherId ->
  exists w',
    AnswerService.bulkEvaluate now attemptId teacherId es w
    = (Ok (countOf (filter (matched (answers (w_db w)) attemptId) es) 0), w') /\
    w_db w'
    = prisma.with_attempts
        (prisma.with_answers (w_db w)
           (gradeAll now attemptId teacherId (answers (w_db w)) es))
        (map (fun r =>
                if String.eqb (a_id r) attemptId
                then applyAttemptData
                       (AnswerService.evaluatedData teacherId
                          (totalOf (filter (matched (answers (w_db w)) attemptId) es) 0))
                       r
                else r)
             (attempts (w_db w))).
Proof.
  intros Hr La Le Ht.
  unfold AnswerService.bulkEvaluate, bind, prisma.attempt.findUniqueWithExam.
  step. rewrite La, Le. cbn [fst snd]. rewrite Ht, String.eqb_refl. cbn [negb].
  unfold transaction, AnswerService.bulkEvaluateTx, bind.
  destruct (evaluateEach_reliable now attemptId teacherId es 0 0
              (reliable_advance (w_db w) Hr)) as (w1 & E & D & R).
  rewrite E. cbn [w_db advance] in D.
  unfold prisma.attempt.update. step. rewrite D.
  assert (L1 : prisma.lookupAttempt
                 (prisma.with_answers (w_db w)
                    (gradeAll now attemptId teacherId (answers (w_db w)) es))
                 attemptId = Some att) by exact La.
  rewrite L1. cbn [fst snd ret w_faults w_ops advance].
  rewrite (R (S (w_ops w1))).
  eexists. split; reflexivity.
Qed.

Lemma graded_last (now : Date) (teacherId : string) (es : list Evaluation)
    (e : Evaluation) (r : Answer) :
  ans_marks (graded now teacherId (es ++ [e]) r) = Some (ev_marks e) /\
  ans_evaluatedBy (graded now teacherId (es ++ [e]) r) = Some teacherId /\
  ans_evaluatedAt (graded now teacherId (es ++ [e]) r) = Some now /\
  (forall f, ev_feedback e = Some f ->
             ans_feedback (graded now teacherId (es ++ [e]) r) = Some f).
Proof.
  unfold graded. rewrite fold_left_app. cbn.
  repeat split. intros f Hf. now rewrite Hf.
Qed.

Lemma graded_skeleton (now : Date) (teacherId : string) (es : list Evaluation)
    (r : Answer) :
  skeleton (graded now teacherId es r) = skeleton r.
Proof.
  revert r. induction es as [|e es IH]; intros r; [reflexivity|].
  unfold graded in *. cbn [fold_left]. now rewrite IH.
Qed.

(** The fields grading does not write. *)
Lemma graded_frame (now : Date) (teacherId : string) (es : list Evaluation)
    (r : Answer) :
  ans_selectedOption (graded now teacherId es r) = ans_selectedOption r /\
  ans_answerText (graded now teacherId es r) = ans_answerText r /\
  ans_timeSpent (graded now teacherId es r) = ans_timeSpent r.
Proof.
  revert r. induction es as [|e es IH]; intros r; [auto|].
  unfold graded in *. cbn [fold_left].
  destruct (IH (applyAnswerData (AnswerService.gradeData now teacherId e) r))
    as (H1 & H2 & H3).
  rewrite H1, H2, H3. auto.
Qed.

Lemma id_unique (l : list Answer) (r a : Answer) :
  NoDup (map ans_id l) -> In r l -> In a l -> ans_id r = ans_id a -> r = a.
Proof.
  induction l as [|x l IH]; intros Hn Hr Ha E; [contradiction|].
  cbn in Hn. inversion Hn as [|y ys Hx Hn']. subst.
  destruct Hr as [Hr|Hr], Ha as [Ha|Ha]; subst.
  - reflexivity.
  - exfalso. apply Hx. rewrite E. now apply in_map.
  - exfalso. apply Hx. rewrite <- E. now apply in_map.
  - now apply IH.
Qed.

Lemma lookup_unique (l : list Answer) (a : Answer) :
  NoDup (map ans_id l) -> In a l ->
  find (fun r => String.eqb (ans_id r) (ans_id a)) l = Some a.
Proof.
  intros Hn Ha.
  destruct (find_exists (fun r => String.eqb (ans_id r) (ans_id a)) _ _ Ha
              (String.eqb_refl _)) as [a0 F].
  rewrite F. f_equal. destruct (find_some _ _ F) as [Hin E].
  apply String.eqb_eq in E. now apply (id_unique l).
Qed.

Lemma filter_none {A} (f : A -> bool) (l : list A) :
  (forall x, In x l -> f x = false) -> filter f l = [].
Proof.
  induction l as [|x l IH]; intros H; [reflexivity|].
  cbn. rewrite (H x (or_introl eq_refl)). apply IH.
  intros y Hy. apply H. now right.
Qed.

(** With unique primary keys, the entries that hit the answer [a] of a
    (attempt, question) pair are the entries for its question; after the
    last of them, no entry hits it. *)
Lemma hits_last (l : list Answer) (attemptId : string) (a : Answer)
    (pre post : list Evaluation) (e : Evaluation) :
  NoDup (map ans_id l) ->
  find (prisma.sameKey attemptId (ans_questionId a)) l = Some a ->
  ev_questionId e = ans_questionId a ->
  (forall e', In e' post -> ev_questionId e' <> ans_questionId a) ->
  hits l attemptId (ans_id a) (pre ++ e :: post)
  = hits l attemptId (ans_id a) pre ++ [e].
Proof.
  intros Hn F He Hpost. unfold hits. rewrite filter_app. f_equal.
  cbn [filter]. unfold keyId at 1. rewrite He, F. cbn [option_map].
  rewrite String.eqb_refl. f_equal.
  apply filter_none. intros e' He'. unfold keyId.
  destruct (find (prisma.sameKey attemptId (ev_questionId e')) l) as [r|] eqn:Fr;
    [|reflexivity].
  cbn [option_map]. destruct (String.eqb (ans_id r) (ans_id a)) eqn:Q;
    [|reflexivity].
  exfalso. apply String.eqb_eq in Q.
  destruct (find_some _ _ Fr) as [Hr Kr]. destruct (find_some _ _ F) as [Ha _].
  assert (r = a) by now apply (id_unique l). subst r.
  apply sameKey_true in Kr. destruct Kr as [_ Kr].
  apply (Hpost e' He'). now rewrite Kr.
Qed.

(** C7: for the teacher who owns the exam, when the database calls go
    through, [bulkEvaluate] succeeds whatever entries lack an answer and
    returns the number of matched entries; no answer row is added or removed;
    the answer of each matched (attempt, question) pair carries the marks
    and the supplied feedback of the last entry for its question, the
    teacher as evaluator and the evaluation time; and the attempt is
    EVALUATED, evaluated by the teacher, with as score the sum of the marks
    of the matched entries, whatever its score was. *)
Theorem bulkEvaluate_grades_matched (now : Date) (attemptId teacherId : string)
    (es : list Evaluation) (w : World) (att : Attempt) (ex : Exam) :
  reliable w ->
  prisma.lookupAttempt (w_db w) attemptId = Some att ->
  prisma.lookupExam (w_db w) (a_examId att) = Some ex ->
  exam_teacherId ex = teacherId ->
  NoDup (map ans_id (answers (w_db w))) ->
  exists count w' att',
    AnswerService.bulkEvaluate now attemptId teacherId es w = (Ok count, w') /\
    count = countOf (filter (matched (answers (w_db w)) attemptId) es) 0 /\
    map skeleton (answers (w_db w')) = map skeleton (answers (w_db w)) /\
    (forall a pre e post,
       prisma.lookupAnswerKey (w_db w) attemptId (ans_questionId a) = Some a ->
       es = pre ++ e :: post ->
       ev_questionId e = ans_questionId a ->
       (forall e', In e' post -> ev_questionId e' <> ans_questionId a) ->
       exists a',
         prisma.lookupAnswer (w_db w') (ans_id a) = Some a' /\
         skeleton a' = skeleton a /\
         ans_marks a' = Some (ev_marks e) /\
         (forall f, ev_feedback e = Some f -> ans_feedback a' = Some f) /\
         ans_evaluatedBy a' = Some teacherId /\
         ans_evaluatedAt a' = Some now) /\
    prisma.lookupAttempt (w_db w') attemptId = Some att' /\
    a_status att' = AttemptStatus.EVALUATED /\
    a_evaluatedBy att' = Some teacherId /\
    a_score att'
    = Some (totalOf (filter (matched (answers (w_db w)) attemptId) es) 0).
Proof.
  intros Hr La Le Ht Hn.
  destruct (@bulkEvaluate_reliable now attemptId teacherId es w att ex Hr La Le Ht)
    as (w' & E & D).
  eexists. exists w'. eexists. split; [exact E|]. split; [reflexivity|].
  rewrite D. cbn [answers prisma.with_attempts prisma.with_answers].
  split; [apply skeleton_gradeAll|]. split.
  - intros a pre e post Ka Hes He Hpost.
    unfold prisma.lookupAnswer, prisma.lookupAnswerKey in *.
    cbn [answers prisma.with_attempts prisma.with_answers].
    rewrite lookup_gradeAll.
    destruct (find_some _ _ Ka) as [Hin _].
    rewrite (@lookup_unique _ a Hn Hin). cbn [option_map].
    eexists. split; [reflexivity|].
    rewrite Hes, (@hits_last _ attemptId a pre post e Hn Ka He Hpost).
    split; [apply graded_skeleton|].
    destruct (graded_last now teacherId
                (hits (answers (w_db w)) attemptId (ans_id a) pre) e a)
      as (M & B & T & Fb).
    repeat split; assumption.
  - split.
    + apply (lookupAttempt_update
               (prisma.with_answers (w_db w)
                  (gradeAll now attemptId teacherId (answers (w_db w)) es))).
      exact La.
    + split; [reflexivity|split; reflexivity].
Qed.

(** C7, witness: the teacher [t1] of [e1] grades attempt [a1] with an entry
    for a question without answer, 7 marks for the essay [q2], and 1 mark
    for [q1]: two entries match, the score is 0 + 7 + 1. *)
Lemma bulkEvaluate_grades_matched_witness :
  exists count w' att',
    AnswerService.bulkEvaluate 3000%Z "a1" "t1"
      [Sample.gradeMissing; Sample.grade7; Sample.grade1]
      (Sample.world (Sample.dbAnswering AttemptStatus.SUBMITTED))
    = (Ok count, w') /\
    count = 2 /\
    prisma.lookupAttempt (w_db w') "a1" = Some att' /\
    a_status att' = AttemptStatus.EVALUATED /\
    a_score att' = Some 8.
Proof.
  destruct (@bulkEvaluate_grades_matched 3000%Z "a1" "t1"
              [Sample.gradeMissing; Sample.grade7; Sample.grade1]
              (Sample.world (Sample.dbAnswering AttemptStatus.SUBMITTED))
              (Sample.blankAttempt "a1" "u1" "e1" AttemptStatus.SUBMITTED 10)
              Sample.exam1)
    as (count & w' & att' & E & C & _ & _ & L & S & _ & Sc).
  - intros n. reflexivity.
  - reflexivity.
  - reflexivity.
  - reflexivity.
  - cbn. repeat constructor; cbn; intuition discriminate.
  - exists count, w', att'. split; [exact E|]. split.
    + rewrite C. vm_compute. reflexivity.
    + split; [exact L|]. split; [exact S|]. rewrite Sc. vm_compute. reflexivity.
Defined.

(** ** Atomicity of bulk evaluation *)

Lemma findUniqueWithExam_db (id : string) (w : World) :
  w_db (snd (prisma.attempt.findUniqueWithExam id w)) = w_db w.
Proof.
  apply call_db. intros d.
  destruct (prisma.lookupAttempt d id) as [a|]; [|reflexivity].
  destruct (prisma.lookupExam d (a_examId a)); reflexivity.
Qed.

(** A transaction that throws leaves the tables as they were when it
    started, whatever its callback had written. *)
Lemma transaction_throw {A} (cb : Prisma A) (w w' : World) (e : Exception) :
  transaction cb w = (Throw e, w') -> w_db w' = w_db w.
Proof.
  unfold transaction. destruct (cb w) as [[a|x] w1].
  - destruct (w_faults w1 (w_ops w1)); [|discriminate].
    intros H. injection H as _ H. now subst w'.
  - intros H. injection H as _ H. now subst w'.
Qed.

(** C8: when [bulkEvaluate] fails, at whatever point of the batch (a query
    or a write on an answer, the write on the attempt, the commit), the
    tables are what they were before the call: no answer keeps marks
    written by the batch, and the attempt keeps its status, score and
    evaluator. *)
Theorem bulkEvaluate_all_or_nothing (now : Date) (attemptId teacherId : string)
    (es : list Evaluation) (w w' : World) (e : Exception) :
  AnswerService.bulkEvaluate now attemptId teacherId es w = (Throw e, w') ->
  w_db w' = w_db w /\
  answers (w_db w') = answers (w_db w) /\
  prisma.lookupAttempt (w_db w') attemptId
  = prisma.lookupAttempt (w_db w) attemptId.
Proof.
  intros H. assert (D : w_db w' = w_db w).
  { revert H. unfold AnswerService.bulkEvaluate, bind.
    pose proof (findUniqueWithExam_db attemptId w) as D1.
    destruct (prisma.attempt.findUniqueWithExam attemptId w)
      as [[[[att ex]|]|x] w1]; cbn [snd] in D1.
    - destruct (negb (String.eqb (exam_teacherId ex) teacherId)).
      + unfold throw. intros H. injection H as _ H. now subst w'.
      + intros H. apply transaction_throw in H. congruence.
    - unfold throw. intros H. injection H as _ H. now subst w'.
    - intros H. injection H as _ H. now subst w'. }
  rewrite D. auto.
Qed.

(** C8, witness: the batch grades [q2] then [q1] and the write on the
    second answer (the database call of index 4) fails.  Inside the
    transaction the first answer had received its 7 marks; after the call
    the tables are untouched. *)
Lemma bulkEvaluate_all_or_nothing_witness :
  (option_map ans_marks
     (prisma.lookupAnswer
        (w_db (snd (AnswerService.bulkEvaluateTx 3000%Z "a1" "t1"
                      [Sample.grade7; Sample.grade1]
                      (advance
                         (Sample.worldFailingAt 4
                            (Sample.dbAnswering AttemptStatus.SUBMITTED))
                         (Sample.dbAnswering AttemptStatus.SUBMITTED)))))
        "n2")
   = Some (Some 7)) /\
  exists w',
    AnswerService.bulkEvaluate 3000%Z "a1" "t1" [Sample.grade7; Sample.grade1]
      (Sample.worldFailingAt 4 (Sample.dbAnswering AttemptStatus.SUBMITTED))
    = (Throw PrismaClientError, w') /\
    w_db w' = Sample.dbAnswering AttemptStatus.SUBMITTED.
Proof.
  split; [vm_compute; reflexivity|].
  eexists. split; [vm_compute; reflexivity|].
  refine (proj1 (@bulkEvaluate_all_or_nothing 3000%Z "a1" "t1"
                   [Sample.grade7; Sample.grade1]
                   (Sample.worldFailingAt 4
                      (Sample.dbAnswering AttemptStatus.SUBMITTED))
                   _ PrismaClientError _)).
  vm_compute. reflexivity.
Defined.

(** * Further properties of the services *)

(** ** The scoring engine *)

Lemma max_zero_not_negative (x : number) :
  PrimFloat.ltb (Js.max 0 x) 0 = false.
Proof.
  unfold Js.max. change (PrimFloat.is_nan 0) with false. cbn [orb].
  destruct (PrimFloat.is_nan x); [reflexivity|].
  destruct (PrimFloat.ltb 0 x) eqn:P.
  - rewrite FloatAxioms.ltb_spec in *.
    change (Prim2SF 0) with (S754_zero false) in *.
    destruct (Prim2SF x) as [s|s| |s m e]; try destruct s;
      cbn in P |- *; congruence.
  - destruct (PrimFloat.ltb x 0); reflexivity.
Qed.

(** X1: whatever the answers and the marking scheme, the score
    [calculateScore] computes is never below zero. *)
Theorem scoreOf_never_negative (exam : Exam)
    (answers : list (Answer * Question)) (examQuestions : list Question) :
  PrimFloat.ltb (sd_score (AttemptService.scoreOf exam answers examQuestions)) 0
  = false.
Proof. unfold AttemptService.scoreOf. cbn [sd_score]. apply max_zero_not_negative. Qed.

Lemma forEachAnswer_mcq_marks (exam : Exam) (t : Tally) (a : Answer)
    (q : Question) (m : option number) :
  q_type q = QuestionType.MCQ ->
  AttemptService.forEachAnswer exam t (withMarks m a, q)
  = AttemptService.forEachAnswer exam t (a, q).
Proof.
  intros Hq. unfold AttemptService.forEachAnswer. rewrite Hq.
  cbn [withMarks ans_selectedOption]. reflexivity.
Qed.

(** X2: on MCQ questions the scoring engine does not read the marks stored
    with the answers: replacing them by any others gives the same score
    data. *)
Theorem scoreOf_ignores_mcq_marks (exam : Exam) (f : Answer -> option number)
    (answers : list (Answer * Question)) (examQuestions : list Question) :
  (forall aq, In aq answers -> q_type (snd aq) = QuestionType.MCQ) ->
  AttemptService.scoreOf exam
    (map (fun aq => (withMarks (f (fst aq)) (fst aq), snd aq)) answers)
    examQuestions
  = AttemptService.scoreOf exam answers examQuestions.
Proof.
  intros H. unfold AttemptService.scoreOf.
  assert (L : Js.length (map (fun aq : Answer * Question =>
                (withMarks (f (fst aq)) (fst aq), snd aq)) answers)
              = Js.length answers).
  { unfold Js.length. now rewrite length_map. }
  rewrite L. clear L.
  assert (F : forall t,
            fold_left (AttemptService.forEachAnswer exam)
              (map (fun aq : Answer * Question =>
                      (withMarks (f (fst aq)) (fst aq), snd aq)) answers) t
            = fold_left (AttemptService.forEachAnswer exam) answers t).
  { induction answers as [|[a q] l IH]; intros t; [reflexivity|].
    cbn [map fold_left fst snd].
    rewrite forEachAnswer_mcq_marks by (apply (H (a, q)); now left).
    apply IH. intros aq Hin. apply H. now right. }
  now rewrite F.
Qed.

(** X2, witness: the stored marks of the answer to [q1] do not matter. *)
Lemma scoreOf_ignores_mcq_marks_witness :
  AttemptService.scoreOf Sample.exam1
    [(withMarks (Some 2) Sample.answer1, Sample.q1)] [Sample.q1; Sample.q2]
  = AttemptService.scoreOf Sample.exam1
      [(Sample.answer1, Sample.q1)] [Sample.q1; Sample.q2].
Proof.
  apply (@scoreOf_ignores_mcq_marks Sample.exam1 (fun _ => Some 2)
           [(Sample.answer1, Sample.q1)] [Sample.q1; Sample.q2]).
  intros aq [E|[]]. subst aq. reflexivity.
Defined.

Lemma forEachAnswer_unscored (exam : Exam) (t : Tally) (aq : Answer * Question) :
  unscored aq -> AttemptService.forEachAnswer exam t aq = t.
Proof.
  destruct aq as [a q]. unfold unscored, AttemptService.forEachAnswer.
  cbn [fst snd]. destruct (q_type q); intros H; rewrite H.
  - cbn [QuestionType.eqb andb]. reflexivity.
  - reflexivity.
Qed.

(** X3: when every answer of the attempt is a descriptive one still
    without marks or an MCQ one without a selection, the score, the two
    counters and the accuracy are all 0. *)
Theorem scoreOf_unscored (exam : Exam) (answers : list (Answer * Question))
    (examQuestions : list Question) :
  (forall aq, In aq answers -> unscored aq) ->
  sd_score (AttemptService.scoreOf exam answers examQuestions) = 0 /\
  sd_correctAnswers (AttemptService.scoreOf exam answers examQuestions) = 0 /\
  sd_incorrectAnswers (AttemptService.scoreOf exam answers examQuestions) = 0 /\
  sd_accuracy (AttemptService.scoreOf exam answers examQuestions) = 0.
Proof.
  intros H. unfold AttemptService.scoreOf.
  assert (F : forall t,
            fold_left (AttemptService.forEachAnswer exam) answers t = t).
  { induction answers as [|aq l IH]; intros t; [reflexivity|].
    cbn [fold_left]. rewrite forEachAnswer_unscored by (apply H; now left).
    apply IH. intros x Hx. apply H. now right. }
  rewrite F. cbn. repeat split.
Qed.

(** X3, witness: the unevaluated essay [answer2] alone. *)
Lemma scoreOf_unscored_witness :
  sd_score (AttemptService.scoreOf Sample.exam1
              [(Sample.answer2, Sample.q2)] [Sample.q1; Sample.q2]) = 0.
Proof.
  apply (@scoreOf_unscored Sample.exam1 [(Sample.answer2, Sample.q2)]
           [Sample.q1; Sample.q2]).
  intros aq [E|[]]. subst aq. reflexivity.
Defined.

(** ** Inversion of database calls *)

Lemma call_inv {A} (f : Db -> Result A * Db) (w w1 : World) (r : Result A) :
  call f w = (r, w1) ->
  w_faults w1 = w_faults w /\
  ((r = Throw PrismaClientError /\ w_db w1 = w_db w) \/
   (r = fst (f (w_db w)) /\ w_db w1 = snd (f (w_db w)))).
Proof.
  unfold call. destruct (w_faults w (w_ops w)); intros H;
    injection H as H1 H2; subst r w1; cbn [w_db w_faults advance]; auto.
Qed.

Lemma read_inv {A} (f : Db -> A) (w w1 : World) (r : Result A) :
  read f w = (r, w1) ->
  w_db w1 = w_db w /\ w_faults w1 = w_faults w /\
  (r = Throw PrismaClientError \/ r = Ok (f (w_db w))).
Proof.
  unfold read. intros H. apply call_inv in H. cbn [fst snd] in H.
  destruct H as [F [[R D]|[R D]]]; auto.
Qed.

(** A call whose function leaves the tables alone when it throws. *)
Lemma call_throw {A} (f : Db -> Result A * Db) (w w1 : World) (e : Exception) :
  (forall d x, fst (f d) = Throw x -> snd (f d) = d) ->
  call f w = (Throw e, w1) -> w_db w1 = w_db w.
Proof.
  intros Hf H. apply call_inv in H. destruct H as [_ [[_ D]|[R D]]]; [exact D|].
  rewrite D. apply (Hf _ e). now rewrite <- R.
Qed.

Lemma answer_update_throw (id : string) (data : AnswerData) (w w1 : World)
    (e : Exception) :
  prisma.answer.update id data w = (Throw e, w1) -> w_db w1 = w_db w.
Proof.
  apply call_throw. intros d x.
  destruct (prisma.lookupAnswer d id); cbn [fst snd]; [discriminate|reflexivity].
Qed.

Lemma answer_updateKey_throw (attemptId questionId : string) (data : AnswerData)
    (w w1 : World) (e : Exception) :
  prisma.answer.updateKey attemptId questionId data w = (Throw e, w1) ->
  w_db w1 = w_db w.
Proof.
  apply call_throw. intros d x.
  destruct (prisma.lookupAnswerKey d attemptId questionId); cbn [fst snd];
    [discriminate|reflexivity].
Qed.

Lemma answer_create_throw (row : Answer) (w w1 : World) (e : Exception) :
  prisma.answer.create row w = (Throw e, w1) -> w_db w1 = w_db w.
Proof.
  apply call_throw. intros d x.
  destruct (prisma.lookupAnswer d (ans_id row)),
           (prisma.lookupAnswerKey d (ans_attemptId row) (ans_questionId row));
    cbn [fst snd]; try discriminate; reflexivity.
Qed.

Lemma attempt_update_throw (id : string) (data : AttemptData) (w w1 : World)
    (e : Exception) :
  prisma.attempt.update id data w = (Throw e, w1) -> w_db w1 = w_db w.
Proof.
  apply call_throw. intros d x.
  destruct (prisma.lookupAttempt d id); cbn [fst snd]; [discriminate|reflexivity].
Qed.

Lemma attempt_create_throw (row : Attempt) (w w1 : World) (e : Exception) :
  prisma.attempt.create row w = (Throw e, w1) -> w_db w1 = w_db w.
Proof.
  apply call_throw. intros d x.
  destruct (prisma.lookupAttempt d (a_id row)); cbn [fst snd];
    [reflexivity|discriminate].
Qed.

Lemma findUniqueFull_db (id : string) (w : World) :
  w_db (snd (prisma.answer.findUniqueFull id w)) = w_db w.
Proof.
  apply call_db. intros d.
  destruct (prisma.lookupAnswer d id) as [a|]; [|reflexivity].
  destruct (prisma.lookupQuestion d (ans_questionId a)),
           (prisma.lookupAttempt d (ans_attemptId a)) as [t|]; try reflexivity.
  destruct (prisma.lookupExam d (a_examId t)); reflexivity.
Qed.

Lemma findOne_db (id : string) (w : World) :
  w_db (snd (AnswerService.findOne id w)) = w_db w.
Proof.
  unfold AnswerService.findOne, bind.
  pose proof (findUniqueFull_db id w) as D.
  destruct (prisma.answer.findUniqueFull id w) as [[[r|]|e] w1]; exact D.
Qed.

(** ** The answer writers write nothing when they throw *)

Lemma answer_create_fails_clean (newId userId : string) (dto : CreateAnswerDto)
    (w w' : World) (e : Exception) :
  AnswerService.create newId userId dto w = (Throw e, w') -> w_db w' = w_db w.
Proof.
  unfold AnswerService.create, bind.
  pose proof (findUniqueWithExam_db (cd_attemptId dto) w) as D1.
  destruct (prisma.attempt.findUniqueWithExam (cd_attemptId dto) w)
    as [[[[att ex]|]|x] w1]; cbn [snd] in D1;
    try (unfold throw; intros H; injection H as _ H; now subst w').
  destruct (negb (String.eqb (a_userId att) userId));
    [unfold throw; intros H; injection H as _ H; now subst w'|].
  destruct (_ || _);
    [unfold throw; intros H; injection H as _ H; now subst w'|].
  unfold prisma.question.findUnique.
  match goal with |- context [read ?f w1] =>
    destruct (read f w1) as [[[q|]|x] w2] eqn:R2 end;
    apply read_inv in R2; destruct R2 as (D2 & _ & _);
    try (unfold throw; intros H; injection H as _ H; subst w'; congruence).
  destruct (negb (String.eqb (q_examId q) (a_examId att)));
    [unfold throw; intros H; injection H as _ H; subst w'; congruence|].
  unfold prisma.answer.findUniqueKey.
  match goal with |- context [read ?f w2] =>
    destruct (read f w2) as [[[old|]|x] w3] eqn:R3 end;
    apply read_inv in R3; destruct R3 as (D3 & _ & _).
  - intros H. apply answer_updateKey_throw in H. congruence.
  - intros H. apply answer_create_throw in H. congruence.
  - intros H. injection H as _ H. subst w'. congruence.
Qed.

Lemma answer_update_fails_clean (id userId : string) (dto : UpdateAnswerDto)
    (w w' : World) (e : Exception) :
  AnswerService.update id userId dto w = (Throw e, w') -> w_db w' = w_db w.
Proof.
  unfold AnswerService.update. unfold bind at 1.
  pose proof (findOne_db id w) as D1.
  destruct (AnswerService.findOne id w) as [[[[[ans q0] att] ex]|x] w1];
    cbn [snd] in D1;
    [|intros H; injection H as _ H; now subst w'].
  destruct (negb (String.eqb (a_userId att) userId));
    [unfold throw; intros H; injection H as _ H; now subst w'|].
  destruct (negb (AttemptStatus.eqb (a_status att) AttemptStatus.IN_PROGRESS));
    [unfold throw; intros H; injection H as _ H; now subst w'|].
  unfold bind, prisma.question.findUnique.
  match goal with |- context [read ?f w1] =>
    destruct (read f w1) as [[[q|]|x] w2] eqn:R2 end;
    apply read_inv in R2; destruct R2 as (D2 & _ & _);
    try (unfold throw; intros H; injection H as _ H; subst w'; congruence).
  match goal with |- context [if ?c then throw _ else _] => destruct c end;
    [unfold throw; intros H; injection H as _ H; subst w'; congruence|].
  intros H. apply answer_update_throw in H. congruence.
Qed.

Lemma answer_evaluate_fails_clean (now : Date) (id teacherId : string)
    (dto : EvaluateAnswerDto) (w w' : World) (e : Exception) :
  AnswerService.evaluate now id teacherId dto w = (Throw e, w') ->
  w_db w' = w_db w.
Proof.
  unfold AnswerService.evaluate. unfold bind.
  pose proof (findOne_db id w) as D1.
  destruct (AnswerService.findOne id w) as [[[[[ans q0] att] ex]|x] w1];
    cbn [snd] in D1;
    [|intros H; injection H as _ H; now subst w'].
  destruct (negb (String.eqb (exam_teacherId ex) teacherId));
    [unfold throw; intros H; injection H as _ H; now subst w'|].
  intros H. apply answer_update_throw in H. congruence.
Qed.

(** X4: whenever [AnswerService.create], [AnswerService.update] or
    [AnswerService.evaluate] throws (a refused request or a failed database
    call), the tables are what they were before the call. *)
Theorem answer_writers_fail_clean (now : Date) (newId id userId : string)
    (cdto : CreateAnswerDto) (udto : UpdateAnswerDto) (edto : EvaluateAnswerDto)
    (w w' : World) (e : Exception) :
  AnswerService.create newId userId cdto w = (Throw e, w') \/
  AnswerService.update id userId udto w = (Throw e, w') \/
  AnswerService.evaluate now id userId edto w = (Throw e, w') ->
  w_db w' = w_db w.
Proof.
  intros [H|[H|H]].
  - now apply answer_create_fails_clean in H.
  - now apply answer_update_fails_clean in H.
  - now apply answer_evaluate_fails_clean in H.
Qed.

(** X4, witness: [u1] writes to the submitted attempt [a1]. *)
Lemma answer_writers_fail_clean_witness :
  exists w',
    AnswerService.create "n9" "u1" Sample.upsert30
      (Sample.world (Sample.dbAnswering AttemptStatus.SUBMITTED))
    = (Throw BadRequestException, w') /\
    w_db w' = Sample.dbAnswering AttemptStatus.SUBMITTED.
Proof.
  eexists. split; [vm_compute; reflexivity|].
  refine (@answer_writers_fail_clean 0%Z "n9" "n1" "u1" Sample.upsert30
            Sample.revise30 {| ead_marks := 0; ead_feedback := None |}
            (Sample.world (Sample.dbAnswering AttemptStatus.SUBMITTED))
            _ BadRequestException _).
  left. vm_compute. reflexivity.
Defined.

(** ** The guards of the upsert *)

(** X5: [AnswerService.create] refuses with Forbidden a user who does not
    own the attempt, whatever the attempt's status, and refuses the owner
    with BadRequest once the attempt is SUBMITTED or EVALUATED; in both
    cases nothing is written. *)
Theorem answer_create_guards (newId userId : string) (dto : CreateAnswerDto)
    (w : World) (att : Attempt) (ex : Exam) :
  w_faults w (w_ops w) = false ->
  prisma.lookupAttempt (w_db w) (cd_attemptId dto) = Some att ->
  prisma.lookupExam (w_db w) (a_examId att) = Some ex ->
  (a_userId att <> userId ->
   exists w', AnswerService.create newId userId dto w
              = (Throw ForbiddenException, w') /\ w_db w' = w_db w) /\
  (a_userId att = userId ->
   a_status att = AttemptStatus.SUBMITTED \/
   a_status att = AttemptStatus.EVALUATED ->
   exists w', AnswerService.create newId userId dto w
              = (Throw BadRequestException, w') /\ w_db w' = w_db w).
Proof.
  intros Hf La Le.
  unfold AnswerService.create, bind, prisma.attempt.findUniqueWithExam, call.
  rewrite Hf, La, Le. cbn [fst snd]. split.
  - intros Hn. apply String.eqb_neq in Hn. rewrite Hn. cbn [negb].
    eexists. split; reflexivity.
  - intros Hu Hs. rewrite Hu, String.eqb_refl. cbn [negb].
    destruct Hs as [Hs|Hs]; rewrite Hs; cbn; eexists; split; reflexivity.
Qed.

(** X5, witness: the owner on a submitted attempt. *)
Lemma answer_create_guards_witness :
  exists w',
    AnswerService.create "n9" "u1" Sample.upsert30
      (Sample.world (Sample.dbAnswering AttemptStatus.SUBMITTED))
    = (Throw BadRequestException, w').
Proof.
  destruct (@answer_create_guards "n9" "u1" Sample.upsert30
              (Sample.world (Sample.dbAnswering AttemptStatus.SUBMITTED))
              (Sample.blankAttempt "a1" "u1" "e1" AttemptStatus.SUBMITTED 10)
              Sample.exam1 eq_refl eq_refl eq_refl) as [_ H].
  destruct (H eq_refl (or_introl eq_refl)) as (w' & E & _).
  now exists w'.
Defined.

(** X6: [AnswerService.create] refuses with BadRequest an answer to a
    question of another exam than the attempt's, and with NotFound an
    answer to a question that does not exist; nothing is written. *)
Theorem answer_create_foreign_question (newId userId : string)
    (dto : CreateAnswerDto) (w : World) (att : Attempt) (ex : Exam) :
  reliable w ->
  prisma.lookupAttempt (w_db w) (cd_attemptId dto) = Some att ->
  prisma.lookupExam (w_db w) (a_examId att) = Some ex ->
  a_userId att = userId ->
  a_status att <> AttemptStatus.SUBMITTED ->
  a_status att <> AttemptStatus.EVALUATED ->
  (prisma.lookupQuestion (w_db w) (cd_questionId dto) = None ->
   exists w', AnswerService.create newId userId dto w
              = (Throw NotFoundException, w') /\ w_db w' = w_db w) /\
  (forall q,
     prisma.lookupQuestion (w_db w) (cd_questionId dto) = Some q ->
     q_examId q <> a_examId att ->
     exists w', AnswerService.create newId userId dto w
                = (Throw BadRequestException, w') /\ w_db w' = w_db w).
Proof.
  intros Hr La Le Hu Hs He.
  unfold AnswerService.create, bind, prisma.attempt.findUniqueWithExam.
  step. rewrite La, Le. cbn [fst snd].
  rewrite Hu, String.eqb_refl. cbn [negb].
  assert (S1 : AttemptStatus.eqb (a_status att) AttemptStatus.SUBMITTED = false)
    by (destruct (a_status att); try reflexivity; congruence).
  assert (S2 : AttemptStatus.eqb (a_status att) AttemptStatus.EVALUATED = false)
    by (destruct (a_status att); try reflexivity; congruence).
  rewrite S1, S2. cbn [orb].
  unfold prisma.question.findUnique. step. split.
  - intros Lq. rewrite Lq. eexists. split; reflexivity.
  - intros q Lq Hq. rewrite Lq. apply String.eqb_neq in Hq. rewrite Hq.
    cbn [negb]. eexists. split; reflexivity.
Qed.

(** X6, witness: an answer of attempt [a1] on [e1] to the question [q3]
    of [e2]. *)
Lemma answer_create_foreign_question_witness :
  exists w',
    AnswerService.create "n9" "u1" Sample.upsertForeign
      (Sample.world (Sample.dbTwoExams AttemptStatus.IN_PROGRESS))
    = (Throw BadRequestException, w').
Proof.
  destruct (@answer_create_foreign_question "n9" "u1" Sample.upsertForeign
              (Sample.world (Sample.dbTwoExams AttemptStatus.IN_PROGRESS))
              (Sample.blankAttempt "a1" "u1" "e1" AttemptStatus.IN_PROGRESS 10)
              Sample.exam1) as [_ H];
    try reflexivity; try discriminate.
  - intros n. reflexivity.
  - destruct (H Sample.q3 eq_refl) as (w' & E & _).
    + cbn. discriminate.
    + now exists w'.
Defined.

(** ** One answer per (attempt, question) pair *)

Lemma read_ok {A} (f : Db -> A) (w w1 : World) (x : A) :
  read f w = (Ok x, w1) ->
  x = f (w_db w) /\ w_db w1 = w_db w /\ w_faults w1 = w_faults w.
Proof.
  intros H. apply read_inv in H. destruct H as (D & F & [R|R]);
    [discriminate|]. injection R as R. auto.
Qed.

(** What a successful [create] tells: the guards held, the other tables are
    untouched, and the answer was either updated in place or appended. *)
Lemma answer_create_ok_inv (newId userId : string) (dto : CreateAnswerDto)
    (w w' : World) (a : Answer) :
  AnswerService.create newId userId dto w = (Ok a, w') ->
  exists att ex q,
    prisma.lookupAttempt (w_db w) (cd_attemptId dto) = Some att /\
    prisma.lookupExam (w_db w) (a_examId att) = Some ex /\
    prisma.lookupQuestion (w_db w) (cd_questionId dto) = Some q /\
    a_userId att = userId /\
    a_status att <> AttemptStatus.SUBMITTED /\
    a_status att <> AttemptStatus.EVALUATED /\
    q_examId q = a_examId att /\
    attempts (w_db w') = attempts (w_db w) /\
    exams (w_db w') = exams (w_db w) /\
    questions (w_db w') = questions (w_db w) /\
    ((exists old,
        prisma.lookupAnswerKey (w_db w) (cd_attemptId dto) (cd_questionId dto)
          = Some old /\
        a = applyAnswerData
              (AnswerService.upsertData dto
                 (AnswerService.marksAtWrite ex q (cd_selectedOption dto)))
              old /\
        answers (w_db w')
        = map (fun r => if prisma.sameKey (cd_attemptId dto) (cd_questionId dto) r
                        then applyAnswerData
                               (AnswerService.upsertData dto
                                  (AnswerService.marksAtWrite ex q
                                     (cd_selectedOption dto))) r
                        else r)
              (answers (w_db w)))
     \/
     (prisma.lookupAnswerKey (w_db w) (cd_attemptId dto) (cd_questionId dto)
        = None /\
      prisma.lookupAnswer (w_db w) newId = None /\
      a = AnswerService.insertData newId dto
            (AnswerService.marksAtWrite ex q (cd_selectedOption dto)) /\
      answers (w_db w') = answers (w_db w) ++ [a])).
Proof.
  unfold AnswerService.create, bind.
  destruct (prisma.attempt.findUniqueWithExam (cd_attemptId dto) w)
    as [[[[att ex]|]|x] w1] eqn:F1; try discriminate.
  apply findUniqueWithExam_ok in F1. destruct F1 as (La & Le & D1 & _).
  destruct (String.eqb (a_userId att) userId) eqn:Hu; [|discriminate].
  apply String.eqb_eq in Hu. cbn [negb].
  destruct (AttemptStatus.eqb (a_status att) AttemptStatus.SUBMITTED) eqn:S1;
    [discriminate|].
  destruct (AttemptStatus.eqb (a_status att) AttemptStatus.EVALUATED) eqn:S2;
    [discriminate|].
  cbn [orb]. unfold prisma.question.findUnique.
  match goal with |- context [read ?f w1] =>
    destruct (read f w1) as [[[q|]|x] w2] eqn:R2 end; try discriminate.
  apply read_ok in R2. destruct R2 as (Eq & D2 & _). rewrite D1 in Eq.
  destruct (String.eqb (q_examId q) (a_examId att)) eqn:Hq; [|discriminate].
  apply String.eqb_eq in Hq. cbn [negb].
  unfold prisma.answer.findUniqueKey.
  match goal with |- context [read ?f w2] =>
    destruct (read f w2) as [[o|x] w3] eqn:R3 end; [|discriminate].
  apply read_ok in R3. destruct R3 as (Eo & D3 & _).
  assert (D : w_db w3 = w_db w) by congruence.
  rewrite D2, D1 in Eo.
  intros H. exists att, ex, q.
  split; [exact La|]. split; [exact Le|]. split; [now symmetry|].
  split; [exact Hu|].
  split; [intros E; rewrite E in S1; discriminate|].
  split; [intros E; rewrite E in S2; discriminate|].
  split; [exact Hq|].
  destruct o as [old|].
  - unfold prisma.answer.updateKey in H. apply call_inv in H.
    destruct H as [_ [[R _]|[R Dw]]]; [discriminate|].
    rewrite D in R, Dw. rewrite <- Eo in R, Dw. cbn [fst snd] in R, Dw.
    injection R as R. rewrite Dw. cbn [attempts exams questions answers
      prisma.with_answers]. repeat split.
    left. exists old. split; [symmetry; exact Eo|].
    split; [exact R|reflexivity].
  - unfold prisma.answer.create in H. apply call_inv in H.
    destruct H as [_ [[R _]|[R Dw]]]; [discriminate|].
    rewrite D in R, Dw.
    cbn [ans_id ans_attemptId ans_questionId AnswerService.insertData] in R, Dw.
    rewrite <- Eo in R, Dw.
    destruct (prisma.lookupAnswer (w_db w) newId) eqn:Ln; cbn [fst snd] in R, Dw;
      [discriminate|].
    injection R as R. rewrite Dw. cbn [attempts exams questions answers
      prisma.with_answers]. repeat split.
    right. split; [symmetry; exact Eo|]. split; [reflexivity|].
    split; [exact R|]. now rewrite R.
Qed.

Lemma filter_map_same {A} (p : A -> bool) (f : A -> A) (l : list A) :
  (forall r, p (f r) = p r) ->
  filter p (map f l) = map f (filter p l).
Proof.
  intros H. induction l as [|r l IH]; [reflexivity|].
  cbn. rewrite H. destruct (p r); cbn; now rewrite IH.
Qed.

Lemma sameKey_pairOf (attemptId questionId : string) (r : Answer) :
  prisma.sameKey attemptId questionId r = true <->
  pairOf r = (attemptId, questionId).
Proof.
  unfold prisma.sameKey, pairOf. rewrite andb_true_iff, !String.eqb_eq.
  split; [intros [H1 H2]; now rewrite H1, H2|intros H; now injection H].
Qed.

Lemma find_none_not_in (l : list Answer) (attemptId questionId : string) :
  find (prisma.sameKey attemptId questionId) l = None ->
  ~ In (attemptId, questionId) (map pairOf l).
Proof.
  intros F Hin. apply in_map_iff in Hin. destruct Hin as (r & E & Hr).
  apply sameKey_pairOf in E. rewrite (find_none _ _ F r Hr) in E. discriminate.
Qed.

Lemma lookup_none_not_in (l : list Answer) (id : string) :
  find (fun r => String.eqb (ans_id r) id) l = None ->
  ~ In id (map ans_id l).
Proof.
  intros F Hin. apply in_map_iff in Hin. destruct Hin as (r & E & Hr).
  pose proof (find_none _ _ F r Hr) as N. cbn in N.
  rewrite E, String.eqb_refl in N. discriminate.
Qed.

Lemma NoDup_snoc {A} (l : list A) (x : A) :
  NoDup l -> ~ In x l -> NoDup (l ++ [x]).
Proof.
  induction l as [|y l IH]; intros Hn Hx; cbn.
  - constructor; [intros []|constructor].
  - inversion Hn as [|z zs Hy Hn']. subst. constructor.
    + rewrite in_app_iff. intros [H|[H|[]]]; [now apply Hy|].
      subst. apply Hx. now left.
    + apply IH; [assumption|]. intros H. apply Hx. now right.
Qed.

(** With distinct pairs, the rows of a pair are the one row the lookup
    finds. *)
Lemma filter_unique_pair (l : list Answer) (attemptId questionId : string)
    (old : Answer) :
  NoDup (map pairOf l) ->
  find (prisma.sameKey attemptId questionId) l = Some old ->
  filter (prisma.sameKey attemptId questionId) l = [old].
Proof.
  induction l as [|r l IH]; intros Hn F; [discriminate|].
  cbn in *. inversion Hn as [|z zs Hr Hn']. subst.
  destruct (prisma.sameKey attemptId questionId r) eqn:K.
  - injection F as F. subst r. f_equal. apply filter_none.
    intros x Hx. destruct (prisma.sameKey attemptId questionId x) eqn:Kx;
      [|reflexivity].
    exfalso. apply Hr. apply sameKey_pairOf in K. apply sameKey_pairOf in Kx.
    rewrite K, <- Kx. now apply in_map.
  - now apply IH.
Qed.

(** X7: a successful [AnswerService.create] keeps the primary keys and the
    (attempt, question) pairs of the answers distinct, and leaves exactly
    one row for the pair it wrote: the answer it returns. *)
Theorem answer_create_one_row (newId userId : string) (dto : CreateAnswerDto)
    (w w' : World) (a : Answer) :
  uniqueAnswers (w_db w) ->
  AnswerService.create newId userId dto w = (Ok a, w') ->
  uniqueAnswers (w_db w') /\
  filter (prisma.sameKey (cd_attemptId dto) (cd_questionId dto))
         (answers (w_db w')) = [a].
Proof.
  intros [Hid Hpair] H. apply answer_create_ok_inv in H.
  destruct H as (att & ex & q & _ & _ & _ & _ & _ & _ & _ & _ & _ & _ &
                 [(old & Lk & Ea & Ans)|(Lk & Ln & Ea & Ans)]).
  - unfold uniqueAnswers. rewrite Ans. split; [split|].
    + rewrite map_map.
      erewrite map_ext; [exact Hid|].
      intros r. destruct (prisma.sameKey _ _ r); reflexivity.
    + rewrite map_map.
      erewrite map_ext; [exact Hpair|].
      intros r. destruct (prisma.sameKey _ _ r); reflexivity.
    + rewrite filter_map_same.
      * rewrite (@filter_unique_pair _ _ _ old Hpair Lk). cbn [map].
        apply find_some in Lk. destruct Lk as [_ Lk]. rewrite Lk.
        now rewrite Ea.
      * intros r. destruct (prisma.sameKey _ _ r) eqn:K; [|exact K].
        now rewrite sameKey_applyAnswerData.
  - assert (Ei : ans_id a = newId) by now rewrite Ea.
    assert (Ep : pairOf a = (cd_attemptId dto, cd_questionId dto))
      by now rewrite Ea.
    unfold uniqueAnswers. rewrite Ans. split; [split|].
    + rewrite map_app. cbn [map]. rewrite Ei. apply NoDup_snoc; [exact Hid|].
      now apply lookup_none_not_in.
    + rewrite map_app. cbn [map]. rewrite Ep. apply NoDup_snoc; [exact Hpair|].
      now apply find_none_not_in.
    + rewrite filter_app. cbn [filter].
      assert (K : prisma.sameKey (cd_attemptId dto) (cd_questionId dto) a = true)
        by now apply sameKey_pairOf.
      rewrite K. rewrite filter_none; [reflexivity|].
      intros x Hx. exact (find_none _ _ Lk x Hx).
Qed.

(** X7, witness: [u1] answers [q1] again in attempt [a1]; the pair
    (a1, q1) keeps one row. *)
Lemma answer_create_one_row_witness :
  exists a w',
    AnswerService.create "n9" "u1" Sample.upsert30
      (Sample.world (Sample.dbAnswering AttemptStatus.IN_PROGRESS))
    = (Ok a, w') /\
    filter (prisma.sameKey "a1" "q1") (answers (w_db w')) = [a].
Proof.
  eexists. eexists. split; [vm_compute; reflexivity|].
  refine (proj2 (@answer_create_one_row "n9" "u1" Sample.upsert30
                   (Sample.world (Sample.dbAnswering AttemptStatus.IN_PROGRESS))
                   _ _ _ _)).
  - split; cbn; repeat constructor; cbn; intuition discriminate.
  - vm_compute. reflexivity.
Defined.




(** X9: when [create] rewrites an existing answer, the stored marks are
    replaced by the marks computed at write time (none for a descriptive
    question, and none on an exam without negative marking), while the
    feedback, the evaluator and the evaluation time of the row are kept. *)
Theorem upsert_resets_marks (newId userId : string) (dto : CreateAnswerDto)
    (w w' : World) (a old : Answer) :
  prisma.lookupAnswerKey (w_db w) (cd_attemptId dto) (cd_questionId dto)
    = Some old ->
  AnswerService.create newId userId dto w = (Ok a, w') ->
  exists att ex q,
    prisma.lookupAttempt (w_db w) (cd_attemptId dto) = Some att /\
    prisma.lookupExam (w_db w) (a_examId att) = Some ex /\
    prisma.lookupQuestion (w_db w) (cd_questionId dto) = Some q /\
    ans_marks a = AnswerService.marksAtWrite ex q (cd_selectedOption dto) /\
    (q_type q = QuestionType.DESCRIPTIVE \/ exam_negativeMarking ex = false ->
     ans_marks a = None) /\
    ans_feedback a = ans_feedback old /\
    ans_evaluatedBy a = ans_evaluatedBy old /\
    ans_evaluatedAt a = ans_evaluatedAt old.
Proof.
  intros Lk H. apply answer_create_ok_inv in H.
  destruct H as (att & ex & q & La & Le & Lq & _ & _ & _ & _ & _ & _ & _ &
                 [(old' & Lk' & Ea & _)|(Lk' & _)]);
    rewrite Lk in Lk'; [|discriminate].
  injection Lk' as Lk'. subst old'.
  exists att, ex, q. split; [exact La|]. split; [exact Le|]. split; [exact Lq|].
  rewrite Ea. cbn. repeat split.
  intros [Hd|Hn]; unfold AnswerService.marksAtWrite.
  - now rewrite Hd.
  - rewrite Hn. now rewrite andb_false_r.
Qed.

(** X9, witness: [u1] rewrites the essay the teacher had graded 7. *)
Lemma upsert_resets_marks_witness :
  exists a w',
    AnswerService.create "n9" "u1" Sample.upsertEssay
      (Sample.world (Sample.dbGraded AttemptStatus.IN_PROGRESS)) = (Ok a, w') /\
    ans_marks a = None /\
    ans_evaluatedBy a = Some "t1"%string.
Proof.
  eexists. eexists. split; [vm_compute; reflexivity|].
  destruct (@upsert_resets_marks "n9" "u1" Sample.upsertEssay
              (Sample.world (Sample.dbGraded AttemptStatus.IN_PROGRESS))
              _ _ Sample.answer2Graded eq_refl eq_refl)
    as (att & ex & q & _ & _ & Lq & _ & M & _ & B & _).
  split; [|exact B].
  apply M. left. vm_compute in Lq. injection Lq as Lq. now subst q.
Defined.

(** ** Revising an answer *)

Lemma findOne_ok (id : string) (w w1 : World) (ans : Answer) (q : Question)
    (att : Attempt) (ex : Exam) :
  AnswerService.findOne id w = (Ok (ans, q, att, ex), w1) ->
  prisma.lookupAnswer (w_db w) id = Some ans /\
  prisma.lookupQuestion (w_db w) (ans_questionId ans) = Some q /\
  prisma.lookupAttempt (w_db w) (ans_attemptId ans) = Some att /\
  prisma.lookupExam (w_db w) (a_examId att) = Some ex /\
  w_db w1 = w_db w.
Proof.
  unfold AnswerService.findOne, bind.
  destruct (prisma.answer.findUniqueFull id w) as [[[r|]|x] w0] eqn:F;
    try discriminate.
  unfold ret. intros H. injection H as H1 H2. subst r w0.
  unfold prisma.answer.findUniqueFull in F. apply call_inv in F.
  destruct F as [_ [[R _]|[R D]]]; [discriminate|].
  destruct (prisma.lookupAnswer (w_db w) id) as [a0|]; cbn [fst snd] in R, D;
    [|discriminate].
  destruct (prisma.lookupQuestion (w_db w) (ans_questionId a0)) as [q0|] eqn:Lq;
    [|destruct (prisma.lookupAttempt (w_db w) (ans_attemptId a0));
      discriminate].
  destruct (prisma.lookupAttempt (w_db w) (ans_attemptId a0)) as [t0|] eqn:Lt;
    cbn [fst snd] in R, D; try discriminate.
  destruct (prisma.lookupExam (w_db w) (a_examId t0)) as [e0|] eqn:Le;
    cbn [fst snd] in R, D; [|discriminate].
  injection R as R1 R2 R3 R4. subst. auto.
Qed.

(** What a successful [update] tells. *)
Lemma answer_update_ok_inv (id userId : string) (dto : UpdateAnswerDto)
    (w w' : World) (a' : Answer) :
  AnswerService.update id userId dto w = (Ok a', w') ->
  exists ans q att,
    prisma.lookupAnswer (w_db w) id = Some ans /\
    prisma.lookupQuestion (w_db w) (ans_questionId ans) = Some q /\
    prisma.lookupAttempt (w_db w) (ans_attemptId ans) = Some att /\
    a_userId att = userId /\
    a_status att = AttemptStatus.IN_PROGRESS /\
    (forall s, q_type q = QuestionType.MCQ ->
               ud_selectedOption dto = Some s -> Js.truthy_str s = true ->
               Js.includes (q_options q) s = true) /\
    a' = applyAnswerData (AnswerService.updateDataOf ans q dto) ans /\
    w_db w'
    = prisma.with_answers (w_db w)
        (map (fun r => if String.eqb (ans_id r) id
                       then applyAnswerData
                              (AnswerService.updateDataOf ans q dto) r
                       else r) (answers (w_db w))).
Proof.
  unfold AnswerService.update. unfold bind at 1.
  destruct (AnswerService.findOne id w) as [[[[[ans q0] att] ex]|x] w1] eqn:F;
    [|discriminate].
  apply findOne_ok in F. destruct F as (La & Lq & Lt & Le & D1).
  destruct (String.eqb (a_userId att) userId) eqn:Hu; [|discriminate].
  apply String.eqb_eq in Hu. cbn [negb].
  destruct (AttemptStatus.eqb (a_status att) AttemptStatus.IN_PROGRESS) eqn:Hs;
    [|discriminate].
  cbn [negb]. unfold bind, prisma.question.findUnique.
  match goal with |- context [read ?f w1] =>
    destruct (read f w1) as [[[q|]|x] w2] eqn:R2 end; try discriminate.
  apply read_ok in R2. destruct R2 as (Eq & D2 & _). rewrite D1 in Eq.
  match goal with |- context [if ?c then throw _ else _] =>
    destruct c eqn:Inv end; [discriminate|].
  intros H. unfold prisma.answer.update in H. apply call_inv in H.
  destruct H as [_ [[R _]|[R D]]]; [discriminate|].
  rewrite D2, D1 in R, D. rewrite La in R, D. cbn [fst snd] in R, D.
  injection R as R.
  exists ans, q, att. split; [exact La|]. split; [now symmetry|].
  split; [exact Lt|]. split; [exact Hu|].
  split; [destruct (a_status att); try discriminate; reflexivity|].
  split; [|split; [now symmetry|exact D]].
  intros s Hq Hsel Ht. rewrite Hq, Hsel, Ht in Inv. cbn [andb] in Inv.
  now apply negb_false_iff in Inv.
Qed.

(** X10: [AnswerService.update] succeeds only for the owner of an attempt
    that is IN_PROGRESS, and only with a selection that is one of the
    options of an MCQ question; it then leaves the marks, the feedback and
    the evaluation stamp of the answer, and every attempt, as they were. *)
Theorem answer_update_success (id userId : string) (dto : UpdateAnswerDto)
    (w w' : World) (a' : Answer) :
  AnswerService.update id userId dto w = (Ok a', w') ->
  exists ans q att,
    prisma.lookupAnswer (w_db w) id = Some ans /\
    prisma.lookupQuestion (w_db w) (ans_questionId ans) = Some q /\
    prisma.lookupAttempt (w_db w) (ans_attemptId ans) = Some att /\
    a_userId att = userId /\
    a_status att = AttemptStatus.IN_PROGRESS /\
    (forall s, q_type q = QuestionType.MCQ ->
               ud_selectedOption dto = Some s -> Js.truthy_str s = true ->
               In s (q_options q)) /\
    skeleton a' = skeleton ans /\
    ans_marks a' = ans_marks ans /\
    ans_feedback a' = ans_feedback ans /\
    ans_evaluatedBy a' = ans_evaluatedBy ans /\
    ans_evaluatedAt a' = ans_evaluatedAt ans /\
    attempts (w_db w') = attempts (w_db w).
Proof.
  intros H. apply answer_update_ok_inv in H.
  destruct H as (ans & q & att & La & Lq & Lt & Hu & Hs & Ho & Ea & D).
  exists ans, q, att. repeat (split; [assumption|]).
  split.
  { intros s Hq Hsel Ht. specialize (Ho s Hq Hsel Ht).
    unfold Js.includes in Ho. apply existsb_exists in Ho.
    destruct Ho as (x & Hin & E). apply String.eqb_eq in E. now subst x. }
  rewrite Ea, D. unfold AnswerService.updateDataOf.
  destruct (q_type q); cbn; repeat split.
Qed.

(** X10, witness: [u1] adds 30 seconds to the essay of attempt [a1]. *)
Lemma answer_update_success_witness :
  exists a' w',
    AnswerService.update "n2" "u1" Sample.revise30
      (Sample.world (Sample.dbAnswering AttemptStatus.IN_PROGRESS))
    = (Ok a', w') /\
    exists ans,
      prisma.lookupAnswer (Sample.dbAnswering AttemptStatus.IN_PROGRESS) "n2"
        = Some ans /\
      ans_marks a' = ans_marks ans.
Proof.
  eexists. eexists. split; [vm_compute; reflexivity|].
  destruct (@answer_update_success "n2" "u1" Sample.revise30
              (Sample.world (Sample.dbAnswering AttemptStatus.IN_PROGRESS))
              _ _ eq_refl)
    as (ans & q & att & La & _ & _ & _ & _ & _ & _ & M & _).
  exists ans. split; [exact La|exact M].
Defined.

(** X11: after a successful [AnswerService.update] the row holds at most
    one of selectedOption and answerText as soon as it did before the call
    or the payload carries a value for the field of the question's type:
    setting one of the two fields clears the other. *)
Theorem answer_update_exclusive (id userId : string) (dto : UpdateAnswerDto)
    (w w' : World) (a' ans : Answer) (q : Question) :
  prisma.lookupAnswer (w_db w) id = Some ans ->
  prisma.lookupQuestion (w_db w) (ans_questionId ans) = Some q ->
  AnswerService.update id userId dto w = (Ok a', w') ->
  exclusive ans \/ answersOwnField q dto = true ->
  exclusive a'.
Proof.
  intros La Lq H Hx. apply answer_update_ok_inv in H.
  destruct H as (ans0 & q0 & att & La0 & Lq0 & _ & _ & _ & _ & Ea & _).
  rewrite La in La0. injection La0 as La0. subst ans0.
  rewrite Lq in Lq0. injection Lq0 as Lq0. subst q0.
  rewrite Ea. unfold exclusive, answersOwnField, AnswerService.updateDataOf in *.
  destruct (q_type q); cbn.
  - destruct (ud_selectedOption dto) as [s|]; cbn in *.
    + destruct (Js.truthy_str s); cbn; [|reflexivity].
      destruct (Js.truthy_ostr (ans_answerText ans)) eqn:T; cbn;
        [reflexivity|exact T].
    + destruct Hx as [Hx|Hx]; [exact Hx|discriminate].
  - destruct (ud_answerText dto) as [s|]; cbn in *.
    + destruct (Js.truthy_str s); cbn; [|apply andb_false_r].
      destruct (Js.truthy_ostr (ans_selectedOption ans)) eqn:T; cbn;
        [reflexivity|]. now rewrite T.
    + destruct Hx as [Hx|Hx]; [exact Hx|discriminate].
Qed.

(** X11, witness: the row of the essay holds a selection and a text; the
    revision of the text clears the selection. *)
Lemma answer_update_exclusive_witness :
  ~ exclusive Sample.answerBoth /\
  exists a' w',
    AnswerService.update "n2" "u1" Sample.reviseEssay (Sample.world Sample.dbBoth)
    = (Ok a', w') /\
    exclusive a' /\
    ans_selectedOption a' = None.
Proof.
  split; [discriminate|].
  eexists. eexists. split; [vm_compute; reflexivity|]. split; [|reflexivity].
  refine (@answer_update_exclusive "n2" "u1" Sample.reviseEssay
            (Sample.world Sample.dbBoth) _ _ Sample.answerBoth Sample.q2
            eq_refl eq_refl _ (or_intror eq_refl)).
  vm_compute. reflexivity.
Defined.

(** ** Grading one answer *)

(** X12: [AnswerService.evaluate] refuses with Forbidden, and writes
    nothing, when the caller is not the teacher of the answer's exam.  For
    that teacher it stores the marks, the supplied feedback, the teacher and
    the time on the answer, whatever the status of the attempt, and leaves
    the student's fields of the answer and every attempt (hence the
    attempt's score) as they were. *)
Theorem answer_evaluate_owner_only (now : Date) (id teacherId : string)
    (dto : EvaluateAnswerDto) (w : World) (ans : Answer) (q : Question)
    (att : Attempt) (ex : Exam) :
  w_faults w (w_ops w) = false ->
  prisma.lookupAnswer (w_db w) id = Some ans ->
  prisma.lookupQuestion (w_db w) (ans_questionId ans) = Some q ->
  prisma.lookupAttempt (w_db w) (ans_attemptId ans) = Some att ->
  prisma.lookupExam (w_db w) (a_examId att) = Some ex ->
  (exam_teacherId ex <> teacherId ->
   exists w',
     AnswerService.evaluate now id teacherId dto w
     = (Throw ForbiddenException, w') /\ w_db w' = w_db w) /\
  (exam_teacherId ex = teacherId ->
   w_faults w (S (w_ops w)) = false ->
   exists a' w',
     AnswerService.evaluate now id teacherId dto w = (Ok a', w') /\
     prisma.lookupAnswer (w_db w') id = Some a' /\
     ans_marks a' = Some (ead_marks dto) /\
     ans_evaluatedBy a' = Some teacherId /\
     ans_evaluatedAt a' = Some now /\
     ans_feedback a' = match ead_feedback dto with
                       | Some f => Some f
                       | None => ans_feedback ans
                       end /\
     ans_selectedOption a' = ans_selectedOption ans /\
     ans_answerText a' = ans_answerText ans /\
     ans_timeSpent a' = ans_timeSpent ans /\
     attempts (w_db w') = attempts (w_db w)).
Proof.
  intros Hf La Lq Lt Le.
  assert (F : AnswerService.findOne id w
              = (Ok (ans, q, att, ex), advance w (w_db w))).
  { unfold AnswerService.findOne, bind, prisma.answer.findUniqueFull, call.
    rewrite Hf, La, Lq, Lt, Le. reflexivity. }
  unfold AnswerService.evaluate, bind. rewrite F. split.
  - intros Hn. apply String.eqb_neq in Hn. rewrite Hn. cbn [negb].
    eexists. split; reflexivity.
  - intros Ht Hf2. rewrite Ht, String.eqb_refl. cbn [negb].
    unfold prisma.answer.update, call. cbn [w_faults w_ops w_db advance].
    rewrite Hf2, La. cbn [fst snd].
    eexists. eexists. split; [reflexivity|]. split.
    + cbn [w_db advance]. now apply lookupAnswer_update.
    + cbn. destruct (ead_feedback dto); repeat split.
Qed.

(** X12, witness: the teacher [t2] grades an answer of an exam of [t1];
    then [t1] grades it, while the attempt is still in progress. *)
Lemma answer_evaluate_owner_only_witness :
  (exists w',
     AnswerService.evaluate 3000%Z "n2" "t2"
       {| ead_marks := 7; ead_feedback := None |}
       (Sample.world (Sample.dbAnswering AttemptStatus.IN_PROGRESS))
     = (Throw ForbiddenException, w')) /\
  (exists a' w',
     AnswerService.evaluate 3000%Z "n2" "t1"
       {| ead_marks := 7; ead_feedback := None |}
       (Sample.world (Sample.dbAnswering AttemptStatus.IN_PROGRESS))
     = (Ok a', w') /\ ans_marks a' = Some 7).
Proof.
  split.
  - destruct (@answer_evaluate_owner_only 3000%Z "n2" "t2"
                {| ead_marks := 7; ead_feedback := None |}
                (Sample.world (Sample.dbAnswering AttemptStatus.IN_PROGRESS))
                Sample.answer2 Sample.q2
                (Sample.blankAttempt "a1" "u1" "e1" AttemptStatus.IN_PROGRESS 10)
                Sample.exam1 eq_refl eq_refl eq_refl eq_refl eq_refl) as [H _].
    destruct H as (w' & E & _); [cbn; discriminate|]. now exists w'.
  - destruct (@answer_evaluate_owner_only 3000%Z "n2" "t1"
                {| ead_marks := 7; ead_feedback := None |}
                (Sample.world (Sample.dbAnswering AttemptStatus.IN_PROGRESS))
                Sample.answer2 Sample.q2
                (Sample.blankAttempt "a1" "u1" "e1" AttemptStatus.IN_PROGRESS 10)
                Sample.exam1 eq_refl eq_refl eq_refl eq_refl eq_refl) as [_ H].
    destruct (H eq_refl eq_refl) as (a' & w' & E & _ & M & _).
    exists a', w'. split; [exact E|exact M].
Defined.

(** ** Opening an attempt *)

(** When [checkExamAccess] answers, its answer is [accessGranted]. *)
Lemma checkExamAccess_ok (userId examId : string) (isFree b : bool)
    (w w' : World) :
  AttemptService.checkExamAccess userId examId isFree w = (Ok b, w') ->
  b = accessGranted (w_db w) userId examId isFree /\ w_db w' = w_db w.
Proof.
  unfold AttemptService.checkExamAccess, accessGranted.
  destruct isFree; [unfold ret; intros H; injection H as H1 H2; now subst|].
  unfold bind, prisma.purchase.findFirst, prisma.exam.findUnique.
  match goal with |- context [read ?f w] =>
    destruct (read f w) as [[o1|x] w1] eqn:R1 end; [|discriminate].
  apply read_ok in R1. destruct R1 as (E1 & D1 & _). rewrite <- E1.
  destruct o1; [unfold ret; intros H; injection H as H1 H2; subst; auto|].
  match goal with |- context [read ?f w1] =>
    destruct (read f w1) as [[o2|x] w2] eqn:R2 end; [|discriminate].
  apply read_ok in R2. destruct R2 as (E2 & D2 & _). rewrite D1 in E2.
  rewrite <- E2.
  destruct o2 as [e|];
    [|unfold ret; intros H; injection H as H1 H2; subst; split; congruence].
  destruct (Js.truthy_ostr (exam_testSeriesId e));
    [|unfold ret; intros H; injection H as H1 H2; subst; split; congruence].
  match goal with |- context [read ?f w2] =>
    destruct (read f w2) as [[o3|x] w3] eqn:R3 end; [|discriminate].
  apply read_ok in R3. destruct R3 as (E3 & D3 & _). rewrite D2, D1 in E3.
  rewrite <- E3.
  destruct o3; unfold ret; intros H; injection H as H1 H2; subst;
    split; congruence.
Qed.

(** What a successful [AttemptService.create] tells. *)
Lemma attempt_create_ok_inv (now : Date) (newId userId : string)
    (dto : CreateAttemptDto) (w w' : World) (a : Attempt) :
  AttemptService.create now newId userId dto w = (Ok a, w') ->
  exists ex,
    find (fun e => String.eqb (exam_id e) (cad_examId dto) && exam_isActive e)
         (exams (w_db w)) = Some ex /\
    accessGranted (w_db w) userId (exam_id ex) (exam_isFree ex) = true /\
    find (AttemptService.inProgressWhere userId (exam_id ex))
         (attempts (w_db w)) = None /\
    prisma.lookupAttempt (w_db w) newId = None /\
    a_id a = newId /\ a_userId a = userId /\ a_examId a = exam_id ex /\
    a_status a = match cad_status dto with
                 | Some s => s
                 | None => AttemptStatus.IN_PROGRESS
                 end /\
    a_maxScore a = exam_totalMarks ex /\
    a_startTime a = (now + 120000)%Z /\
    a_timeSpent a = cad_timeSpent dto /\
    a_score a = None /\ a_percentage a = None /\ a_submitTime a = None /\
    a_evaluatedBy a = None /\
    w_db w' = prisma.with_attempts (w_db w) (attempts (w_db w) ++ [a]).
Proof.
  unfold AttemptService.create, bind, prisma.exam.findUniqueActive.
  match goal with |- context [read ?f w] =>
    destruct (read f w) as [[[ex|]|x] w1] eqn:R1 end; try discriminate.
  apply read_ok in R1. destruct R1 as (E1 & D1 & _).
  destruct (AttemptService.checkExamAccess userId (exam_id ex) (exam_isFree ex) w1)
    as [[b|x] w2] eqn:C; [|discriminate].
  apply checkExamAccess_ok in C. destruct C as (Eb & D2). rewrite D1 in Eb.
  destruct b; cbn [negb]; [|discriminate].
  unfold prisma.attempt.findFirst.
  match goal with |- context [read ?f w2] =>
    destruct (read f w2) as [[[y|]|x] w3] eqn:R3 end; try discriminate.
  apply read_ok in R3. destruct R3 as (E3 & D3 & _). rewrite D2, D1 in E3.
  intros H. unfold prisma.attempt.create in H. apply call_inv in H.
  destruct H as [_ [[R _]|[R D]]]; [discriminate|].
  assert (Dw : w_db w3 = w_db w) by congruence.
  rewrite Dw in R, D. cbn [a_id] in R, D.
  destruct (prisma.lookupAttempt (w_db w) newId) eqn:Ln; cbn [fst snd] in R, D;
    [discriminate|].
  injection R as R. exists ex.
  split; [now symmetry|]. split; [now symmetry|]. split; [now symmetry|].
  split; [reflexivity|]. rewrite D. subst a. cbn. repeat split.
Qed.

(** X13: [AttemptService.create] succeeds only for an active exam the user
    has access to and has no attempt IN_PROGRESS on.  The attempt it
    returns is appended to the table, belongs to the user and the exam,
    carries the exam's total marks as maxScore, starts two minutes after
    the call, and has no score, percentage, submit time or evaluator. *)
Theorem attempt_create_success (now : Date) (newId userId : string)
    (dto : CreateAttemptDto) (w w' : World) (a : Attempt) :
  AttemptService.create now newId userId dto w = (Ok a, w') ->
  exists ex,
    In ex (exams (w_db w)) /\
    exam_id ex = cad_examId dto /\ exam_isActive ex = true /\
    accessGranted (w_db w) userId (exam_id ex) (exam_isFree ex) = true /\
    (forall b, In b (attempts (w_db w)) -> a_userId b = userId ->
               a_examId b = cad_examId dto ->
               a_status b <> AttemptStatus.IN_PROGRESS) /\
    attempts (w_db w') = attempts (w_db w) ++ [a] /\
    answers (w_db w') = answers (w_db w) /\
    a_userId a = userId /\ a_examId a = cad_examId dto /\
    a_maxScore a = exam_totalMarks ex /\
    a_startTime a = (now + 2 * 60 * 1000)%Z /\
    a_score a = None /\ a_percentage a = None /\ a_submitTime a = None /\
    a_evaluatedBy a = None.
Proof.
  intros H. apply attempt_create_ok_inv in H.
  destruct H as (ex & F & Acc & Fp & Ln & Ei & Eu & Ee & Es & Em & Et & Ets &
                 Esc & Ep & Esub & Eev & D).
  exists ex. destruct (find_some _ _ F) as [Hin Hx].
  apply andb_true_iff in Hx. destruct Hx as [Hx1 Hx2].
  apply String.eqb_eq in Hx1.
  split; [exact Hin|]. split; [exact Hx1|]. split; [exact Hx2|].
  split; [exact Acc|]. split.
  { intros b Hb Hu He Hs.
    pose proof (find_none _ _ Fp b Hb) as N.
    unfold AttemptService.inProgressWhere in N.
    rewrite Hu, He, Hx1, Hs, !String.eqb_refl in N. discriminate. }
  rewrite D. cbn [attempts answers prisma.with_attempts].
  repeat split; try assumption; congruence.
Qed.

(** X13, witness: [u1], who bought [e1], opens an attempt at time 500. *)
Lemma attempt_create_success_witness :
  exists a w',
    AttemptService.create 500%Z "a1" "u1" Sample.dtoPlain
      (Sample.world Sample.dbPurchased) = (Ok a, w') /\
    a_maxScore a = 10 /\ a_startTime a = 120500%Z.
Proof.
  eexists. eexists. split; [vm_compute; reflexivity|].
  destruct (@attempt_create_success 500%Z "a1" "u1" Sample.dtoPlain
              (Sample.world Sample.dbPurchased) _ _ eq_refl)
    as (ex & Hin & _ & _ & _ & _ & _ & _ & _ & _ & M & T & _).
  destruct Hin as [E|[]]. subst ex. split; [exact M|exact T].
Defined.

Lemma filter_length_snoc {A} (p : A -> bool) (l : list A) (x : A) :
  List.length (filter p (l ++ [x]))
  = (List.length (filter p l) + (if p x then 1 else 0))%nat.
Proof.
  rewrite filter_app, length_app. cbn. destruct (p x); reflexivity.
Qed.

(** X14: [AttemptService.create] keeps the rule that a user has at most
    one attempt IN_PROGRESS on an exam. *)
Theorem attempt_create_single_in_progress (now : Date) (newId userId : string)
    (dto : CreateAttemptDto) (w w' : World) (a : Attempt) :
  singleInProgress (w_db w) ->
  AttemptService.create now newId userId dto w = (Ok a, w') ->
  singleInProgress (w_db w').
Proof.
  intros Hs H. apply attempt_create_ok_inv in H.
  destruct H as (ex & _ & _ & Fp & _ & _ & Eu & Ee & _ & _ & _ & _ & _ & _ &
                 _ & _ & D).
  intros u e. rewrite D. cbn [attempts prisma.with_attempts].
  rewrite filter_length_snoc.
  destruct (AttemptService.inProgressWhere u e a) eqn:P.
  - unfold AttemptService.inProgressWhere in P.
    apply andb_true_iff in P. destruct P as [P Ps].
    apply andb_true_iff in P. destruct P as [Pu Pe].
    apply String.eqb_eq in Pu. apply String.eqb_eq in Pe.
    rewrite Eu in Pu. rewrite Ee in Pe. subst u e.
    rewrite (filter_none _ _ (find_none _ _ Fp)). cbn. lia.
  - specialize (Hs u e). lia.
Qed.

(** X14, witness: the first attempt of [u1] on [e1]. *)
Lemma attempt_create_single_in_progress_witness :
  exists a w',
    AttemptService.create 500%Z "a1" "u1" Sample.dtoPlain
      (Sample.world Sample.dbPurchased) = (Ok a, w') /\
    singleInProgress (w_db w').
Proof.
  eexists. eexists. split; [vm_compute; reflexivity|].
  refine (@attempt_create_single_in_progress 500%Z "a1" "u1" Sample.dtoPlain
            (Sample.world Sample.dbPurchased) _ _ _ eq_refl).
  intros u e. cbn. lia.
Defined.

(** ** Updating an attempt *)

(** What a successful [AttemptService.update] tells: the row of the
    attempt was rewritten with the data of the caller's branch. *)
Lemma attempt_update_ok_inv (JSON_parse : string -> option Json) (now : Date)
    (id userId : string) (dto : UpdateAttemptDto) (isTeacher : bool)
    (w w' : World) (a' : Attempt) :
  AttemptService.update JSON_parse now id userId dto isTeacher w = (Ok a', w') ->
  exists att ex data,
    prisma.lookupAttempt (w_db w) id = Some att /\
    prisma.lookupExam (w_db w) (a_examId att) = Some ex /\
    a' = applyAttemptData data att /\
    w_db w'
    = prisma.with_attempts (w_db w)
        (map (fun r => if String.eqb (a_id r) id
                       then applyAttemptData data r else r)
             (attempts (w_db w))) /\
    ((isTeacher = false /\ a_userId att = userId /\
      uad_status dto <> Some AttemptStatus.IN_PROGRESS /\
      uad_status dto <> Some AttemptStatus.EVALUATED /\
      exists sd, data = AttemptService.studentData now att dto sd /\
                 (uad_status dto <> Some AttemptStatus.SUBMITTED -> sd = None))
     \/
     (isTeacher = true /\
      exists fb, data = AttemptService.teacherData userId att dto fb)).
Proof.
  unfold AttemptService.update, bind.
  destruct (prisma.attempt.findUniqueWithExam id w) as [[[[att ex]|]|x] w1] eqn:F;
    try discriminate.
  apply findUniqueWithExam_ok in F. destruct F as (La & Le & D1 & _).
  destruct (negb isTeacher && negb (String.eqb (a_userId att) userId)) eqn:G;
    [discriminate|].
  destruct (AttemptService.parseFeedback JSON_parse dto w1)
    as [[fb|x] w1'] eqn:Pf; [|discriminate].
  apply parseFeedback_world in Pf. subst w1'.
  assert (Fin : forall data w2,
            w_db w2 = w_db w ->
            prisma.attempt.update id data w2 = (Ok a', w') ->
            a' = applyAttemptData data att /\
            w_db w'
            = prisma.with_attempts (w_db w)
                (map (fun r => if String.eqb (a_id r) id
                               then applyAttemptData data r else r)
                     (attempts (w_db w)))).
  { intros data w2 D2 H. unfold prisma.attempt.update in H.
    apply call_inv in H. destruct H as [_ [[R _]|[R D]]]; [discriminate|].
    rewrite D2 in R, D. rewrite La in R, D. cbn [fst snd] in R, D.
    injection R as R. split; [now symmetry|exact D]. }
  destruct isTeacher; cbn [negb andb ret] in *.
  - intros H. apply (Fin _ w1 D1) in H. destruct H as [Ea D].
    exists att, ex, (AttemptService.teacherData userId att dto fb).
    repeat (split; [assumption|]). right. split; [reflexivity|now exists fb].
  - apply negb_false_iff, String.eqb_eq in G.
    destruct (uad_status dto) as [[| | |]|] eqn:St; try discriminate.
    + destruct (calculateScore_never_throws ex (a_id att) w1)
        as (r & w3 & C & D3 & _ & _).
      rewrite C. intros H. apply (Fin _ w3) in H; [|congruence].
      destruct H as [Ea D].
      exists att, ex, (AttemptService.studentData now att dto r).
      repeat (split; [assumption|]). left.
      repeat split; try discriminate; try assumption.
      exists r. split; [reflexivity|]. intros N. now contradiction N.
    + intros H. apply (Fin _ w1 D1) in H. destruct H as [Ea D].
      exists att, ex, (AttemptService.studentData now att dto None).
      repeat (split; [assumption|]). left.
      repeat split; try discriminate; try assumption.
      exists None. split; reflexivity.
    + intros H. apply (Fin _ w1 D1) in H. destruct H as [Ea D].
      exists att, ex, (AttemptService.studentData now att dto None).
      repeat (split; [assumption|]). left.
      repeat split; try discriminate; try assumption.
      exists None. split; reflexivity.
Qed.

Lemma filter_length_map_le {A} (p : A -> bool) (f : A -> A) (l : list A) :
  (forall r, p (f r) = true -> p r = true) ->
  (List.length (filter p (map f l)) <= List.length (filter p l))%nat.
Proof.
  intros H. induction l as [|r l IH]; [cbn; lia|].
  cbn. destruct (p (f r)) eqn:P.
  - rewrite (H r P). cbn. lia.
  - destruct (p r); cbn; lia.
Qed.

(** Rewriting rows with data that does not set the status to IN_PROGRESS
    keeps at most one attempt in progress per user and exam. *)
Lemma update_single_in_progress (d : Db) (id : string) (data : AttemptData) :
  d_status data <> Some AttemptStatus.IN_PROGRESS ->
  singleInProgress d ->
  singleInProgress
    (prisma.with_attempts d
       (map (fun r => if String.eqb (a_id r) id
                      then applyAttemptData data r else r) (attempts d))).
Proof.
  intros Hd Hs u e. cbn [attempts prisma.with_attempts].
  eapply Nat.le_trans; [|apply (Hs u e)].
  apply filter_length_map_le. intros r.
  destruct (String.eqb (a_id r) id); [|auto].
  unfold AttemptService.inProgressWhere. cbn [a_userId a_examId a_status
    applyAttemptData].
  destruct (d_status data) as [s|]; cbn [assign]; [|auto].
  destruct s; try congruence; rewrite ?andb_false_r; discriminate.
Qed.

(** X15: [AttemptService.update], for a student as for a teacher, keeps
    the rule that a user has at most one attempt IN_PROGRESS on an exam: no
    branch ever sets an attempt back to IN_PROGRESS. *)
Theorem attempt_update_single_in_progress (JSON_parse : string -> option Json)
    (now : Date) (id userId : string) (dto : UpdateAttemptDto)
    (isTeacher : bool) (w w' : World) (a' : Attempt) :
  singleInProgress (w_db w) ->
  AttemptService.update JSON_parse now id userId dto isTeacher w = (Ok a', w') ->
  singleInProgress (w_db w') /\
  (a_status a' = AttemptStatus.IN_PROGRESS ->
   exists att, prisma.lookupAttempt (w_db w) id = Some att /\
               a_status att = AttemptStatus.IN_PROGRESS).
Proof.
  intros Hs H. apply attempt_update_ok_inv in H.
  destruct H as (att & ex & data & La & _ & Ea & D & Br).
  assert (Hd : d_status data <> Some AttemptStatus.IN_PROGRESS).
  { destruct Br as [(_ & _ & N1 & _ & sd & Ed & _)|(_ & fb & Ed)]; subst data; cbn.
    - exact N1.
    - destruct (uad_status dto) as [[| | |]|]; discriminate. }
  split.
  - rewrite D. now apply update_single_in_progress.
  - intros Hi. exists att. split; [exact La|].
    rewrite Ea in Hi. cbn in Hi.
    destruct (d_status data) as [s|]; cbn in Hi; [congruence|exact Hi].
Qed.

(** X15, witness: [u1] submits the attempt [a1]. *)
Lemma attempt_update_single_in_progress_witness :
  exists a' w',
    AttemptService.update Sample.parseAny 2000%Z "a1" "u1"
      (statusOnly AttemptStatus.SUBMITTED) false
      (Sample.world (Sample.dbAnswering AttemptStatus.IN_PROGRESS))
    = (Ok a', w') /\
    singleInProgress (w_db w').
Proof.
  eexists. eexists. split; [vm_compute; reflexivity|].
  refine (proj1 (@attempt_update_single_in_progress Sample.parseAny 2000%Z
                   "a1" "u1" (statusOnly AttemptStatus.SUBMITTED) false
                   (Sample.world (Sample.dbAnswering AttemptStatus.IN_PROGRESS))
                   _ _ _ eq_refl)).
  intros u e. cbn.
  destruct (AttemptService.inProgressWhere u e _); cbn; lia.
Defined.

(** X16: through [PATCH /attempts/:id] a student only ever changes the own
    attempt, never to the status IN_PROGRESS or EVALUATED, and never its
    evaluator, evaluation status, feedback, rank, answer sheet or maxScore;
    the score and the percentage change only when the request submits the
    attempt, whatever score the payload carries. *)
Theorem student_update_frame (JSON_parse : string -> option Json) (now : Date)
    (userId id : string) (dto : UpdateAttemptDto) (w w' : World) (a' : Attempt) :
  AttemptController.update JSON_parse now userId UserRole.STUDENT id dto w
  = (Ok a', w') ->
  exists att,
    prisma.lookupAttempt (w_db w) id = Some att /\
    a_userId att = userId /\
    a_status a' = match uad_status dto with
                  | Some s => s
                  | None => a_status att
                  end /\
    (a_status a' = a_status att \/ a_status a' = AttemptStatus.SUBMITTED \/
     a_status a' = AttemptStatus.COMPLETED) /\
    a_evaluatedBy a' = a_evaluatedBy att /\
    a_evaluationStatus a' = a_evaluationStatus att /\
    a_feedback a' = a_feedback att /\
    a_rank a' = a_rank att /\
    a_answerSheetUrl a' = a_answerSheetUrl att /\
    a_maxScore a' = a_maxScore att /\
    (uad_status dto <> Some AttemptStatus.SUBMITTED ->
     a_score a' = a_score att /\ a_percentage a' = a_percentage att).
Proof.
  unfold AttemptController.update. cbn [UserRole.eqb orb].
  intros H. apply attempt_update_ok_inv in H.
  destruct H as (att & ex & data & La & Le & Ea & D &
                 [(_ & Hu & N1 & N2 & sd & Ed & Hsd)|(Ht & _)]); [|discriminate].
  exists att. split; [exact La|]. split; [exact Hu|].
  subst data. rewrite Ea. cbn.
  split; [destruct (uad_status dto); reflexivity|].
  split.
  { destruct (uad_status dto) as [[| | |]|]; cbn; auto; congruence. }
  repeat (split; [reflexivity|]).
  intros Ns. rewrite (Hsd Ns). cbn. auto.
Qed.

(** X16, witness: [u1] closes the attempt [a1] with status COMPLETED. *)
Lemma student_update_frame_witness :
  exists a' w',
    AttemptController.update Sample.parseAny 2000%Z "u1" UserRole.STUDENT "a1"
      (statusOnly AttemptStatus.COMPLETED)
      (Sample.world (Sample.dbAnswering AttemptStatus.IN_PROGRESS))
    = (Ok a', w') /\
    a_status a' = AttemptStatus.COMPLETED.
Proof.
  eexists. eexists. split; [vm_compute; reflexivity|].
  destruct (@student_update_frame Sample.parseAny 2000%Z "u1" "a1"
              (statusOnly AttemptStatus.COMPLETED)
              (Sample.world (Sample.dbAnswering AttemptStatus.IN_PROGRESS))
              _ _ eq_refl) as (att & _ & _ & S & _).
  exact S.
Defined.

Lemma call_throw_kind {A} (f : Db -> Result A * Db) (w w1 : World)
    (e : Exception) :
  (forall d x, fst (f d) = Throw x -> x = PrismaClientError) ->
  call f w = (Throw e, w1) -> e = PrismaClientError.
Proof.
  intros Hf H. apply call_inv in H. destruct H as [_ [[R _]|[R _]]].
  - now injection R.
  - now apply (Hf (w_db w)).
Qed.

Lemma findUniqueWithExam_throw (id : string) (w w1 : World) (e : Exception) :
  prisma.attempt.findUniqueWithExam id w = (Throw e, w1) ->
  e = PrismaClientError.
Proof.
  apply call_throw_kind. intros d x.
  destruct (prisma.lookupAttempt d id) as [a|]; cbn [fst]; [|discriminate].
  destruct (prisma.lookupExam d (a_examId a)); cbn [fst]; congruence.
Qed.

Lemma attempt_update_throw_kind (id : string) (data : AttemptData)
    (w w1 : World) (e : Exception) :
  prisma.attempt.update id data w = (Throw e, w1) -> e = PrismaClientError.
Proof.
  apply call_throw_kind. intros d x.
  destruct (prisma.lookupAttempt d id); cbn [fst]; congruence.
Qed.

(** X17: through [PATCH /attempts/:id] a teacher or an admin is never
    refused with Forbidden, whoever owns the attempt.  A successful request
    leaves the owner, the start, submit and end times and the time spent of
    the attempt as they were, changes the status only to EVALUATED (then
    with the caller as evaluator), and a score in the payload is stored
    together with [score / maxScore * 100] as percentage. *)
Theorem teacher_update_frame (JSON_parse : string -> option Json) (now : Date)
    (userId id : string) (role : UserRole.t) (dto : UpdateAttemptDto)
    (w : World) :
  role = UserRole.TEACHER \/ role = UserRole.ADMIN ->
  (forall e w',
     AttemptController.update JSON_parse now userId role id dto w
     = (Throw e, w') -> e <> ForbiddenException) /\
  (forall a' w',
     AttemptController.update JSON_parse now userId role id dto w
     = (Ok a', w') ->
     exists att,
       prisma.lookupAttempt (w_db w) id = Some att /\
       a_userId a' = a_userId att /\
       a_startTime a' = a_startTime att /\
       a_submitTime a' = a_submitTime att /\
       a_endTime a' = a_endTime att /\
       a_timeSpent a' = a_timeSpent att /\
       a_maxScore a' = a_maxScore att /\
       (uad_status dto = Some AttemptStatus.EVALUATED ->
        a_status a' = AttemptStatus.EVALUATED /\
        a_evaluatedBy a' = Some userId) /\
       (uad_status dto <> Some AttemptStatus.EVALUATED ->
        a_status a' = a_status att /\ a_evaluatedBy a' = a_evaluatedBy att) /\
       (forall s, uad_score dto = Some s ->
                  a_score a' = Some s /\
                  a_percentage a' = Some (s / a_maxScore att * 100))).
Proof.
  intros Hrole.
  assert (T : AttemptController.update JSON_parse now userId role id dto w
              = AttemptService.update JSON_parse now id userId dto true w).
  { unfold AttemptController.update. destruct Hrole; subst role; reflexivity. }
  rewrite T. split.
  - intros e w'. unfold AttemptService.update, bind.
    destruct (prisma.attempt.findUniqueWithExam id w)
      as [[[[att ex]|]|x] w1] eqn:F.
    + cbn [negb andb].
      destruct (AttemptService.parseFeedback JSON_parse dto w1)
        as [[fb|x] w1'] eqn:Pf.
      * cbn [ret]. intros H. apply attempt_update_throw_kind in H.
        subst e. discriminate.
      * unfold AttemptService.parseFeedback in Pf.
        destruct (uad_feedback dto) as [text|];
          [destruct (JSON_parse text)|]; unfold ret, throw in Pf;
          try discriminate.
        injection Pf as Pf _. subst x. intros H. injection H as H _.
        subst e. discriminate.
    + unfold throw. intros H. injection H as H _. subst e. discriminate.
    + apply findUniqueWithExam_throw in F. subst x.
      intros H. injection H as H _. subst e. discriminate.
  - intros a' w' H. apply attempt_update_ok_inv in H.
    destruct H as (att & ex & data & La & _ & Ea & _ &
                   [(Hf & _)|(_ & fb & Ed)]); [discriminate|].
    exists att. split; [exact La|]. subst data. rewrite Ea. cbn.
    repeat (split; [reflexivity|]). split; [|split].
    + intros Hs. rewrite Hs. cbn. auto.
    + intros Hs. destruct (uad_status dto) as [[| | |]|]; cbn; auto.
      now contradiction Hs.
    + intros s Hs. rewrite Hs. cbn. auto.
Qed.

(** X17, witness: the admin [adm] sets the score of the attempt of [u1]. *)
Lemma teacher_update_frame_witness :
  exists a' w',
    AttemptController.update Sample.parseAny 2000%Z "adm" UserRole.ADMIN "a1"
      {| uad_status := None; uad_timeSpent := None; uad_feedback := None;
         uad_score := Some 5; uad_evaluationStatus := None;
         uad_correctAnswers := None; uad_incorrectAnswers := None;
         uad_unattempted := None; uad_accuracy := None; uad_rank := None;
         uad_answerSheetUrl := None |}
      (Sample.world (Sample.dbAnswering AttemptStatus.SUBMITTED))
    = (Ok a', w') /\
    a_score a' = Some 5 /\ a_percentage a' = Some 50.
Proof.
  eexists. eexists. split; [vm_compute; reflexivity|].
  destruct (@teacher_update_frame Sample.parseAny 2000%Z "adm" "a1"
              UserRole.ADMIN
              {| uad_status := None; uad_timeSpent := None; uad_feedback := None;
                 uad_score := Some 5; uad_evaluationStatus := None;
                 uad_correctAnswers := None; uad_incorrectAnswers := None;
                 uad_unattempted := None; uad_accuracy := None; uad_rank := None;
                 uad_answerSheetUrl := None |}
              (Sample.world (Sample.dbAnswering AttemptStatus.SUBMITTED))
              (or_intror eq_refl)) as [_ H].
  destruct (H _ _ eq_refl) as (att & La & _ & _ & _ & _ & _ & _ & _ & _ & Sc).
  destruct (Sc 5 eq_refl) as [S P]. split; [exact S|].
  refine (eq_trans P _). vm_compute in La. injection La as La. subst att.
  vm_compute. reflexivity.
Defined.

(** X18: when the database answers and every answer of the attempt has its
    question, the owner's submission stores SUBMITTED, the submit time, and
    the score, the two counters, the unattempted count and the accuracy
    that [calculateScore] computes from the attempt's answers and the
    exam's questions, with [score / maxScore * 100] as percentage; the
    answers are not touched. *)
Theorem submit_writes_score (JSON_parse : string -> option Json) (now : Date)
    (id userId : string) (dto : UpdateAttemptDto) (w : World)
    (att : Attempt) (ex : Exam) (joined : list (Answer * Question)) :
  reliable w ->
  prisma.lookupAttempt (w_db w) id = Some att ->
  prisma.lookupExam (w_db w) (a_examId att) = Some ex ->
  a_userId att = userId ->
  uad_status dto = Some AttemptStatus.SUBMITTED ->
  (forall text, uad_feedback dto = Some text -> JSON_parse text <> None) ->
  prisma.answer.joinQuestions (w_db w)
    (filter (fun a => String.eqb (ans_attemptId a) (a_id att))
            (answers (w_db w))) = Some joined ->
  exists att' w',
    AttemptService.update JSON_parse now id userId dto false w = (Ok att', w') /\
    prisma.lookupAttempt (w_db w') id = Some att' /\
    answers (w_db w') = answers (w_db w) /\
    a_status att' = AttemptStatus.SUBMITTED /\
    a_submitTime att' = Some now /\
    let sd := AttemptService.scoreOf ex joined
                (filter (fun q => String.eqb (q_examId q) (exam_id ex))
                        (questions (w_db w))) in
    a_score att' = Some (sd_score sd) /\
    a_correctAnswers att' = Some (sd_correctAnswers sd) /\
    a_incorrectAnswers att' = Some (sd_incorrectAnswers sd) /\
    a_unattempted att' = Some (sd_unattempted sd) /\
    a_accuracy att' = Some (sd_accuracy sd) /\
    a_percentage att' = Some (sd_score sd / a_maxScore att * 100).
Proof.
  intros Hr La Le Hu Hs Hj Hjoin.
  unfold AttemptService.update, bind, prisma.attempt.findUniqueWithExam.
  step. rewrite La, Le. cbn [fst snd].
  rewrite Hu, String.eqb_refl. cbn [negb andb].
  assert (P : exists v,
             AttemptService.parseFeedback JSON_parse dto (advance w (w_db w))
             = (Ok v, advance w (w_db w))).
  { unfold AttemptService.parseFeedback.
    destruct (uad_feedback dto) as [text|] eqn:Fb.
    - specialize (Hj text eq_refl).
      destruct (JSON_parse text) as [v|]; [|congruence]. now exists (Some v).
    - now exists None. }
  destruct P as [v P]. rewrite P, Hs.
  unfold AttemptService.calculateScore, try_catch,
    AttemptService.calculateScoreBody, bind,
    prisma.answer.findManyWithQuestion, prisma.question.findMany.
  step. rewrite Hjoin. cbn [fst snd]. step. cbn [ret].
  unfold prisma.attempt.update. step. rewrite La. cbn [fst snd].
  eexists. eexists. split; [reflexivity|]. split.
  - cbn [w_db advance]. now apply lookupAttempt_update.
  - unfold AttemptService.studentData. rewrite Hs. cbn. repeat split.
Qed.

(** X18, witness: [u1] submits [a1]; the right answer to [q1] scores 4 of
    10, the essay is not graded yet. *)
Lemma submit_writes_score_witness :
  exists att' w',
    AttemptService.update Sample.parseAny 2000%Z "a1" "u1"
      (statusOnly AttemptStatus.SUBMITTED) false
      (Sample.world (Sample.dbAnswering AttemptStatus.IN_PROGRESS))
    = (Ok att', w') /\
    a_score att' = Some 4 /\ a_correctAnswers att' = Some 1 /\
    a_unattempted att' = Some 0.
Proof.
  destruct (@submit_writes_score Sample.parseAny 2000%Z "a1" "u1"
              (statusOnly AttemptStatus.SUBMITTED)
              (Sample.world (Sample.dbAnswering AttemptStatus.IN_PROGRESS))
              (Sample.blankAttempt "a1" "u1" "e1" AttemptStatus.IN_PROGRESS 10)
              Sample.exam1
              [(Sample.answer1, Sample.q1); (Sample.answer2, Sample.q2)])
    as (att' & w' & E & _ & _ & _ & _ & S & C & _ & U & _);
    try reflexivity.
  - intros n. reflexivity.
  - intros text H. discriminate.
  - exists att', w'. split; [exact E|].
    split; [refine (eq_trans S _); vm_compute; reflexivity|].
    split; [refine (eq_trans C _); vm_compute; reflexivity|].
    refine (eq_trans U _); vm_compute; reflexivity.
Defined.

(** ** Removing an attempt *)

Lemma find_filter_negb {A} (p : A -> bool) (l : list A) :
  find p (filter (fun r => negb (p r)) l) = None.
Proof.
  induction l as [|r l IH]; [reflexivity|].
  cbn. destruct (p r) eqn:P; cbn; [exact IH|]. now rewrite P.
Qed.

(** X19: [AttemptService.remove] answers NotFound for a missing attempt and
    Forbidden, without writing, for a caller who is neither the owner nor
    an admin.  For the owner or an admin it deletes the attempt and leaves
    every other attempt, and the answers of the other attempts, in
    place. *)
Theorem attempt_remove_owner_or_admin (id userId : string) (isAdmin : bool)
    (w : World) :
  w_faults w (w_ops w) = false ->
  (prisma.lookupAttempt (w_db w) id = None ->
   exists w', AttemptService.remove id userId isAdmin w
              = (Throw NotFoundException, w') /\ w_db w' = w_db w) /\
  (forall att,
     prisma.lookupAttempt (w_db w) id = Some att ->
     isAdmin = false -> a_userId att <> userId ->
     exists w', AttemptService.remove id userId isAdmin w
                = (Throw ForbiddenException, w') /\ w_db w' = w_db w) /\
  (forall att,
     prisma.lookupAttempt (w_db w) id = Some att ->
     isAdmin = true \/ a_userId att = userId ->
     w_faults w (S (w_ops w)) = false ->
     exists w',
       AttemptService.remove id userId isAdmin w = (Ok tt, w') /\
       prisma.lookupAttempt (w_db w') id = None /\
       (forall b, In b (attempts (w_db w)) -> a_id b <> id ->
                  In b (attempts (w_db w'))) /\
       (forall b, In b (attempts (w_db w')) -> In b (attempts (w_db w))) /\
       (forall r, In r (answers (w_db w)) -> ans_attemptId r <> id ->
                  In r (answers (w_db w')))).
Proof.
  intros Hf. unfold AttemptService.remove, bind, prisma.attempt.findUnique,
    read, call. rewrite Hf. cbn [fst snd]. split; [|split].
  - intros L. rewrite L. eexists. split; reflexivity.
  - intros att L Ha Hu. rewrite L, Ha. apply String.eqb_neq in Hu. rewrite Hu.
    cbn [negb andb]. eexists. split; reflexivity.
  - intros att L Hc Hf2. rewrite L.
    assert (G : negb isAdmin && negb (String.eqb (a_userId att) userId) = false).
    { destruct Hc as [Hc|Hc]; [now rewrite Hc|].
      rewrite Hc, String.eqb_refl. apply andb_false_r. }
    rewrite G. unfold prisma.attempt.delete, call.
    cbn [w_faults w_ops w_db advance]. rewrite Hf2, L. cbn [fst snd ret].
    eexists. split; [reflexivity|]. cbn [w_db advance attempts answers
      prisma.with_attempts prisma.with_answers].
    split; [apply (find_filter_negb (fun r => String.eqb (a_id r) id))|].
    split; [|split].
    + intros b Hb Hn. apply filter_In. split; [exact Hb|].
      apply String.eqb_neq in Hn. now rewrite Hn.
    + intros b Hb. now apply filter_In in Hb.
    + intros r Hr Hn. apply filter_In. split; [exact Hr|].
      apply String.eqb_neq in Hn. now rewrite Hn.
Qed.

(** X19, witness: the student [u2] may not delete the attempt of [u1]; an
    admin may. *)
Lemma attempt_remove_owner_or_admin_witness :
  (exists w',
     AttemptController.remove "u2" UserRole.STUDENT "a1"
       (Sample.world (Sample.dbAnswering AttemptStatus.IN_PROGRESS))
     = (Throw ForbiddenException, w')) /\
  (exists w',
     AttemptController.remove "adm" UserRole.ADMIN "a1"
       (Sample.world (Sample.dbAnswering AttemptStatus.IN_PROGRESS))
     = (Ok tt, w') /\
     prisma.lookupAttempt (w_db w') "a1" = None).
Proof.
  split.
  - destruct (@attempt_remove_owner_or_admin "a1" "u2" false
                (Sample.world (Sample.dbAnswering AttemptStatus.IN_PROGRESS))
                eq_refl) as (_ & H & _).
    destruct (H _ eq_refl eq_refl) as (w' & E & _); [cbn; discriminate|].
    now exists w'.
  - destruct (@attempt_remove_owner_or_admin "a1" "adm" true
                (Sample.world (Sample.dbAnswering AttemptStatus.IN_PROGRESS))
                eq_refl) as (_ & _ & H).
    destruct (H _ eq_refl (or_introl eq_refl) eq_refl) as (w' & E & L & _).
    exists w'. split; [exact E|exact L].
Defined.

(** ** Assigning an evaluator *)

(** X20: [assignAttemptToEvaluator] refuses with Forbidden a caller who is
    not an admin, answers NotFound for a missing attempt, and refuses with
    BadRequest an evaluator who is not a teacher.  Otherwise the attempt
    gets the evaluator and the evaluation status "Assigned", and keeps its
    status and its score. *)
Theorem assign_evaluator (users : list User)
    (attemptId evaluatorId adminId : string) (w : World) :
  reliable w ->
  (hasRole users adminId UserRole.ADMIN = false ->
   exists w', AttemptService.assignAttemptToEvaluator users attemptId
                evaluatorId adminId w = (Throw ForbiddenException, w') /\
              w_db w' = w_db w) /\
  (hasRole users adminId UserRole.ADMIN = true ->
   prisma.lookupAttempt (w_db w) attemptId = None ->
   exists w', AttemptService.assignAttemptToEvaluator users attemptId
                evaluatorId adminId w = (Throw NotFoundException, w') /\
              w_db w' = w_db w) /\
  (forall att,
     hasRole users adminId UserRole.ADMIN = true ->
     prisma.lookupAttempt (w_db w) attemptId = Some att ->
     (hasRole users evaluatorId UserRole.TEACHER = false ->
      exists w', AttemptService.assignAttemptToEvaluator users attemptId
                   evaluatorId adminId w = (Throw BadRequestException, w') /\
                 w_db w' = w_db w) /\
     (hasRole users evaluatorId UserRole.TEACHER = true ->
      exists a' w',
        AttemptService.assignAttemptToEvaluator users attemptId
          evaluatorId adminId w = (Ok a', w') /\
        prisma.lookupAttempt (w_db w') attemptId = Some a' /\
        a_evaluatedBy a' = Some evaluatorId /\
        a_evaluationStatus a' = Some "Assigned"%string /\
        a_status a' = a_status att /\
        a_score a' = a_score att /\
        a_percentage a' = a_percentage att /\
        answers (w_db w') = answers (w_db w))).
Proof.
  intros Hr.
  unfold AttemptService.assignAttemptToEvaluator, bind,
    prisma.user.findUnique, prisma.attempt.findUnique, hasRole.
  split; [|split].
  - intros Ha. step. rewrite Ha. cbn [negb]. eexists. split; reflexivity.
  - intros Ha L. step. rewrite Ha. cbn [negb]. step. rewrite L.
    eexists. split; reflexivity.
  - intros att Ha L. split.
    + intros Ht. step. rewrite Ha. cbn [negb]. step. rewrite L. step.
      rewrite Ht. cbn [negb]. eexists. split; reflexivity.
    + intros Ht. step. rewrite Ha. cbn [negb]. step. rewrite L. step.
      rewrite Ht. cbn [negb]. unfold prisma.attempt.update. step.
      rewrite L. cbn [fst snd].
      eexists. eexists. split; [reflexivity|]. split.
      * cbn [w_db advance]. now apply lookupAttempt_update.
      * cbn. repeat split.
Qed.

(** X20, witness: the admin assigns the attempt [a1] to the teacher [t1];
    the student [u1] may not. *)
Lemma assign_evaluator_witness :
  (exists w',
     AttemptService.assignAttemptToEvaluator Sample.users "a1" "t1" "u1"
       (Sample.world (Sample.dbAnswering AttemptStatus.SUBMITTED))
     = (Throw ForbiddenException, w')) /\
  (exists a' w',
     AttemptService.assignAttemptToEvaluator Sample.users "a1" "t1" "adm"
       (Sample.world (Sample.dbAnswering AttemptStatus.SUBMITTED))
     = (Ok a', w') /\
     a_evaluatedBy a' = Some "t1"%string /\
     a_status a' = AttemptStatus.SUBMITTED).
Proof.
  split.
  - destruct (@assign_evaluator Sample.users "a1" "t1" "u1"
                (Sample.world (Sample.dbAnswering AttemptStatus.SUBMITTED)))
      as (H & _); [intros n; reflexivity|].
    destruct (H eq_refl) as (w' & E & _). now exists w'.
  - destruct (@assign_evaluator Sample.users "a1" "t1" "adm"
                (Sample.world (Sample.dbAnswering AttemptStatus.SUBMITTED)))
      as (_ & _ & H); [intros n; reflexivity|].
    destruct (H _ eq_refl eq_refl) as [_ H2].
    destruct (H2 eq_refl) as (a' & w' & E & _ & B & _ & S & _).
    exists a', w'. split; [exact E|]. split; [exact B|exact S].
Defined.

(** ** Bulk evaluation: guards and the batch without a match *)

(** X21: [bulkEvaluate] answers NotFound for a missing attempt and refuses
    with Forbidden every caller who is not the teacher of the attempt's
    exam; in both cases nothing is written. *)
Theorem bulkEvaluate_guards (now : Date) (attemptId teacherId : string)
    (es : list Evaluation) (w : World) :
  w_faults w (w_ops w) = false ->
  (prisma.lookupAttempt (w_db w) attemptId = None ->
   exists w', AnswerService.bulkEvaluate now attemptId teacherId es w
              = (Throw NotFoundException, w') /\ w_db w' = w_db w) /\
  (forall att ex,
     prisma.lookupAttempt (w_db w) attemptId = Some att ->
     prisma.lookupExam (w_db w) (a_examId att) = Some ex ->
     exam_teacherId ex <> teacherId ->
     exists w', AnswerService.bulkEvaluate now attemptId teacherId es w
                = (Throw ForbiddenException, w') /\ w_db w' = w_db w).
Proof.
  intros Hf.
  unfold AnswerService.bulkEvaluate, bind, prisma.attempt.findUniqueWithExam,
    call. rewrite Hf. split.
  - intros L. rewrite L. eexists. split; reflexivity.
  - intros att ex L Le Hn. rewrite L, Le. cbn [fst snd].
    apply String.eqb_neq in Hn. rewrite Hn. eexists. split; reflexivity.
Qed.

(** X21, witness: the teacher [t2] grades an attempt on an exam of [t1]. *)
Lemma bulkEvaluate_guards_witness :
  exists w',
    AnswerService.bulkEvaluate 3000%Z "a1" "t2" [Sample.grade7]
      (Sample.world (Sample.dbAnswering AttemptStatus.SUBMITTED))
    = (Throw ForbiddenException, w') /\
    w_db w' = Sample.dbAnswering AttemptStatus.SUBMITTED.
Proof.
  destruct (@bulkEvaluate_guards 3000%Z "a1" "t2" [Sample.grade7]
              (Sample.world (Sample.dbAnswering AttemptStatus.SUBMITTED))
              eq_refl) as [_ H].
  destruct (H _ _ eq_refl eq_refl) as (w' & E & D); [cbn; discriminate|].
  exists w'. split; [exact E|exact D].
Defined.

Lemma gradeAll_unmatched (now : Date) (attemptId teacherId : string)
    (es : list Evaluation) (l : list Answer) :
  (forall e, In e es -> matched l attemptId e = false) ->
  gradeAll now attemptId teacherId l es = l.
Proof.
  induction es as [|e es IH]; intros H; [reflexivity|].
  unfold gradeAll in *. cbn [fold_left].
  assert (G : gradeOne now attemptId teacherId l e = l).
  { pose proof (H e (or_introl eq_refl)) as M. unfold matched in M.
    unfold gradeOne. destruct (keyId l attemptId (ev_questionId e));
      [discriminate|reflexivity]. }
  rewrite G. apply IH. intros x Hx. apply H. now right.
Qed.

(** X22: when no entry of the batch has an answer in the attempt (in
    particular for the empty batch), the exam's teacher still gets a
    success with count 0: the answers stay as they were and the attempt is
    EVALUATED with score 0, its previous score being replaced. *)
Theorem bulkEvaluate_without_match (now : Date) (attemptId teacherId : string)
    (es : list Evaluation) (w : World) (att : Attempt) (ex : Exam) :
  reliable w ->
  prisma.lookupAttempt (w_db w) attemptId = Some att ->
  prisma.lookupExam (w_db w) (a_examId att) = Some ex ->
  exam_teacherId ex = teacherId ->
  (forall e, In e es ->
             prisma.lookupAnswerKey (w_db w) attemptId (ev_questionId e) = None) ->
  exists w' att',
    AnswerService.bulkEvaluate now attemptId teacherId es w = (Ok 0, w') /\
    answers (w_db w') = answers (w_db w) /\
    prisma.lookupAttempt (w_db w') attemptId = Some att' /\
    a_status att' = AttemptStatus.EVALUATED /\
    a_evaluatedBy att' = Some teacherId /\
    a_score att' = Some 0 /\
    a_percentage att' = a_percentage att.
Proof.
  intros Hr La Le Ht Hn.
  assert (M : forall e, In e es -> matched (answers (w_db w)) attemptId e = false).
  { intros e He. specialize (Hn e He). unfold matched, keyId.
    unfold prisma.lookupAnswerKey in Hn. now rewrite Hn. }
  destruct (@bulkEvaluate_reliable now attemptId teacherId es w att ex Hr La Le Ht)
    as (w' & E & D).
  rewrite (filter_none _ _ M) in E, D. cbn [countOf totalOf fold_left] in E, D.
  rewrite (gradeAll_unmatched now attemptId teacherId es _ M) in D.
  rewrite with_answers_same in D.
  exists w', (applyAttemptData (AnswerService.evaluatedData teacherId 0) att).
  split; [exact E|]. rewrite D.
  split; [reflexivity|].
  split; [now apply lookupAttempt_update|].
  cbn. repeat split.
Qed.

(** X22, witness: the empty batch on the submitted attempt [a1]. *)
Lemma bulkEvaluate_without_match_witness :
  exists w' att',
    AnswerService.bulkEvaluate 3000%Z "a1" "t1" []
      (Sample.world (Sample.dbAnswering AttemptStatus.SUBMITTED)) = (Ok 0, w') /\
    prisma.lookupAttempt (w_db w') "a1" = Some att' /\
    a_status att' = AttemptStatus.EVALUATED /\
    a_score att' = Some 0.
Proof.
  destruct (@bulkEvaluate_without_match 3000%Z "a1" "t1" []
              (Sample.world (Sample.dbAnswering AttemptStatus.SUBMITTED))
              (Sample.blankAttempt "a1" "u1" "e1" AttemptStatus.SUBMITTED 10)
              Sample.exam1)
    as (w' & att' & E & _ & L & S & _ & Sc & _); try reflexivity.
  - intros n. reflexivity.
  - intros e [].
  - exists w', att'. repeat split; assumption.
Defined.

(** ** Access to a test series *)

(** X23: [TestSeriesService.checkUserAccess] answers NotFound for a test
    series that does not exist; otherwise it reads only, and grants access
    exactly when the user holds a completed purchase of the series whose
    validity ends at or after the time of the call. *)
Theorem checkUserAccess_valid_purchase (series : list TestSeries) (now : Date)
    (userId testSeriesId : string) (w : World) :
  reliable w ->
  (find (fun t => String.eqb (ts_id t) testSeriesId) series = None ->
   exists w', TestSeriesService.checkUserAccess series now userId
                testSeriesId w = (Throw NotFoundException, w')) /\
  (find (fun t => String.eqb (ts_id t) testSeriesId) series <> None ->
   exists b w',
     TestSeriesService.checkUserAccess series now userId testSeriesId w
     = (Ok b, w') /\
     w_db w' = w_db w /\
     (b = true <->
      exists p, In p (purchases (w_db w)) /\
                p_userId p = userId /\
                p_testSeriesId p = Some testSeriesId /\
                p_status p = PurchaseStatus.COMPLETED /\
                (now <= p_validTill p)%Z)).
Proof.
  intros Hr.
  unfold TestSeriesService.checkUserAccess, bind,
    prisma.testSeries.findUnique, prisma.purchase.findFirst.
  split.
  - intros F. step. rewrite F. eexists. reflexivity.
  - intros F. step.
    destruct (find (fun t => String.eqb (ts_id t) testSeriesId) series) as [t|];
      [|congruence].
    step.
    assert (Sp : forall p,
              TestSeriesService.validPurchaseWhere now userId testSeriesId p
              = true <->
              p_userId p = userId /\ p_testSeriesId p = Some testSeriesId /\
              p_status p = PurchaseStatus.COMPLETED /\ (now <= p_validTill p)%Z).
    { intros p. unfold TestSeriesService.validPurchaseWhere.
      rewrite !andb_true_iff, String.eqb_eq, Z.leb_le.
      assert (S1 : Js.seq_ostr (p_testSeriesId p) (Some testSeriesId) = true
                   <-> p_testSeriesId p = Some testSeriesId).
      { unfold Js.seq_ostr. destruct (p_testSeriesId p) as [x|].
        - rewrite String.eqb_eq. split; congruence.
        - split; discriminate. }
      assert (S2 : PurchaseStatus.eqb (p_status p) PurchaseStatus.COMPLETED = true
                   <-> p_status p = PurchaseStatus.COMPLETED).
      { destruct (p_status p); cbn; split; congruence. }
      rewrite S1, S2. tauto. }
    destruct (find (TestSeriesService.validPurchaseWhere now userId testSeriesId)
                (purchases (w_db w))) as [p|] eqn:Fp.
    + eexists. eexists. split; [reflexivity|]. split; [reflexivity|].
      split; [|reflexivity]. intros _. exists p.
      destruct (find_some _ _ Fp) as [Hin Hp]. split; [exact Hin|].
      now apply Sp.
    + eexists. eexists. split; [reflexivity|]. split; [reflexivity|].
      split; [discriminate|]. intros (p & Hin & Hp).
      apply Sp in Hp. rewrite (find_none _ _ Fp p Hin) in Hp. discriminate.
Qed.

(** X23, witness: the purchase of [ts1] by [u1] ends at time 1000: access
    is granted at time 500 and refused at time 2000. *)
Lemma checkUserAccess_valid_purchase_witness :
  (exists w',
     TestSeriesService.checkUserAccess Sample.series 500%Z "u1" "ts1"
       (Sample.world Sample.dbSeries) = (Ok true, w')) /\
  (exists w',
     TestSeriesService.checkUserAccess Sample.series 2000%Z "u1" "ts1"
       (Sample.world Sample.dbSeries) = (Ok false, w')).
Proof.
  split.
  - destruct (@checkUserAccess_valid_purchase Sample.series 500%Z "u1" "ts1"
                (Sample.world Sample.dbSeries)) as [_ H];
      [intros n; reflexivity|].
    destruct H as (b & w' & E & _ & I); [discriminate|].
    exists w'. rewrite E. f_equal. f_equal. apply I.
    exists Sample.purchaseSeries. cbn. repeat split; auto. lia.
  - destruct (@checkUserAccess_valid_purchase Sample.series 2000%Z "u1" "ts1"
                (Sample.world Sample.dbSeries)) as [_ H];
      [intros n; reflexivity|].
    destruct H as (b & w' & E & _ & I); [discriminate|].
    exists w'. rewrite E. f_equal. f_equal.
    destruct b; [|reflexivity]. exfalso.
    destruct (proj1 I eq_refl) as (p & Hin & _ & _ & _ & Hv).
    destruct Hin as [Ep|[]]. subst p. cbn in Hv. lia.
Defined.

(** ** The attempt writers write nothing when they throw *)

Lemma readOnly_read {A} (f : Db -> A) : readOnly (read f).
Proof. intros w r w' H. now apply read_inv in H. Qed.

Lemma readOnly_ret {A} (a : A) : readOnly (ret a).
Proof. intros w r w' H. injection H as _ H. now subst. Qed.

Lemma readOnly_throw {A} (e : Exception) : readOnly (@throw A e).
Proof. intros w r w' H. injection H as _ H. now subst. Qed.

Lemma readOnly_bind {A B} (m : Prisma A) (k : A -> Prisma B) :
  readOnly m -> (forall a, readOnly (k a)) -> readOnly (bind m k).
Proof.
  intros Hm Hk w r w'. unfold bind.
  destruct (m w) as [[a|x] w1] eqn:E; intros H.
  - rewrite (Hk a _ _ _ H). exact (Hm _ _ _ E).
  - injection H as _ H. subst w'. exact (Hm _ _ _ E).
Qed.

Lemma readOnly_failsClean {A} (m : Prisma A) : readOnly m -> failsClean m.
Proof. intros H w e w'. apply H. Qed.

Lemma failsClean_bind {A B} (m : Prisma A) (k : A -> Prisma B) :
  readOnly m -> (forall a, failsClean (k a)) -> failsClean (bind m k).
Proof.
  intros Hm Hk w e w'. unfold bind.
  destruct (m w) as [[a|x] w1] eqn:E; intros H.
  - rewrite (Hk a _ _ _ H). exact (Hm _ _ _ E).
  - injection H as _ H. subst w'. exact (Hm _ _ _ E).
Qed.

Lemma readOnly_checkExamAccess (userId examId : string) (isFree : bool) :
  readOnly (AttemptService.checkExamAccess userId examId isFree).
Proof.
  intros w r w' H. pose proof (checkExamAccess_db userId examId isFree w) as D.
  now rewrite H in D.
Qed.

Lemma readOnly_findUniqueWithExam (id : string) :
  readOnly (prisma.attempt.findUniqueWithExam id).
Proof.
  intros w r w' H. pose proof (findUniqueWithExam_db id w) as D.
  now rewrite H in D.
Qed.

Lemma readOnly_calculateScore (exam : Exam) (attemptId : string) :
  readOnly (AttemptService.calculateScore exam attemptId).
Proof.
  intros w r w' H.
  destruct (calculateScore_never_throws exam attemptId w)
    as (r0 & w0 & E & D & _).
  rewrite E in H. injection H as _ H. now subst w'.
Qed.

Lemma readOnly_parseFeedback (JSON_parse : string -> option Json)
    (dto : UpdateAttemptDto) :
  readOnly (AttemptService.parseFeedback JSON_parse dto).
Proof. intros w r w' H. apply parseFeedback_world in H. now subst. Qed.

Lemma attempt_delete_throw (id : string) (w w1 : World) (e : Exception) :
  prisma.attempt.delete id w = (Throw e, w1) -> w_db w1 = w_db w.
Proof.
  apply call_throw. intros d x.
  destruct (prisma.lookupAttempt d id); cbn [fst snd]; [discriminate|reflexivity].
Qed.

Lemma attempt_create_fails_clean (now : Date) (newId userId : string)
    (dto : CreateAttemptDto) :
  failsClean (AttemptService.create now newId userId dto).
Proof.
  unfold AttemptService.create.
  apply failsClean_bind; [apply readOnly_read|]. intros [ex|];
    [|apply readOnly_failsClean, readOnly_throw].
  apply failsClean_bind; [apply readOnly_checkExamAccess|]. intros b.
  destruct (negb b); [apply readOnly_failsClean, readOnly_throw|].
  apply failsClean_bind; [apply readOnly_read|]. intros [a|].
  - apply readOnly_failsClean, readOnly_throw.
  - intros w e w'. apply attempt_create_throw.
Qed.

Lemma attempt_update_fails_clean (JSON_parse : string -> option Json)
    (now : Date) (id userId : string) (dto : UpdateAttemptDto)
    (isTeacher : bool) :
  failsClean (AttemptService.update JSON_parse now id userId dto isTeacher).
Proof.
  unfold AttemptService.update.
  apply failsClean_bind; [apply readOnly_findUniqueWithExam|].
  intros [[att ex]|]; [|apply readOnly_failsClean, readOnly_throw].
  destruct (_ && _); [apply readOnly_failsClean, readOnly_throw|].
  apply failsClean_bind; [apply readOnly_parseFeedback|]. intros fb.
  apply failsClean_bind.
  - destruct (negb isTeacher); [|apply readOnly_ret].
    destruct (uad_status dto) as [[]|];
      try apply readOnly_throw; try apply readOnly_ret.
    apply readOnly_bind; [apply readOnly_calculateScore|].
    intros sd. apply readOnly_ret.
  - intros data w e w'. apply attempt_update_throw.
Qed.

Lemma attempt_remove_fails_clean (id userId : string) (isAdmin : bool) :
  failsClean (AttemptService.remove id userId isAdmin).
Proof.
  unfold AttemptService.remove.
  apply failsClean_bind; [apply readOnly_read|].
  intros [att|]; [|apply readOnly_failsClean, readOnly_throw].
  destruct (_ && _); [apply readOnly_failsClean, readOnly_throw|].
  intros w e w'. unfold bind.
  destruct (prisma.attempt.delete id w) as [[a|x] w1] eqn:E.
  - discriminate.
  - intros H. injection H as _ H. subst w'. now apply attempt_delete_throw in E.
Qed.

Lemma attempt_assign_fails_clean (users : list User)
    (attemptId evaluatorId adminId : string) :
  failsClean (AttemptService.assignAttemptToEvaluator users attemptId
                evaluatorId adminId).
Proof.
  unfold AttemptService.assignAttemptToEvaluator.
  apply failsClean_bind; [apply readOnly_read|]. intros admin.
  cbv zeta. destruct (negb _); [apply readOnly_failsClean, readOnly_throw|].
  apply failsClean_bind; [apply readOnly_read|].
  intros [att|]; [|apply readOnly_failsClean, readOnly_throw].
  apply failsClean_bind; [apply readOnly_read|]. intros ev.
  cbv zeta. destruct (negb _); [apply readOnly_failsClean, readOnly_throw|].
  intros w e w'. apply attempt_update_throw.
Qed.

(** X24: whenever [AttemptService.create], [update], [remove] or
    [assignAttemptToEvaluator] throws (a refused request, a malformed
    feedback text or a failed database call), the tables are what they were
    before the call: each of them writes at most once, as its last step. *)
Theorem attempt_writers_fail_clean (JSON_parse : string -> option Json)
    (users : list User) (now : Date) (newId id userId evaluatorId : string)
    (cdto : CreateAttemptDto) (udto : UpdateAttemptDto) (flag : bool)
    (w w' : World) (e : Exception) :
  AttemptService.create now newId userId cdto w = (Throw e, w') \/
  AttemptService.update JSON_parse now id userId udto flag w = (Throw e, w') \/
  AttemptService.remove id userId flag w = (Throw e, w') \/
  AttemptService.assignAttemptToEvaluator users id evaluatorId userId w
  = (Throw e, w') ->
  w_db w' = w_db w.
Proof.
  intros [H|[H|[H|H]]].
  - exact (@attempt_create_fails_clean _ _ _ _ _ _ _ H).
  - exact (@attempt_update_fails_clean _ _ _ _ _ _ _ _ _ H).
  - exact (@attempt_remove_fails_clean _ _ _ _ _ _ H).
  - exact (@attempt_assign_fails_clean _ _ _ _ _ _ _ H).
Qed.

(** X24, witness: a student's request to delete the attempt of another
    user is refused, and the tables are unchanged. *)
Lemma attempt_writers_fail_clean_witness :
  exists w',
    AttemptService.remove "a1" "u2" false
      (Sample.world (Sample.dbAnswering AttemptStatus.IN_PROGRESS))
    = (Throw ForbiddenException, w') /\
    w_db w' = Sample.dbAnswering AttemptStatus.IN_PROGRESS.
Proof.
  eexists. split; [reflexivity|].
  refine (@attempt_writers_fail_clean (fun _ => None) [] 0%Z "" "a1" "u2" ""
            (Build_CreateAttemptDto "" None None)
            (Build_UpdateAttemptDto None None None None None None None None
               None None None)
            false
            (Sample.world (Sample.dbAnswering AttemptStatus.IN_PROGRESS))
            _ ForbiddenException _).
  right. right. left. reflexivity.
Defined.
